(** * A chat broker: registry, history, wire codec and session protocol

    Shallow embedding of [server/rmi_middleware.js], [server/socket_handler.js]
    and the name check of [models/user.js]; further down, of the other
    operations of [models/user.js], of [models/message.js], of [_escapeXml]
    and of the filter of duplicates of [client/js/rmi_client.js].

    Conventions of the embedding.
    - A JavaScript string is a [string] whose characters are the code units
      U+0000..U+00FF; [toLowerCase] and [trim] are the ECMAScript functions
      restricted to that range.
    - A message object (an ad-hoc JS object literal) is a [jsval]: an
      association list of own properties in insertion order.
    - The module-level [Map]s and the history array are fields of one
      [State] record that every operation threads; a thrown exception keeps
      the mutations made before it, as in JavaScript.
    - One event handler runs to completion before the next starts (the
      awaited functions never yield to I/O), so a handler is one step.
    - [uuidv4()], [new Date()] and the xml2js builder and parser belong to
      the environment: they are the fields of the class [Runtime], and the
      handlers are verified for every instance of it.  Both the parser and
      the builder can throw, and a call of [messageToXml] that throws ends
      the function that made it like any other exception.  [Xml2js] is one
      instance of the XML library, used for the wire codec itself and for
      the runs on concrete frames; [Xmlbuilder] and [Sax] add the checks
      of the installed libraries that make the builder throw.
    - A handler that throws is a handler whose promise is rejected: its
      outcome is [Throw], and the state keeps what it had done. *)

From Stdlib Require Import String Ascii List ZArith Lia Bool Arith.
Import ListNotations.

Local Open Scope string_scope.
Local Open Scope list_scope.

Infix "+++" := String.append (at level 60, right associativity).

(* ================================================================== *)
(** ** JavaScript strings (code units U+0000..U+00FF)                  *)
(* ================================================================== *)

Definition code (c : ascii) : nat := nat_of_ascii c.

Definition between (lo hi n : nat) : bool := Nat.leb lo n && Nat.leb n hi.

(** ECMAScript [WhiteSpace] and [LineTerminator] below U+0100: TAB, LF, VT,
    FF, CR, SP and NBSP.  This is what [trim] strips and what [\s] matches. *)
Definition isWhiteSpace (c : ascii) : bool :=
  let n := code c in between 9 13 n || Nat.eqb n 32 || Nat.eqb n 160.

(** [String.prototype.toLowerCase] on one code unit: A-Z, and the Latin-1
    capitals U+00C0..U+00DE except the multiplication sign U+00D7. *)
Definition lowerChar (c : ascii) : ascii :=
  let n := code c in
  if between 65 90 n || between 192 214 n || between 216 222 n
  then ascii_of_nat (n + 32) else c.

Fixpoint toLowerCase (s : string) : string :=
  match s with
  | EmptyString => EmptyString
  | String c r => String (lowerChar c) (toLowerCase r)
  end.

Fixpoint trimStart (s : string) : string :=
  match s with
  | EmptyString => EmptyString
  | String c r => if isWhiteSpace c then trimStart r else s
  end.

Fixpoint trimEnd (s : string) : string :=
  match s with
  | EmptyString => EmptyString
  | String c r =>
      match trimEnd r with
      | EmptyString => if isWhiteSpace c then EmptyString else String c EmptyString
      | r' => String c r'
      end
  end.

Definition trim (s : string) : string := trimEnd (trimStart s).

(** The regular expression [/^\s*$/]. *)
Fixpoint isBlank (s : string) : bool :=
  match s with
  | EmptyString => true
  | String c r => isWhiteSpace c && isBlank r
  end.

Definition chr (n : nat) : string := String (ascii_of_nat n) EmptyString.

(** Characters that cannot be written inside a string literal here, and the
    accented letters of the server's texts as single code units. *)
Definition dquote : string := chr 34.
Definition LF : string := chr 10.
Definition a_acute : string := chr 225.
Definition e_acute : string := chr 233.
Definition i_acute : string := chr 237.
Definition o_acute : string := chr 243.

(* ================================================================== *)
(** ** JavaScript values and exceptions                                *)
(* ================================================================== *)

#[warnings="-register-all"]
Inductive jsval : Type :=
| JUndef
| JNull
| JStr (s : string)
| JObj (props : list (string * jsval))
| JArr (items : list jsval).

(** [!!v] for the values of the embedding. *)
Definition truthy (v : jsval) : bool :=
  match v with
  | JUndef | JNull => false
  | JStr s => negb (s =? "")
  | JObj _ | JArr _ => true
  end.

(** [v === 'lit'] against a string. *)
Definition isStr (v : jsval) (lit : string) : bool :=
  match v with
  | JStr s => s =? lit
  | _ => false
  end.

Fixpoint assoc {A : Type} (k : string) (l : list (string * A)) : option A :=
  match l with
  | [] => None
  | (k', a) :: r => if k' =? k then Some a else assoc k r
  end.

Inductive error : Type :=
| Error (message : string)
| TypeError (message : string).

Definition message (e : error) : string :=
  match e with
  | Error m => m
  | TypeError m => m
  end.

Inductive outcome (A : Type) : Type :=
| Ok (a : A)
| Throw (e : error).
Arguments Ok {A} a.
Arguments Throw {A} e.

(** Property read [v.k] where [k] is none of the built-in properties of
    strings and arrays: it throws on [undefined] and [null]. *)
Definition prop (v : jsval) (k : string) : outcome jsval :=
  match v with
  | JUndef =>
      Throw (TypeError ("Cannot read properties of undefined (reading '" +++ k +++ "')"))
  | JNull =>
      Throw (TypeError ("Cannot read properties of null (reading '" +++ k +++ "')"))
  | JObj ps => match assoc k ps with Some x => Ok x | None => Ok JUndef end
  | JStr _ | JArr _ => Ok JUndef
  end.

(** The same read on a value already known to be an object. *)
Definition get (v : jsval) (k : string) : jsval :=
  match v with
  | JObj ps => match assoc k ps with Some x => x | None => JUndef end
  | _ => JUndef
  end.

(** [obj.k = x] on an object: replaces the property in place or appends it. *)
Fixpoint setProp (k : string) (x : jsval) (ps : list (string * jsval)) :
  list (string * jsval) :=
  match ps with
  | [] => [(k, x)]
  | (k', y) :: r => if k' =? k then (k, x) :: r else (k', y) :: setProp k x r
  end.

Definition assign (v : jsval) (k : string) (x : jsval) : jsval :=
  match v with
  | JObj ps => JObj (setProp k x ps)
  | _ => v
  end.

(* ================================================================== *)
(** ** The XML library (xml2js) on the wire format                     *)
(* ================================================================== *)

Module Xml2js.

(** Modelled from the spec: the wire codec.  [messageToXml] and
    [xmlToMessage] delegate to the [Builder] and [Parser] of xml2js, whose
    code is not part of the repository.  The spec asks for an encoder that
    is total and deterministic, renders every present field as a named
    element and omits absent ones, and for a decoder that dispatches on the
    root element, ignores unknown fields and fails on text that is not
    well formed.  The model below is such a codec on the XML subset of the
    wire format: a declaration, elements without attributes, character
    data with the predefined and numeric entities. *)

#[warnings="-register-all"]
Inductive xnode : Type :=
| XText (s : string)
| XElem (name : string) (kids : list xnode).

(** Modelled from the spec: escaping of character data by the builder. *)
Definition escapeChar (c : ascii) : string :=
  if (c =? "&")%char then "&amp;"
  else if (c =? "<")%char then "&lt;"
  else if (c =? ">")%char then "&gt;"
  else if (c =? "013")%char then "&#xD;"
  else String c EmptyString.

Fixpoint textEscape (s : string) : string :=
  match s with
  | EmptyString => EmptyString
  | String c r => escapeChar c +++ textEscape r
  end.

(** Modelled from the spec: the builder's walk over an object.  The key
    [_] holds character data; an array repeats its element; [undefined]
    and [null] render as the empty string. *)
Fixpoint render (v : jsval) : list xnode :=
  match v with
  | JObj ps =>
      flat_map (fun '(k, child) =>
        match child with
        | JStr s => if k =? "_" then [XText s] else [XElem k [XText s]]
        | JObj _ => [XElem k (render child)]
        | JArr items =>
            map (fun entry =>
                   match entry with
                   | JStr s => XElem k [XText s]
                   | _ => XElem k (render entry)
                   end) items
        | JUndef | JNull => [XElem k [XText ""]]
        end) ps
  | JArr items => flat_map render items
  | JStr s => [XText s]
  | JUndef | JNull => []
  end.

Fixpoint indentation (level : nat) : string :=
  match level with
  | O => ""
  | S n => "  " +++ indentation n
  end.

Definition isEmptyText (n : xnode) : bool :=
  match n with
  | XText s => s =? ""
  | XElem _ _ => false
  end.

Fixpoint concatStr (l : list string) : string :=
  match l with
  | [] => ""
  | x :: r => x +++ concatStr r
  end.

(** Modelled from the spec: the pretty printer (two spaces per level, one
    node per line, an element whose only child is text on one line, an
    element without content as an empty-element tag). *)
Fixpoint writeNode (level : nat) (n : xnode) : string :=
  match n with
  | XText s => indentation level +++ textEscape s
  | XElem name kids =>
      indentation level +++ "<" +++ name +++
      (if forallb isEmptyText kids then "/>"
       else match kids with
            | [XText s] => ">" +++ textEscape s +++ "</" +++ name +++ ">"
            | _ =>
                ">" +++ LF +++
                concatStr (map (fun k => writeNode (S level) k +++ LF) kids) +++
                indentation level +++ "</" +++ name +++ ">"
            end)
  end.

Definition xmldec : string :=
  "<?xml version=" +++ dquote +++ "1.0" +++ dquote +++
  " encoding=" +++ dquote +++ "UTF-8" +++ dquote +++
  " standalone=" +++ dquote +++ "yes" +++ dquote +++ "?>".

(** Modelled from the spec: [Builder.buildObject].  An object with a single
    key names the root element after it. *)
Definition buildObject (rootObj : jsval) : string :=
  match rootObj with
  | JObj [(rootName, obj)] => xmldec +++ LF +++ writeNode 0 (XElem rootName (render obj))
  | _ => xmldec +++ LF +++ writeNode 0 (XElem "root" (render rootObj))
  end.

(** *** The parser: a character-driven state machine in the style of sax *)

(** Modelled from the spec: the decoder.  It reads the text one character
    at a time, keeps the stack of open elements, and fails on text that is
    not well formed: a tag that does not match, markup outside the subset,
    a missing or unclosed root. *)

Definition isNameStart (c : ascii) : bool :=
  let n := code c in
  between 65 90 n || between 97 122 n || Nat.eqb n 95 || Nat.eqb n 58 ||
  between 192 214 n || between 216 246 n || between 248 255 n.

Definition isNameBody (c : ascii) : bool :=
  let n := code c in
  isNameStart c || between 48 57 n || Nat.eqb n 45 || Nat.eqb n 46 || Nat.eqb n 183.

Definition isEntityChar (c : ascii) : bool :=
  let n := code c in
  between 65 90 n || between 97 122 n || between 48 57 n || Nat.eqb n 35.

Definition hexDigit (c : ascii) : option nat :=
  let n := code c in
  if between 48 57 n then Some (n - 48)
  else if between 97 102 n then Some (n - 87)
  else if between 65 70 n then Some (n - 55)
  else None.

Definition decDigit (c : ascii) : option nat :=
  let n := code c in
  if between 48 57 n then Some (n - 48) else None.

Fixpoint parseDigits (digit : ascii -> option nat) (radix : nat) (s : string)
  (acc : nat) : option nat :=
  match s with
  | EmptyString => Some acc
  | String c r =>
      match digit c with
      | Some d => parseDigits digit radix r (acc * radix + d)
      | None => None
      end
  end.

Definition charOfCode (n : option nat) : option ascii :=
  match n with
  | Some k => if Nat.ltb k 256 then Some (ascii_of_nat k) else None
  | None => None
  end.

Definition decodeEntity (e : string) : option ascii :=
  if e =? "amp" then Some "&"%char
  else if e =? "lt" then Some "<"%char
  else if e =? "gt" then Some ">"%char
  else if e =? "quot" then Some (ascii_of_nat 34)
  else if e =? "apos" then Some "'"%char
  else match e with
       | String "#" (String x (String d r)) =>
           if ((x =? "x") || (x =? "X"))%char
           then charOfCode (parseDigits hexDigit 16 (String d r) 0)
           else charOfCode (parseDigits decDigit 10 (String x (String d r)) 0)
       | String "#" (String d EmptyString) =>
           charOfCode (parseDigits decDigit 10 (String d EmptyString) 0)
       | _ => None
       end.

(** An element that is still open: its name, the character data read so
    far and the children already closed. *)
Record frame : Type := mkFrame {
  fname : string;
  ftext : string;
  fkids : list (string * jsval)
}.

Inductive mode : Type :=
| MBegin
| MText
| MEntity (e : string)
| MOpenWaka
| MProcInst
| MProcInstEnd
| MOpenTag (n : string)
| MOpenTagSpace (n : string)
| MOpenTagSlash (n : string)
| MCloseTag (n : string)
| MCloseTagSpace (n : string).

Record parser : Type := mkParser {
  pmode : mode;
  pstack : list frame;
  presult : option jsval
}.

Definition fail {A : Type} (m : string) : outcome A := Throw (Error m).

Definition withMode (m : mode) (p : parser) : parser :=
  mkParser m (pstack p) (presult p).

(** Modelled from the spec: the value of a closed element
    ([explicitArray: false], no attributes): its text when it has no child
    element, else the object of its children, with non-blank text under
    the key [_]. *)
Definition closeValue (f : frame) : jsval :=
  match fkids f with
  | [] => JStr (ftext f)
  | kids => if isBlank (ftext f) then JObj kids
            else JObj (("_", JStr (ftext f)) :: kids)
  end.

(** Modelled from the spec: a child is stored under its element name; a
    repeated name turns the property into an array. *)
Fixpoint addChild (k : string) (v : jsval) (kids : list (string * jsval)) :
  list (string * jsval) :=
  match kids with
  | [] => [(k, v)]
  | (k', old) :: r =>
      if k' =? k
      then (k', match old with
                | JArr items => JArr (items ++ [v])
                | _ => JArr [old; v]
                end) :: r
      else (k', old) :: addChild k v r
  end.

Definition pushText (c : ascii) (p : parser) : outcome parser :=
  match pstack p with
  | f :: r =>
      Ok (mkParser MText
            (mkFrame (fname f) (ftext f +++ String c EmptyString) (fkids f) :: r)
            (presult p))
  | [] =>
      if isWhiteSpace c then Ok (withMode MText p)
      else fail "Text data outside of root node."
  end.

Definition openTag (n : string) (p : parser) : outcome parser :=
  match pstack p, presult p with
  | [], Some _ => fail "Text data outside of root node."
  | st, res => Ok (mkParser MText (mkFrame n "" [] :: st) res)
  end.

Definition closeTag (n : string) (p : parser) : outcome parser :=
  match pstack p with
  | [] => fail ("Unmatched closing tag: " +++ n)
  | f :: r =>
      if fname f =? n
      then match r with
           | [] => Ok (mkParser MText [] (Some (JObj [(n, closeValue f)])))
           | parent :: r' =>
               Ok (mkParser MText
                     (mkFrame (fname parent) (ftext parent)
                        (addChild n (closeValue f) (fkids parent)) :: r')
                     (presult p))
           end
      else fail ("Unexpected close tag: " +++ n)
  end.

Definition snoc (s : string) (c : ascii) : string := s +++ String c EmptyString.

(** Modelled from the spec: one transition of the decoder. *)
Definition step (p : parser) (c : ascii) : outcome parser :=
  match pmode p with
  | MBegin =>
      if (c =? "<")%char then Ok (withMode MOpenWaka p)
      else if isWhiteSpace c then Ok p
      else fail "Non-whitespace before first tag."
  | MText =>
      if (c =? "<")%char then Ok (withMode MOpenWaka p)
      else if (c =? "&")%char then Ok (withMode (MEntity "") p)
      else pushText c p
  | MEntity e =>
      if (c =? ";")%char
      then match decodeEntity e with
           | Some d => pushText d p
           | None => fail ("Invalid character entity: " +++ e)
           end
      else if isEntityChar c then Ok (withMode (MEntity (snoc e c)) p)
      else fail "Invalid character in entity name"
  | MOpenWaka =>
      if (c =? "?")%char then Ok (withMode MProcInst p)
      else if (c =? "/")%char then Ok (withMode (MCloseTag "") p)
      else if isNameStart c then Ok (withMode (MOpenTag (String c EmptyString)) p)
      else fail "Unencoded <"
  | MProcInst =>
      if (c =? "?")%char then Ok (withMode MProcInstEnd p) else Ok p
  | MProcInstEnd =>
      if (c =? ">")%char then Ok (withMode MText p)
      else if (c =? "?")%char then Ok p
      else Ok (withMode MProcInst p)
  | MOpenTag n =>
      if isNameBody c then Ok (withMode (MOpenTag (snoc n c)) p)
      else if (c =? ">")%char then openTag n p
      else if (c =? "/")%char then Ok (withMode (MOpenTagSlash n) p)
      else if isWhiteSpace c then Ok (withMode (MOpenTagSpace n) p)
      else fail "Invalid character in tag name"
  | MOpenTagSpace n =>
      if (c =? ">")%char then openTag n p
      else if (c =? "/")%char then Ok (withMode (MOpenTagSlash n) p)
      else if isWhiteSpace c then Ok p
      else fail "Attributes are not part of the wire format"
  | MOpenTagSlash n =>
      if (c =? ">")%char
      then match openTag n p with
           | Ok p' => closeTag n p'
           | Throw e => Throw e
           end
      else fail "Forward-slash in opening tag not followed by >"
  | MCloseTag n =>
      match n with
      | EmptyString =>
          if isNameStart c then Ok (withMode (MCloseTag (String c EmptyString)) p)
          else fail "Invalid tagname in closing tag."
      | _ =>
          if (c =? ">")%char then closeTag n p
          else if isNameBody c then Ok (withMode (MCloseTag (snoc n c)) p)
          else if isWhiteSpace c then Ok (withMode (MCloseTagSpace n) p)
          else fail "Invalid tagname in closing tag"
      end
  | MCloseTagSpace n =>
      if (c =? ">")%char then closeTag n p
      else if isWhiteSpace c then Ok p
      else fail "Invalid characters in closing tag"
  end.

Fixpoint feed (p : parser) (s : string) : outcome parser :=
  match s with
  | EmptyString => Ok p
  | String c r =>
      match step p c with
      | Ok p' => feed p' r
      | Throw e => Throw e
      end
  end.

Definition finish (p : parser) : outcome jsval :=
  match pmode p, pstack p, presult p with
  | MText, [], Some v => Ok v
  | (MText | MBegin), [], None => fail "Document has no root element"
  | MText, _ :: _, _ => fail "Unclosed root tag"
  | _, _, _ => fail "Unexpected end"
  end.

(** Modelled from the spec: [Parser.parseStringPromise] with
    [explicitArray: false].  Blank input yields [null]; a document yields
    the object that holds the root element under its name. *)
Definition parseString (xml : string) : outcome jsval :=
  if trim xml =? "" then Ok JNull
  else match feed (mkParser MBegin [] None) xml with
       | Ok p => finish p
       | Throw e => Throw e
       end.

End Xml2js.

(* ================================================================== *)
(** ** Shared state and the monad of the handlers                      *)
(* ================================================================== *)

(** A transport handle is identified by a number; whether it is OPEN is
    recorded in the state, because the same handle can be bound under
    several user ids. *)
Definition WebSocket : Type := nat.

(** [users] entries of [rmi_middleware.js]: [{userId, username, lastActive}].
    A [Date] is represented by its ISO-8601 text. *)
Record User : Type := mkUser {
  userId : string;
  username : string;
  lastActive : string
}.

Record State : Type := mkState {
  users : list (string * User);                 (* Map userId -> user *)
  messageHistory : list jsval;                  (* oldest first *)
  activeConnections : list (string * WebSocket);(* Map userId -> WebSocket *)
  openSockets : list WebSocket;                 (* readyState === OPEN *)
  sent : list (WebSocket * string);             (* every ws.send, oldest first *)
  uuidCalls : nat;                              (* calls of uuidv4() so far *)
  dateCalls : nat                               (* calls of new Date() so far *)
}.

(** What the broker takes from its runtime: identifiers, the clock and the
    XML library. *)
Class Runtime : Type := {
  uuidv4 : nat -> string;
  isoDate : nat -> string;
  parseStringPromise : string -> outcome jsval;
  buildObject : jsval -> outcome string
}.

Definition M (A : Type) : Type := State -> outcome A * State.

Definition ret {A : Type} (a : A) : M A := fun s => (Ok a, s).

Definition throw {A : Type} (e : error) : M A := fun s => (Throw e, s).

Definition bind {A B : Type} (m : M A) (f : A -> M B) : M B :=
  fun s =>
    match m s with
    | (Ok a, s') => f a s'
    | (Throw e, s') => (Throw e, s')
    end.

(** [try { m } catch (error) { h error }]: the handler runs in the state the
    body had reached when it threw. *)
Definition tryCatch {A : Type} (m : M A) (h : error -> M A) : M A :=
  fun s =>
    match m s with
    | (Ok a, s') => (Ok a, s')
    | (Throw e, s') => h e s'
    end.

Definition liftO {A : Type} (o : outcome A) : M A := fun s => (o, s).

Definition gets {A : Type} (f : State -> A) : M A := fun s => (Ok (f s), s).

Definition modify (f : State -> State) : M unit := fun s => (Ok tt, f s).

Notation "x <- m ;; k" := (bind m (fun x => k))
  (at level 100, m at next level, right associativity).
Notation "m ;; k" := (bind m (fun _ => k))
  (at level 100, right associativity).

Fixpoint forEach {A : Type} (l : list A) (body : A -> M unit) : M unit :=
  match l with
  | [] => ret tt
  | a :: r => body a ;; forEach r body
  end.

Definition setUsers (u : list (string * User)) (s : State) : State :=
  mkState u (messageHistory s) (activeConnections s) (openSockets s) (sent s)
    (uuidCalls s) (dateCalls s).

Definition setHistory (h : list jsval) (s : State) : State :=
  mkState (users s) h (activeConnections s) (openSockets s) (sent s)
    (uuidCalls s) (dateCalls s).

Definition setConnections (c : list (string * WebSocket)) (s : State) : State :=
  mkState (users s) (messageHistory s) c (openSockets s) (sent s)
    (uuidCalls s) (dateCalls s).

Definition setSent (o : list (WebSocket * string)) (s : State) : State :=
  mkState (users s) (messageHistory s) (activeConnections s) (openSockets s) o
    (uuidCalls s) (dateCalls s).

(** *** [Map] with string keys, in insertion order *)

Fixpoint mapSet {A : Type} (k : string) (a : A) (m : list (string * A)) :
  list (string * A) :=
  match m with
  | [] => [(k, a)]
  | (k', b) :: r => if k' =? k then (k, a) :: r else (k', b) :: mapSet k a r
  end.

Fixpoint mapDelete {A : Type} (k : string) (m : list (string * A)) :
  list (string * A) :=
  match m with
  | [] => []
  | (k', b) :: r => if k' =? k then r else (k', b) :: mapDelete k r
  end.

(** [map.get(v)] and [map.delete(v)] for an arbitrary value: only a string
    can equal a key. *)
Definition mapGet {A : Type} (v : jsval) (m : list (string * A)) : option A :=
  match v with
  | JStr k => assoc k m
  | _ => None
  end.

Definition mapDeleteV {A : Type} (v : jsval) (m : list (string * A)) :
  list (string * A) :=
  match v with
  | JStr k => mapDelete k m
  | _ => m
  end.

Definition mapValues {A : Type} (m : list (string * A)) : list A := map snd m.

(** *** Arrays *)

(** [a.slice(start)] with one argument. *)
Definition slice {A : Type} (start : Z) (a : list A) : list A :=
  let len := Z.of_nat (length a) in
  let k := if (start <? 0)%Z then Z.max (len + start) 0 else Z.min start len in
  skipn (Z.to_nat k) a.

(** [a.shift()] keeps the tail. *)
Definition shift {A : Type} (a : list A) : list A := tl a.

(** *** [JSON.stringify] of the user array *)

Definition hexChar (n : nat) : string := substring n 1 "0123456789abcdef".

Definition jsonQuoteChar (c : ascii) : string :=
  let n := code c in
  if Nat.eqb n 8 then "\b"
  else if Nat.eqb n 9 then "\t"
  else if Nat.eqb n 10 then "\n"
  else if Nat.eqb n 12 then "\f"
  else if Nat.eqb n 13 then "\r"
  else if Nat.eqb n 34 then "\" +++ dquote
  else if Nat.eqb n 92 then "\\"
  else if Nat.ltb n 32 then "\u00" +++ hexChar (n / 16) +++ hexChar (n mod 16)
  else String c EmptyString.

Fixpoint jsonEscape (s : string) : string :=
  match s with
  | EmptyString => EmptyString
  | String c r => jsonQuoteChar c +++ jsonEscape r
  end.

Definition jsonString (s : string) : string := dquote +++ jsonEscape s +++ dquote.

Definition jsonMember (k v : string) : string := jsonString k +++ ":" +++ jsonString v.

Definition jsonUser (u : User) : string :=
  "{" +++ jsonMember "userId" (userId u) +++ "," +++
  jsonMember "username" (username u) +++ "," +++
  jsonMember "lastActive" (lastActive u) +++ "}".

Fixpoint joinWith (sep : string) (l : list string) : string :=
  match l with
  | [] => ""
  | [x] => x
  | x :: r => x +++ sep +++ joinWith sep r
  end.

(** [JSON.stringify(users)] for an array of user objects. *)
Definition JSON_stringify (us : list User) : string :=
  "[" +++ joinWith "," (map jsonUser us) +++ "]".

(** *** Primitive effects *)

Definition newDate {rt : Runtime} : M string :=
  fun s =>
    (Ok (isoDate (dateCalls s)),
     mkState (users s) (messageHistory s) (activeConnections s) (openSockets s)
       (sent s) (uuidCalls s) (S (dateCalls s))).

Definition newUuid {rt : Runtime} : M string :=
  fun s =>
    (Ok (uuidv4 (uuidCalls s)),
     mkState (users s) (messageHistory s) (activeConnections s) (openSockets s)
       (sent s) (S (uuidCalls s)) (dateCalls s)).

(** [ws.send(data)]. *)
Definition wsSend (ws : WebSocket) (data : string) : M unit :=
  modify (fun s => setSent (sent s ++ [(ws, data)]) s).

(** [ws.readyState === ws.OPEN]. *)
Definition isOpen (s : State) (ws : WebSocket) : bool :=
  existsb (Nat.eqb ws) (openSockets s).

(* ================================================================== *)
(** ** server/rmi_middleware.js                                        *)
(* ================================================================== *)

Module RmiMiddleware.
Section WithRuntime.

Context {rt : Runtime}.

(** The listeners of [chatEvents.on('message', ...)]. *)
Variable listener : jsval -> M unit.

Definition MAX_HISTORY : nat := 100.

Definition emptyNameText : string :=
  "El nombre de usuario no puede estar vac" +++ i_acute +++ "o".

Definition nameInUseText : string :=
  "El nombre de usuario ya est" +++ a_acute +++ " en uso".

Definition invalidXmlText : string := "XML inv" +++ a_acute +++ "lido: ".

Record RegisterResponse : Type := mkResponse {
  r_success : bool;
  r_message : string;
  r_userId : string
}.

Definition messageToXml (message : jsval) : outcome string :=
  buildObject (JObj [("message", message)]).

Definition xmlToMessage (xmlMessage : string) : outcome jsval :=
  match parseStringPromise xmlMessage with
  | Ok result =>
      match prop result "message" with
      | Ok m => Ok m
      | Throw e => Throw (Error (invalidXmlText +++ message e))
      end
  | Throw e => Throw (Error (invalidXmlText +++ message e))
  end.

Definition createSystemMessage (content type : string) : M jsval :=
  t <- newDate ;;
  ret (JObj [("userId", JStr "system"); ("username", JStr "Sistema");
             ("content", JStr content); ("timestamp", JStr t);
             ("type", JStr type)]).

Definition saveMessage (message : jsval) : M unit :=
  modify (fun s => setHistory (messageHistory s ++ [message]) s) ;;
  len <- gets (fun s => length (messageHistory s)) ;;
  if Nat.ltb MAX_HISTORY len
  then modify (fun s => setHistory (shift (messageHistory s)) s)
  else ret tt.

Definition notifyAll (message : jsval) : M unit := listener message.

Definition registerUser (uname : jsval) : M RegisterResponse :=
  (* if (!username || !username.trim()) throw ... *)
  name <- match uname with
          | JUndef | JNull => throw (Error emptyNameText)
          | JStr n =>
              if (n =? "") || (trim n =? "")
              then throw (Error emptyNameText) else ret n
          | JObj _ | JArr _ => throw (TypeError "username.trim is not a function")
          end ;;
  us <- gets users ;;
  let userExists :=
    existsb (fun user => toLowerCase (username user) =? toLowerCase name)
      (mapValues us) in
  if userExists then throw (Error nameInUseText)
  else
    uid <- newUuid ;;
    t <- newDate ;;
    modify (fun s => setUsers (mapSet uid (mkUser uid name t) (users s)) s) ;;
    joinMessage <- createSystemMessage (name +++ " se ha unido al chat") "JOIN" ;;
    saveMessage joinMessage ;;
    notifyAll joinMessage ;;
    ret (mkResponse true "Registro exitoso" uid).

Definition getUsers : M (list User) := gets (fun s => mapValues (users s)).

(** [user.lastActive = new Date()] on the object held by the map. *)
Definition touch (uid : string) (t : string) : M unit :=
  modify (fun s =>
    match assoc uid (users s) with
    | Some user =>
        setUsers (mapSet uid (mkUser (userId user) (username user) t) (users s)) s
    | None => s
    end).

Definition sendMessage (messageData : jsval) : M jsval :=
  if negb (truthy (get messageData "userId")) ||
     negb (truthy (get messageData "content"))
  then throw (Error "Datos de mensaje incompletos")
  else
    found <- gets (fun s => mapGet (get messageData "userId") (users s)) ;;
    match found, get messageData "userId" with
    | Some user, JStr uid =>
        t <- newDate ;;
        touch uid t ;;
        stamp <- newDate ;;
        let message :=
          JObj [("userId", get messageData "userId");
                ("username", JStr (username user));
                ("content", get messageData "content");
                ("timestamp", JStr stamp);
                ("type", JStr "CHAT")] in
        saveMessage message ;;
        notifyAll message ;;
        ret message
    | _, _ => throw (Error "Usuario no encontrado")
    end.

Definition sendPrivateMessage (messageData : jsval) : M jsval :=
  if negb (truthy (get messageData "userId")) ||
     negb (truthy (get messageData "targetUserId")) ||
     negb (truthy (get messageData "content"))
  then throw (Error "Datos de mensaje privado incompletos")
  else
    sender <- gets (fun s => mapGet (get messageData "userId") (users s)) ;;
    match sender, get messageData "userId" with
    | Some sender, JStr uid =>
        target <- gets (fun s => mapGet (get messageData "targetUserId") (users s)) ;;
        match target with
        | None => throw (Error "Usuario destinatario no encontrado")
        | Some target =>
            t <- newDate ;;
            touch uid t ;;
            stamp <- newDate ;;
            let message :=
              JObj [("userId", get messageData "userId");
                    ("username", JStr (username sender));
                    ("targetUserId", get messageData "targetUserId");
                    ("targetUsername", JStr (username target));
                    ("content", get messageData "content");
                    ("timestamp", JStr stamp);
                    ("type", JStr "PRIVATE")] in
            saveMessage message ;;
            notifyAll message ;;
            ret message
        end
    | _, _ => throw (Error "Usuario remitente no encontrado")
    end.

Definition disconnectUser (uid : jsval) : M bool :=
  found <- gets (fun s => mapGet uid (users s)) ;;
  match found with
  | None => ret false
  | Some user =>
      modify (fun s => setUsers (mapDeleteV uid (users s)) s) ;;
      leaveMessage <-
        createSystemMessage (username user +++ " ha abandonado el chat") "LEAVE" ;;
      saveMessage leaveMessage ;;
      notifyAll leaveMessage ;;
      ret true
  end.

(** [getMessageHistory(limit = 20)]: [None] is the call without argument. *)
Definition getMessageHistory (limit : option Z) : M (list jsval) :=
  let limit := match limit with Some l => l | None => 20%Z end in
  gets (fun s =>
    let count := Z.min limit (Z.of_nat (length (messageHistory s))) in
    slice (- count) (messageHistory s)).

End WithRuntime.
End RmiMiddleware.

(* ================================================================== *)
(** ** server/socket_handler.js                                        *)
(* ================================================================== *)

Module SocketHandler.
Section WithRuntime.

Context {rt : Runtime}.

Definition broadcastMessage (xmlMessage : string) : M unit :=
  conns <- gets (fun s => mapValues (activeConnections s)) ;;
  forEach conns (fun ws =>
    open <- gets (fun s => isOpen s ws) ;;
    if open then wsSend ws xmlMessage else ret tt).

Definition sendPrivateMessage (xmlMessage : string)
  (targetUserId senderUserId : jsval) : M unit :=
  targetWs <- gets (fun s => mapGet targetUserId (activeConnections s)) ;;
  (match targetWs with
   | Some ws =>
       open <- gets (fun s => isOpen s ws) ;;
       if open then wsSend ws xmlMessage else ret tt
   | None => ret tt
   end) ;;
  senderWs <- gets (fun s => mapGet senderUserId (activeConnections s)) ;;
  match senderWs, senderUserId with
  | Some ws, JStr sender =>
      open <- gets (fun s => isOpen s ws) ;;
      if open && negb (isStr targetUserId sender)
      then wsSend ws xmlMessage else ret tt
  | _, _ => ret tt
  end.

(** The callback that [subscribeToEvents] registers on [chatEvents]. *)
Definition onChatEvent (message : jsval) : M unit :=
  xmlMessage <- liftO (RmiMiddleware.messageToXml message) ;;
  if isStr (get message "type") "PRIVATE"
  then sendPrivateMessage xmlMessage (get message "targetUserId") (get message "userId")
  else broadcastMessage xmlMessage.

Definition registerUser := RmiMiddleware.registerUser onChatEvent.
Definition sendMessage := RmiMiddleware.sendMessage onChatEvent.
Definition disconnectUser := RmiMiddleware.disconnectUser onChatEvent.

Definition sendUserListUpdate : M unit :=
  us <- RmiMiddleware.getUsers ;;
  stamp <- newDate ;;
  let userListMessage :=
    JObj [("userId", JStr "system"); ("username", JStr "Sistema");
          ("content", JStr (JSON_stringify us));
          ("timestamp", JStr stamp);
          ("type", JStr "USER_LIST")] in
  xmlMessage <- liftO (RmiMiddleware.messageToXml userListMessage) ;;
  broadcastMessage xmlMessage.

(** The test of the replay loop: a PRIVATE message that is neither for nor
    from the joining user is skipped. *)
Definition skipped (uid : string) (msg : jsval) : bool :=
  isStr (get msg "type") "PRIVATE" &&
  negb (isStr (get msg "targetUserId") uid) &&
  negb (isStr (get msg "userId") uid).

(** Lines 182-192 of [handleJoin]: the history replay. *)
Definition replayHistory (ws : WebSocket) (uid : string) : M unit :=
  history <- RmiMiddleware.getMessageHistory None ;;
  forEach history (fun msg =>
    if skipped uid msg then ret tt
    else
      xml <- liftO (RmiMiddleware.messageToXml msg) ;;
      wsSend ws xml).

Definition nameErrorText : string :=
  "Error: El nombre de usuario ya est" +++ a_acute +++ " en uso".

Definition connectedText : string := "Conexi" +++ o_acute +++ "n establecida".

(** [user.username.toLowerCase() === message.username.toLowerCase()] inside
    [users.some]: the right-hand side is evaluated once per user, so it only
    throws when there is a user to compare with. *)
Definition usernameExists (us : list User) (uname : jsval) : outcome bool :=
  match us with
  | [] => Ok false
  | _ :: _ =>
      match uname with
      | JStr n =>
          Ok (existsb (fun user => toLowerCase (username user) =? toLowerCase n) us)
      | JUndef =>
          Throw (TypeError "Cannot read properties of undefined (reading 'toLowerCase')")
      | JNull =>
          Throw (TypeError "Cannot read properties of null (reading 'toLowerCase')")
      | JObj _ | JArr _ =>
          Throw (TypeError "message.username.toLowerCase is not a function")
      end
  end.

(** A call of an [async] function that is not awaited: a rejection of its
    promise does not reach the caller. *)
Definition detached (m : M unit) : M unit := tryCatch m (fun _ => ret tt).

(** Lines 167-195 of [handleJoin]: the binding, the confirmation, the
    replay and the roster, whose call is not awaited. *)
Definition welcome (ws : WebSocket) (uid : string) : M unit :=
  modify (fun s => setConnections (mapSet uid ws (activeConnections s)) s) ;;
  stamp <- newDate ;;
  joinResponse <-
    liftO (RmiMiddleware.messageToXml
             (JObj [("userId", JStr "system"); ("username", JStr "Sistema");
                    ("content", JStr connectedText);
                    ("timestamp", JStr stamp);
                    ("type", JStr "JOIN");
                    ("clientId", JStr uid)])) ;;
  wsSend ws joinResponse ;;
  replayHistory ws uid ;;
  detached sendUserListUpdate.

(** [handleJoin(ws, message)].  The result is [message] as the function
    leaves it ([message.userId] may have been assigned). *)
Definition handleJoin (ws : WebSocket) (message : jsval) : M jsval :=
  let requested := get message "userId" in
  joined <-
    (if truthy requested && negb (isStr requested "system")
     then
       us <- RmiMiddleware.getUsers ;;
       match requested with
       | JStr uid =>
           if existsb (fun user => userId user =? uid) us
           then ret (Some (uid, message))
           else
             result <- registerUser (get message "username") ;;
             ret (Some (RmiMiddleware.r_userId result,
                        assign message "userId" (JStr (RmiMiddleware.r_userId result))))
       | _ =>
           result <- registerUser (get message "username") ;;
           ret (Some (RmiMiddleware.r_userId result,
                      assign message "userId" (JStr (RmiMiddleware.r_userId result))))
       end
     else
       us <- RmiMiddleware.getUsers ;;
       taken <- liftO (usernameExists us (get message "username")) ;;
       if taken
       then
         stamp <- newDate ;;
         errorResponse <-
           liftO (RmiMiddleware.messageToXml
                    (JObj [("userId", JStr "system"); ("username", JStr "Sistema");
                           ("content", JStr nameErrorText);
                           ("timestamp", JStr stamp);
                           ("type", JStr "ERROR")])) ;;
         wsSend ws errorResponse ;;
         ret None
       else
         result <- registerUser (get message "username") ;;
         ret (Some (RmiMiddleware.r_userId result,
                    assign message "userId" (JStr (RmiMiddleware.r_userId result))))) ;;
  match joined with
  | None => ret message
  | Some (uid, message') =>
      welcome ws uid ;;
      ret message'
  end.

(** The [catch] block of the ['message'] handler: the reply is encoded
    outside any [try], so an exception of the builder leaves the handler. *)
Definition catchBlock (ws : WebSocket) (connUserId : jsval) (error : error) : M jsval :=
  stamp <- newDate ;;
  reply <-
    liftO (RmiMiddleware.messageToXml
             (JObj [("userId", JStr "system"); ("username", JStr "Sistema");
                    ("content", JStr ("Error: " +++ message error));
                    ("timestamp", JStr stamp);
                    ("type", JStr "CHAT")])) ;;
  wsSend ws reply ;;
  ret connUserId.

(** The ['message'] handler of one connection.  [connUserId] is the closure
    variable [userId]; the result is its value when the handler ends, and
    [Throw] when the promise of the handler is rejected. *)
Definition onMessage (ws : WebSocket) (connUserId : jsval) (data : string) :
  M jsval :=
  tryCatch
    (message <- liftO (RmiMiddleware.xmlToMessage data) ;;
     type <- liftO (prop message "type") ;;
     if isStr type "JOIN" then
       message' <- handleJoin ws message ;;
       ret (get message' "userId")
     else if isStr type "CHAT" then
       sendMessage (JObj [("userId", get message "userId");
                          ("content", get message "content")]) ;;
       ret connUserId
     else if isStr type "PRIVATE" then
       RmiMiddleware.sendPrivateMessage onChatEvent
         (JObj [("userId", get message "userId");
                ("targetUserId", get message "targetUserId");
                ("content", get message "content")]) ;;
       ret connUserId
     else if isStr type "LOGOUT" then
       if truthy connUserId then
         disconnectUser connUserId ;;
         modify (fun s =>
           setConnections (mapDeleteV connUserId (activeConnections s)) s) ;;
         ret JNull
       else ret connUserId
     else ret connUserId)
    (catchBlock ws connUserId).

(** The ['close'] handler of one connection; [Throw] when its promise is
    rejected. *)
Definition onClose (connUserId : jsval) : M unit :=
  if truthy connUserId then
    modify (fun s =>
      setConnections (mapDeleteV connUserId (activeConnections s)) s) ;;
    disconnectUser connUserId ;;
    ret tt
  else ret tt.

End WithRuntime.
End SocketHandler.

(* ================================================================== *)
(** ** models/user.js: the name check and [createUser]                 *)
(* ================================================================== *)

Module UserModel.

Record User : Type := mkUser {
  userId : string;
  username : string;
  connected : bool;
  lastActive : string;
  joinedAt : string
}.

(** [activeUsers] is passed explicitly: this module has its own store. *)
Definition isUsernameTaken (activeUsers : list (string * User)) (uname : string) :
  bool :=
  let normalizedUsername := toLowerCase (trim uname) in
  existsb (fun user => toLowerCase (username user) =? normalizedUsername)
    (mapValues activeUsers).

Definition takenText : string :=
  "Este nombre de usuario ya est" +++ a_acute +++ " en uso".

(** [createUser(username, userId = null)]; [fresh] is what [uuidv4()] returns
    when it is called, [t1] and [t2] are the two clock readings. *)
Definition createUser (activeUsers : list (string * User)) (uname : string)
  (uid : option string) (fresh t1 t2 : string) :
  outcome (User * list (string * User)) :=
  let sanitizedUsername := trim uname in
  if sanitizedUsername =? ""
  then Throw (Error RmiMiddleware.emptyNameText)
  else if isUsernameTaken activeUsers sanitizedUsername
  then Throw (Error takenText)
  else
    let id := match uid with
              | Some i => if i =? "" then fresh else i
              | None => fresh
              end in
    let user := mkUser id sanitizedUsername true t1 t2 in
    Ok (user, mapSet id user activeUsers).

End UserModel.

(* ================================================================== *)
(** ** The checks of the installed XML libraries                       *)
(* ================================================================== *)

(** xml2js writes through xmlbuilder and reads through sax; neither is
    part of the repository.  Two of their behaviours decide whether a
    handler returns: xmlbuilder refuses a text that holds a character
    outside the range of XML 1.0, and sax ends the description of an error
    with the position and the character at which it stopped, so that the
    description of a decoding error can itself hold such a character. *)

Fixpoint decimalFrom (fuel n : nat) (acc : string) : string :=
  match fuel with
  | O => acc
  | S f =>
      let acc' := String (ascii_of_nat (48 + n mod 10)) acc in
      if Nat.ltb n 10 then acc' else decimalFrom f (n / 10) acc'
  end.

(** [String(n)] for a natural number. *)
Definition decimal (n : nat) : string := decimalFrom (S n) n "".

Module Xmlbuilder.

(** The characters below U+0100 that XML 1.0 excludes: U+0000..U+0008,
    U+000B, U+000C and U+000E..U+001F. *)
Definition isIllegal (c : ascii) : bool :=
  let n := code c in
  Nat.leb n 8 || Nat.eqb n 11 || Nat.eqb n 12 || between 14 31 n.

Fixpoint illegalIndex (str : string) (i : nat) : option nat :=
  match str with
  | EmptyString => None
  | String c r => if isIllegal c then Some i else illegalIndex r (S i)
  end.

(** [assertLegalChar(str)]. *)
Definition assertLegalChar (str : string) : outcome string :=
  match illegalIndex str 0 with
  | Some i =>
      Throw (Error ("Invalid character in string: " +++ str +++
                    " at index " +++ decimal i))
  | None => Ok str
  end.

(** The texts of a document, in the order in which they are written. *)
Fixpoint texts (n : Xml2js.xnode) : list string :=
  match n with
  | Xml2js.XText s => [s]
  | Xml2js.XElem _ kids => flat_map texts kids
  end.

(** Every text is escaped and then checked. *)
Fixpoint assertAll (l : list string) : outcome unit :=
  match l with
  | [] => Ok tt
  | str :: r =>
      match assertLegalChar (Xml2js.textEscape str) with
      | Ok _ => assertAll r
      | Throw e => Throw e
      end
  end.

Definition rootNode (rootObj : jsval) : Xml2js.xnode :=
  match rootObj with
  | JObj [(rootName, obj)] => Xml2js.XElem rootName (Xml2js.render obj)
  | _ => Xml2js.XElem "root" (Xml2js.render rootObj)
  end.

(** [Builder.buildObject] with the check: the text of [Xml2js.buildObject]
    when every text of the document is legal, else the exception of the
    first text that is not. *)
Definition buildObject (rootObj : jsval) : outcome string :=
  match assertAll (texts (rootNode rootObj)) with
  | Ok _ => Ok (Xml2js.buildObject rootObj)
  | Throw e => Throw e
  end.

End Xmlbuilder.

Module Sax.

(** The description of an error: what went wrong, then the line, the
    column and the character ([parser.c], empty at the end of the text). *)
Definition located (m : string) (line column : nat) (c : string) : string :=
  m +++ LF +++ "Line: " +++ decimal line +++ LF +++
  "Column: " +++ decimal column +++ LF +++ "Char: " +++ c.

(** The decoder of [Xml2js] with the position: a line feed starts a new
    line, any other character advances the column, and both are updated
    before the character is interpreted. *)
Fixpoint run (p : Xml2js.parser) (s : string) (line column : nat) : outcome jsval :=
  match s with
  | EmptyString =>
      match Xml2js.finish p with
      | Ok v => Ok v
      | Throw e => Throw (Error (located (message e) line column ""))
      end
  | String c r =>
      let line' := if (c =? "010")%char then S line else line in
      let column' := if (c =? "010")%char then 0 else S column in
      match Xml2js.step p c with
      | Ok p' => run p' r line' column'
      | Throw e =>
          Throw (Error (located (message e) line' column' (String c EmptyString)))
      end
  end.

Definition parseString (xml : string) : outcome jsval :=
  if trim xml =? "" then Ok JNull
  else run (Xml2js.mkParser Xml2js.MBegin [] None) xml 0 0.

End Sax.

(* ================================================================== *)
(** ** Vocabulary of the statements                                    *)
(* ================================================================== *)

(** The state of a freshly started server. *)
Definition initialState (open : list WebSocket) : State :=
  mkState [] [] [] open [] 0 0.

(** Two display names are the same name: equal after trimming and case
    folding. *)
Definition sameName (a b : string) : bool :=
  toLowerCase (trim a) =? toLowerCase (trim b).

(** The ids of the registry were all produced by the generator. *)
Definition idsIssued {rt : Runtime} (s : State) : Prop :=
  forall k, In k (map fst (users s)) -> exists i, i < uuidCalls s /\ k = uuidv4 i.

(** The last [n] elements of a list, in order. *)
Definition lastN {A : Type} (n : nat) (l : list A) : list A :=
  skipn (length l - n) l.

(** The object literals of [sendMessage], [sendPrivateMessage] and
    [createSystemMessage] as one record: five string fields and the two
    optional fields of a private message. *)
Record Message : Type := mkMessage {
  m_userId : string;
  m_username : string;
  m_targetUserId : option string;
  m_targetUsername : option string;
  m_content : string;
  m_timestamp : string;
  m_type : string
}.

Definition optionalField (k : string) (v : option string) : list (string * string) :=
  match v with
  | Some x => [(k, x)]
  | None => []
  end.

Definition messageFields (m : Message) : list (string * string) :=
  [("userId", m_userId m); ("username", m_username m)] ++
  optionalField "targetUserId" (m_targetUserId m) ++
  optionalField "targetUsername" (m_targetUsername m) ++
  [("content", m_content m); ("timestamp", m_timestamp m); ("type", m_type m)].

Definition flatObject (fields : list (string * string)) : jsval :=
  JObj (map (fun kv => (fst kv, JStr (snd kv))) fields).

Definition toObject (m : Message) : jsval := flatObject (messageFields m).

Fixpoint allNameBody (s : string) : bool :=
  match s with
  | EmptyString => true
  | String c r => Xml2js.isNameBody c && allNameBody r
  end.

(** A key that the codec can carry as an element name: an XML name other
    than [_], which the builder reserves for character data. *)
Definition validKey (k : string) : bool :=
  match k with
  | EmptyString => false
  | String c r => Xml2js.isNameStart c && allNameBody r && negb (k =? "_")
  end.

(** The runtime whose XML library is the codec above: its builder returns
    for every value. *)
Definition xmlRuntime (ids dates : nat -> string) : Runtime :=
  Build_Runtime ids dates Xml2js.parseString (fun v => Ok (Xml2js.buildObject v)).

(** The runtime whose XML library makes the checks of the installed one. *)
Definition checkedRuntime (ids dates : nat -> string) : Runtime :=
  Build_Runtime ids dates Sax.parseString Xmlbuilder.buildObject.

Definition digit (n : nat) : string := substring n 1 "0123456789".

Definition demoIds (n : nat) : string := "id-" +++ digit (n / 10) +++ digit (n mod 10).

Definition demoDates (n : nat) : string :=
  "2024-05-01T10:00:" +++ digit (n / 10) +++ digit (n mod 10) +++ ".000Z".

Definition demoRuntime : Runtime := xmlRuntime demoIds demoDates.

Definition strictRuntime : Runtime := checkedRuntime demoIds demoDates.

(** Running a handler: the final state and the outcome. *)
Definition exec {A : Type} (m : M A) (s : State) : State := snd (m s).
Definition result {A : Type} (m : M A) (s : State) : outcome A := fst (m s).

(** [saveMessage] on the array alone. *)
Definition pushCapped (h : list jsval) (m : jsval) : list jsval :=
  if Nat.ltb RmiMiddleware.MAX_HISTORY (length (h ++ [m])) then shift (h ++ [m]) else h ++ [m].

(** The handles a broadcast writes to: bound and OPEN, in binding order. *)
Definition openHandles (s : State) : list WebSocket :=
  filter (isOpen s) (mapValues (activeConnections s)).

Definition frames (data : string) (l : list WebSocket) : list (WebSocket * string) :=
  map (fun ws => (ws, data)) l.

(** The messages of a window that the replay loop sends to [uid]. *)
Definition replayed (uid : string) (window : list jsval) : list jsval :=
  filter (fun msg => negb (SocketHandler.skipped uid msg)) window.

(** What a unicast writes for the target and for the sender. *)
Definition toTarget (xml target : string) (s : State) : list (WebSocket * string) :=
  match assoc target (activeConnections s) with
  | Some ws => if isOpen s ws then [(ws, xml)] else []
  | None => []
  end.

Definition echo (xml target sender : string) (s : State) : list (WebSocket * string) :=
  match assoc sender (activeConnections s) with
  | Some ws => if isOpen s ws && negb (sender =? target) then [(ws, xml)] else []
  | None => []
  end.

(** One field of a flat object, as the builder writes it at level 1, and
    the line break after it. *)
Definition fieldLine (k v : string) : string :=
  Xml2js.writeNode 1 (Xml2js.XElem k [Xml2js.XText v]) +++ LF.

Fixpoint fieldLines (fields : list (string * string)) : string :=
  match fields with
  | [] => ""
  | (k, v) :: r => fieldLine k v +++ fieldLines r
  end.

Definition asValues (fields : list (string * string)) : list (string * jsval) :=
  map (fun kv => (fst kv, JStr (snd kv))) fields.

Section Messages.

Context {rt : Runtime}.

(** The text of a message that the builder accepts, and the statement that
    it does accept the message. *)
Definition encoded (m : jsval) : string :=
  match RmiMiddleware.messageToXml m with
  | Ok xml => xml
  | Throw _ => ""
  end.

Definition encodes (m : jsval) : Prop :=
  RmiMiddleware.messageToXml m = Ok (encoded m).

(** The messages of a list up to the first one that the builder refuses,
    and the exception of that one. *)
Fixpoint encodable (l : list jsval) : list jsval :=
  match l with
  | [] => []
  | m :: r =>
      match RmiMiddleware.messageToXml m with
      | Ok _ => m :: encodable r
      | Throw _ => []
      end
  end.

Fixpoint refusal (l : list jsval) : option error :=
  match l with
  | [] => None
  | m :: r =>
      match RmiMiddleware.messageToXml m with
      | Ok _ => refusal r
      | Throw e => Some e
      end
  end.

(** The clock has been read once more. *)
Definition ticked (s : State) : State :=
  mkState (users s) (messageHistory s) (activeConnections s) (openSockets s)
    (sent s) (uuidCalls s) (S (dateCalls s)).

(** The state in which [welcome] encodes the confirmation: the handle
    bound, the clock read. *)
Definition bound (ws : WebSocket) (uid : string) (s : State) : State :=
  ticked (setConnections (mapSet uid ws (activeConnections s)) s).

(** What the listener makes of a message that is not PRIVATE, emitted
    in the state [s0] by a function that then returns [a]: the text goes
    to every bound OPEN handle, or the exception of the builder ends the
    function with nothing written. *)
Definition emit {A : Type} (m : jsval) (a : A) (s0 : State) : outcome A * State :=
  match RmiMiddleware.messageToXml m with
  | Ok xml => (Ok a, setSent (sent s0 ++ frames xml (openHandles s0)) s0)
  | Throw e => (Throw e, s0)
  end.



(** The reply of the catch-all handler of a connection. *)
Definition errorReply (e : error) (n : nat) : jsval :=
  JObj [("userId", JStr "system"); ("username", JStr "Sistema");
        ("content", JStr ("Error: " +++ message e));
        ("timestamp", JStr (isoDate n));
        ("type", JStr "CHAT")].

(** The confirmation that [handleJoin] writes to the joining connection. *)
Definition joinResponse (uid : string) (n : nat) : jsval :=
  JObj [("userId", JStr "system"); ("username", JStr "Sistema");
        ("content", JStr SocketHandler.connectedText);
        ("timestamp", JStr (isoDate n));
        ("type", JStr "JOIN");
        ("clientId", JStr uid)].

Definition userListMessage (us : list User) (n : nat) : jsval :=
  JObj [("userId", JStr "system"); ("username", JStr "Sistema");
        ("content", JStr (JSON_stringify us));
        ("timestamp", JStr (isoDate n));
        ("type", JStr "USER_LIST")].

(** What a reconnecting [handleJoin] writes, in order: the confirmation, the
    replay, the roster to every OPEN bound handle. *)
Definition reconnectFrames (ws : WebSocket) (uid : string) (s : State) :
  list (WebSocket * string) :=
  [(ws, encoded (joinResponse uid (dateCalls s)))] ++
  map (fun msg => (ws, encoded msg))
    (replayed uid (lastN 20 (messageHistory s))) ++
  frames (encoded (userListMessage (mapValues (users s)) (S (dateCalls s))))
    (filter (isOpen s) (mapValues (mapSet uid ws (activeConnections s)))).

(** The messages that a reconnecting [handleJoin] encodes. *)
Definition reconnectMessages (uid : string) (s : State) : list jsval :=
  [joinResponse uid (dateCalls s)] ++
  replayed uid (lastN 20 (messageHistory s)) ++
  [userListMessage (mapValues (users s)) (S (dateCalls s))].

(** The test of [registerUser]: equality after case folding only. *)
Definition nameClash (s : State) (n : string) : bool :=
  existsb (fun user => toLowerCase (username user) =? toLowerCase n)
    (mapValues (users s)).

(** The error that the ['message'] handler catches before any frame is
    dispatched: the parser rejects the text, or the text has no [message]
    root, so that reading [message.type] throws. *)
Definition decodeFailure (data : string) : option error :=
  match RmiMiddleware.xmlToMessage data with
  | Throw e => Some e
  | Ok m =>
      match prop m "type" with
      | Throw e => Some e
      | Ok _ => None
      end
  end.

Definition leaveMessageOf (n : string) (k : nat) : jsval :=
  JObj [("userId", JStr "system"); ("username", JStr "Sistema");
        ("content", JStr (n +++ " ha abandonado el chat"));
        ("timestamp", JStr (isoDate k)); ("type", JStr "LEAVE")].

Definition joinMessageOf (n : string) (k : nat) : jsval :=
  JObj [("userId", JStr "system"); ("username", JStr "Sistema");
        ("content", JStr (n +++ " se ha unido al chat"));
        ("timestamp", JStr (isoDate k)); ("type", JStr "JOIN")].

(** What a first [handleJoin] writes, in order: the JOIN message to the
    handles bound so far, the confirmation, the replay, the roster to every
    OPEN bound handle. *)
Definition joinFrames (ws : WebSocket) (n : string) (s : State) :
  list (WebSocket * string) :=
  let uid := uuidv4 (uuidCalls s) in
  let joined := joinMessageOf n (S (dateCalls s)) in
  frames (encoded joined) (openHandles s) ++
  [(ws, encoded (joinResponse uid (S (S (dateCalls s)))))] ++
  map (fun msg => (ws, encoded msg))
    (replayed uid (lastN 20 (pushCapped (messageHistory s) joined))) ++
  frames (encoded
            (userListMessage
               (mapValues (mapSet uid (mkUser uid n (isoDate (dateCalls s))) (users s)))
               (S (S (S (dateCalls s))))))
    (filter (isOpen s) (mapValues (mapSet uid ws (activeConnections s)))).

(** The messages that a first [handleJoin] encodes. *)
Definition joinMessages (n : string) (s : State) : list jsval :=
  let uid := uuidv4 (uuidCalls s) in
  let joined := joinMessageOf n (S (dateCalls s)) in
  [joined; joinResponse uid (S (S (dateCalls s)))] ++
  replayed uid (lastN 20 (pushCapped (messageHistory s) joined)) ++
  [userListMessage
     (mapValues (mapSet uid (mkUser uid n (isoDate (dateCalls s))) (users s)))
     (S (S (S (dateCalls s))))].

(** The state in which [registerUser] emits the JOIN message: the user
    stored under the new id, the message saved, nothing sent yet. *)
Definition registered (n : string) (s : State) : State :=
  mkState
    (mapSet (uuidv4 (uuidCalls s))
       (mkUser (uuidv4 (uuidCalls s)) n (isoDate (dateCalls s))) (users s))
    (pushCapped (messageHistory s) (joinMessageOf n (S (dateCalls s))))
    (activeConnections s) (openSockets s) (sent s)
    (S (uuidCalls s)) (S (S (dateCalls s))).

(** The state in which [disconnectUser] emits the LEAVE message: the user
    removed, the message saved, nothing sent yet. *)
Definition removed (uid : string) (user : User) (s : State) : State :=
  mkState (mapDelete uid (users s))
    (pushCapped (messageHistory s) (leaveMessageOf (username user) (dateCalls s)))
    (activeConnections s) (openSockets s) (sent s)
    (uuidCalls s) (S (dateCalls s)).

End Messages.

(** *** Sample frames and states *)

(** Frames as the client writes them ([_objectToXml] of the socket client,
    without the declaration). *)
Definition joinFrame (name : string) : string :=
  "<message><userId></userId><username>" +++ name +++
  "</username><content>Solicitando ingreso al chat</content><type>JOIN</type></message>".

Definition rejoinFrame (uid name : string) : string :=
  "<message><userId>" +++ uid +++ "</userId><username>" +++ name +++
  "</username><type>JOIN</type></message>".

Definition chatFrame (uid name content : string) : string :=
  "<message><userId>" +++ uid +++ "</userId><username>" +++ name +++
  "</username><content>" +++ content +++ "</content><type>CHAT</type></message>".

Definition logoutFrame (uid : string) : string :=
  "<message><userId>" +++ uid +++ "</userId><type>LOGOUT</type></message>".

(** The kind of an encoded message. *)
Definition frameKind (xml : string) : option string :=
  match Xml2js.parseString xml with
  | Ok r =>
      match get (get r "message") "type" with
      | JStr k => Some k
      | _ => None
      end
  | Throw _ => None
  end.

Definition kinds (l : list (WebSocket * string)) : list (WebSocket * option string) :=
  map (fun f => (fst f, frameKind (snd f))) l.

(** Alice joins on handle 1, then Bob on handle 2. *)
Definition aliceJoined : State :=
  exec (SocketHandler.onMessage (rt := demoRuntime) 1 JNull (joinFrame "Alice"))
    (initialState [1; 2; 3]).

Definition twoUsers : State :=
  exec (SocketHandler.onMessage (rt := demoRuntime) 2 JNull (joinFrame "Bob")) aliceJoined.

Definition afterLogout : State :=
  exec (SocketHandler.onMessage (rt := demoRuntime) 1 (JStr "id-00") (logoutFrame "id-00"))
    twoUsers.

Definition afterClose : State :=
  exec (SocketHandler.onClose (rt := demoRuntime) (JStr "id-00")) twoUsers.

(** [registerUser] as [POST /api/users/register] calls it. *)
Definition carolRegistered : State :=
  exec (SocketHandler.registerUser (rt := demoRuntime) (JStr "Carol")) twoUsers.

(** The frames written after the state [before] was reached. *)
Definition newFrames (before after : State) : list (WebSocket * string) :=
  skipn (length (sent before)) (sent after).

Definition bobRegistered : State :=
  exec (SocketHandler.registerUser (rt := demoRuntime) (JStr "Bob")) (initialState []).

Definition privateSample : jsval :=
  JObj [("userId", JStr "id-01"); ("username", JStr "Bob");
        ("targetUserId", JStr "id-00"); ("targetUsername", JStr "Alice");
        ("content", JStr "secret");
        ("timestamp", JStr "2024-05-01T10:01:00.000Z");
        ("type", JStr "PRIVATE")].

Definition numbered (n : nat) : jsval := JStr (demoIds n).

Definition rejoinMessage : jsval :=
  JObj [("userId", JStr "id-00"); ("username", JStr "Alice"); ("type", JStr "JOIN")].


Definition alice : User := mkUser "id-00" "Alice" "2024-05-01T10:00:00.000Z".

(** Bob has sent a private message to Alice; Carol joins on handle 3. *)
Definition afterPrivate : State :=
  exec (SocketHandler.onMessage (rt := demoRuntime) 2 (JStr "id-01")
          ("<message><userId>id-01</userId><targetUserId>id-00</targetUserId>" +++
           "<content>secret</content><type>PRIVATE</type></message>"))
    twoUsers.

Definition carolJoined : State :=
  exec (SocketHandler.onMessage (rt := demoRuntime) 3 JNull (joinFrame "Carol")) afterPrivate.

(** A private message whose texts need escaping. *)
Definition escapedSample : Message :=
  mkMessage "id-01" "Bob & <Co>" (Some "id-00") (Some "Alice")
    ("1 < 2 && 3 > 2" +++ chr 13 +++ LF +++ "  ") "2024-05-01T10:01:00.000Z" "PRIVATE".

(** A name with a character that XML excludes, U+0001. *)
Definition oddName : string := "a" +++ chr 1 +++ "b".

(** On a server whose builder checks its texts,
    [POST /api/users/register] is called with that name and then with
    "Alice"; the first call leaves the user and its JOIN message behind. *)
Definition oddRegistered : State :=
  exec (SocketHandler.registerUser (rt := strictRuntime) (JStr oddName))
    (initialState [1; 2]).

Definition poisoned : State :=
  exec (SocketHandler.registerUser (rt := strictRuntime) (JStr "Alice")) oddRegistered.

(** A user with that name, registered and bound to handle 1. *)
Definition oddUser : User := mkUser "id-00" oddName "2024-05-01T10:00:00.000Z".

Definition oddBound : State :=
  mkState [("id-00", oddUser)] [] [("id-00", 1)] [1] [] 1 2.

(** A history of 25 messages on a fresh server. *)
Definition longHistory : State :=
  exec (forEach (map numbered (seq 0 25)) RmiMiddleware.saveMessage) (initialState [1]).

(* ================================================================== *)
(** ** [_escapeXml] of the models and of the socket client             *)
(* ================================================================== *)

(** [s.replace(/c/g, replacement)] for a pattern of one character and a
    replacement text without [$]. *)
Fixpoint replaceAll (c : ascii) (replacement : string) (s : string) : string :=
  match s with
  | EmptyString => EmptyString
  | String d r =>
      if (d =? c)%char then replacement +++ replaceAll c replacement r
      else String d (replaceAll c replacement r)
  end.

(** The same five replacements, in the same order, in [models/user.js],
    [models/message.js] and the socket client. *)
Definition _escapeXml (unsafe : string) : string :=
  replaceAll "'" "&apos;"
    (replaceAll (ascii_of_nat 34) "&quot;"
       (replaceAll ">" "&gt;"
          (replaceAll "<" "&lt;"
             (replaceAll "&" "&amp;" unsafe)))).

(** What one character becomes. *)
Definition escaped (c : ascii) : string :=
  if (c =? "&")%char then "&amp;"
  else if (c =? "<")%char then "&lt;"
  else if (c =? ">")%char then "&gt;"
  else if (c =? ascii_of_nat 34)%char then "&quot;"
  else if (c =? "'")%char then "&apos;"
  else String c EmptyString.

Fixpoint escapeEach (s : string) : string :=
  match s with
  | EmptyString => EmptyString
  | String c r => escaped c +++ escapeEach r
  end.

(** The characters that delimit markup and attribute values. *)
Definition delimiter (c : ascii) : bool :=
  (c =? "<")%char || (c =? ">")%char || (c =? ascii_of_nat 34)%char || (c =? "'")%char.

Fixpoint occurs (c : ascii) (s : string) : bool :=
  match s with
  | EmptyString => false
  | String d r => (d =? c)%char || occurs c r
  end.

(* ================================================================== *)
(** ** models/user.js: the other operations of the store               *)
(* ================================================================== *)

Module UserStore.

Import UserModel.

Definition getUserById (activeUsers : list (string * User)) (uid : string) :
  option User := assoc uid activeUsers.

Definition getUserByUsername (activeUsers : list (string * User)) (uname : string) :
  option User :=
  let normalizedUsername := toLowerCase (trim uname) in
  find (fun user => toLowerCase (username user) =? normalizedUsername)
    (mapValues activeUsers).

Definition getAllUsers (activeUsers : list (string * User)) : list User :=
  mapValues activeUsers.

Definition removeUser (activeUsers : list (string * User)) (uid : string) :
  bool * list (string * User) :=
  match assoc uid activeUsers with
  | None => (false, activeUsers)
  | Some _ => (true, mapDelete uid activeUsers)
  end.

(** [now] is the clock reading of the call. *)
Definition updateUserConnection (activeUsers : list (string * User)) (uid : string)
  (connected : bool) (now : string) : option User * list (string * User) :=
  match assoc uid activeUsers with
  | None => (None, activeUsers)
  | Some user =>
      let user' := mkUser (userId user) (username user) connected now (joinedAt user) in
      (Some user', mapSet uid user' activeUsers)
  end.

(** The calls a client of the module can make. *)
Inductive call : Type :=
| CreateUser (uname : string) (uid : option string) (fresh t1 t2 : string)
| RemoveUser (uid : string)
| UpdateUserConnection (uid : string) (connected : bool) (now : string).

(** The store after a call; a call that throws leaves it as it was. *)
Definition after (activeUsers : list (string * User)) (c : call) :
  list (string * User) :=
  match c with
  | CreateUser uname uid fresh t1 t2 =>
      match createUser activeUsers uname uid fresh t1 t2 with
      | Ok (_, us) => us
      | Throw _ => activeUsers
      end
  | RemoveUser uid => snd (removeUser activeUsers uid)
  | UpdateUserConnection uid c now => snd (updateUserConnection activeUsers uid c now)
  end.

Definition afterAll (cs : list call) : list (string * User) := fold_left after cs [].

(** The store is well formed: names are pairwise distinct up to case,
    trimmed and not empty, every user is stored under its own id, and no
    id has two entries. *)
Definition storeOk (activeUsers : list (string * User)) : Prop :=
  NoDup (map (fun u => toLowerCase (username u)) (mapValues activeUsers)) /\
  (forall u, In u (mapValues activeUsers) ->
     trim (username u) = username u /\ username u <> "") /\
  (forall k u, In (k, u) activeUsers -> userId u = k) /\
  NoDup (map fst activeUsers).

End UserStore.

(* ================================================================== *)
(** ** models/message.js                                               *)
(* ================================================================== *)

(** [String(v)], and the conversion of an element by [Array.prototype.join]
    ([undefined] and [null] become the empty string). *)
Fixpoint jsToString (v : jsval) : string :=
  match v with
  | JUndef => "undefined"
  | JNull => "null"
  | JStr s => s
  | JObj _ => "[object Object]"
  | JArr items =>
      joinWith ","
        (map (fun x => match x with
                       | JUndef | JNull => ""
                       | _ => jsToString x
                       end) items)
  end.

Definition joinElement (v : jsval) : string :=
  match v with
  | JUndef | JNull => ""
  | _ => jsToString v
  end.

Definition arrayJoin (sep : string) (l : list jsval) : string :=
  joinWith sep (map joinElement l).

Module MessageModel.

Definition MAX_HISTORY : nat := 100.

(** [Object.values(MessageType)]. *)
Definition MessageType : list string :=
  ["CHAT"; "PRIVATE"; "JOIN"; "LEAVE"; "SYSTEM"; "USER_LIST"].

Record Message : Type := mkMessage {
  messageId : string;
  userId : jsval;
  username : jsval;
  content : jsval;
  timestamp : jsval;
  type : jsval
}.

(** [new Message(data)]; [fresh] is what [uuidv4()] returns and [now] is
    [new Date().toISOString()], read only when the data has no timestamp. *)
Definition newMessage (data : jsval) (fresh now : string) : outcome Message :=
  match prop data "userId" with
  | Throw e => Throw e
  | Ok uid =>
      Ok (mkMessage fresh uid (get data "username") (get data "content")
            (if truthy (get data "timestamp") then get data "timestamp" else JStr now)
            (if truthy (get data "type") then get data "type" else JStr "CHAT"))
  end.

Definition isDigit (c : ascii) : bool := between 48 57 (code c).

(** [\d{n}] at the start of the text: what follows it. *)
Fixpoint digits (n : nat) (s : string) : option string :=
  match n with
  | O => Some s
  | S k =>
      match s with
      | String c r => if isDigit c then digits k r else None
      | EmptyString => None
      end
  end.

(** One literal character at the start of the text. *)
Definition lit (c : ascii) (s : string) : option string :=
  match s with
  | String d r => if (d =? c)%char then Some r else None
  | EmptyString => None
  end.

Definition andThen (o : option string) (f : string -> option string) : option string :=
  match o with
  | Some s => f s
  | None => None
  end.

(** [/^\d{4}-\d{2}-\d{2}T\d{2}:\d{2}:\d{2}(\.\d{3})?Z$/.test(s)]. *)
Definition timestampRegex (s : string) : bool :=
  match
    andThen (andThen (andThen (andThen (andThen (andThen (andThen (andThen (andThen
      (andThen (digits 4 s) (lit "-")) (digits 2)) (lit "-")) (digits 2)) (lit "T"))
      (digits 2)) (lit ":")) (digits 2)) (lit ":")) (digits 2)
  with
  | Some rest =>
      (rest =? "Z") ||
      match andThen (andThen (lit "." rest) (digits 3)) (lit "Z") with
      | Some EmptyString => true
      | _ => false
      end
  | None => false
  end.

Definition typeText : string :=
  "type debe ser uno de: " +++ joinWith ", " MessageType.

Definition timestampText : string :=
  "timestamp debe tener formato ISO (YYYY-MM-DDTHH:mm:ss.sssZ)".

(** [message.validate()]; [schema] tells whether [messageSchema] has been
    loaded.  The result is the list [errors]; [valid] is its emptiness. *)
Definition validate (schema : bool) (m : Message) : list string :=
  if negb schema then []
  else
    (if truthy (userId m) then [] else ["userId es requerido"]) ++
    (if truthy (username m) then [] else ["username es requerido"]) ++
    (if truthy (content m) then [] else ["content es requerido"]) ++
    (if truthy (timestamp m) then [] else ["timestamp es requerido"]) ++
    (if truthy (type m) then [] else ["type es requerido"]) ++
    (if existsb (isStr (type m)) MessageType then [] else [typeText]) ++
    (if timestampRegex (jsToString (timestamp m)) then [] else [timestampText]).

Definition valid (errors : list string) : bool :=
  match errors with
  | [] => true
  | _ :: _ => false
  end.

Definition invalidText : string := "Mensaje inv" +++ a_acute +++ "lido: ".

Definition addToHistory (messages : list Message) (m : Message) : list Message :=
  let pushed := messages ++ [m] in
  if Nat.ltb MAX_HISTORY (length pushed) then tl pushed else pushed.

Definition createMessage (schema : bool) (messages : list Message) (data : jsval)
  (fresh now : string) : outcome (Message * list Message) :=
  match newMessage data fresh now with
  | Throw e => Throw e
  | Ok m =>
      let errors := validate schema m in
      if negb (valid errors)
      then Throw (Error (invalidText +++ joinWith ", " errors))
      else Ok (m, addToHistory messages m)
  end.

(** [createSystemMessage(content, type = MessageType.SYSTEM)]: the default
    applies to an argument that is [undefined]. *)
Definition createSystemMessage (schema : bool) (messages : list Message)
  (text : jsval) (kind : jsval) (fresh now : string) :
  outcome (Message * list Message) :=
  let kind := match kind with JUndef => JStr "SYSTEM" | _ => kind end in
  createMessage schema messages
    (JObj [("userId", JStr "system"); ("username", JStr "Sistema");
           ("content", text); ("type", kind)]) fresh now.

(** [getMessageHistory(limit = MAX_HISTORY)]; [None] is the call without
    argument. *)
Definition getMessageHistory (messages : list Message) (limit : option Z) :
  list Message :=
  let limit := match limit with Some l => l | None => Z.of_nat MAX_HISTORY end in
  let count := Z.min limit (Z.of_nat (length messages)) in
  slice (- count) messages.

(** The history after a sequence of [createMessage] calls, each with its
    data, id and clock reading; a call that throws adds nothing. *)
Definition created (schema : bool) (messages : list Message)
  (c : jsval * string * string) : list Message :=
  match c with
  | (data, fresh, now) =>
      match createMessage schema messages data fresh now with
      | Ok (_, ms) => ms
      | Throw _ => messages
      end
  end.

End MessageModel.

(* ================================================================== *)
(** ** client/js/rmi_client.js: the filter of duplicates               *)
(* ================================================================== *)

Module RmiClient.

(** The fields of the client that [processIncomingMessage] uses:
    [processedMessages] is the [Set] in insertion order, [onMessageReceived]
    tells whether a callback is registered, and [received] lists the
    messages the callback has been called with (a callback that returns). *)
Record Client : Type := mkClient {
  processedMessages : list string;
  onMessageReceived : bool;
  received : list jsval
}.

Definition _generateMessageId (message : jsval) : outcome string :=
  match prop message "userId" with
  | Throw e => Throw e
  | Ok uid =>
      let components :=
        [uid;
         (if truthy (get message "targetUserId")
          then get message "targetUserId" else JStr "");
         get message "content";
         get message "timestamp"] in
      Ok (arrayJoin "|" components)
  end.

Definition processIncomingMessage (message : jsval) (c : Client) :
  outcome bool * Client :=
  match _generateMessageId message with
  | Throw e => (Throw e, c)
  | Ok messageId =>
      if existsb (String.eqb messageId) (processedMessages c)
      then (Ok false, c)
      else
        let added := processedMessages c ++ [messageId] in
        let kept := if Nat.ltb 1000 (length added) then tl added else added in
        (Ok true,
         mkClient kept (onMessageReceived c)
           (if onMessageReceived c then received c ++ [message] else received c))
  end.

(** A client as the constructor leaves it, with or without a callback. *)
Definition newClient (callback : bool) : Client := mkClient [] callback [].

Definition processAll (ms : list jsval) (c : Client) : Client :=
  fold_left (fun c m => snd (processIncomingMessage m c)) ms c.

End RmiClient.

(* ================================================================== *)
(** ** Effects and invariants of the handlers                          *)
(* ================================================================== *)

(** A computation keeps a property of the state, whether it returns or
    throws. *)
Definition preserves {A : Type} (P : State -> Prop) (m : M A) : Prop :=
  forall s, P s -> P (snd (m s)).

(** A property that reads only the registry and the history. *)
Definition local (P : State -> Prop) : Prop :=
  forall s s', users s' = users s -> messageHistory s' = messageHistory s ->
               P s -> P s'.

(** A property that reads only the registry, the history, the bindings
    and the count of ids issued. *)
Definition quiet (P : State -> Prop) : Prop :=
  forall s s', users s' = users s -> messageHistory s' = messageHistory s ->
               activeConnections s' = activeConnections s ->
               uuidCalls s' = uuidCalls s -> P s -> P s'.

(** The case-folded display names of the registry, in insertion order. *)
Definition foldedNames (us : list (string * User)) : list string :=
  map (fun u => toLowerCase (username u)) (mapValues us).

(** The registry is well formed: no two users have the same name up to
    case, no name is blank, every user is stored under its own id, and no
    id has two entries. *)
Definition registryOk (s : State) : Prop :=
  NoDup (foldedNames (users s)) /\
  (forall u, In u (mapValues (users s)) -> trim (username u) <> "") /\
  (forall k u, In (k, u) (users s) -> userId u = k) /\
  NoDup (map fst (users s)).

(** The bindings are well formed: no id is bound twice, and every bound
    id is one that the generator has returned.  (A bound id need not be
    the id of a registered user: LOGOUT can remove the user and leave the
    binding.) *)
Definition bindingsOk {rt : Runtime} (s : State) : Prop :=
  NoDup (map fst (activeConnections s)) /\
  (forall k, In k (map fst (activeConnections s)) ->
             exists i, i < uuidCalls s /\ k = uuidv4 i).

Definition sessionOk {rt : Runtime} (s : State) : Prop :=
  registryOk s /\ idsIssued s /\ bindingsOk s.

(** A computation started where [P] holds ends where [Q] holds of its
    result, or throws where [E] holds. *)
Definition triple {A : Type} (P : State -> Prop) (m : M A)
  (Q : A -> State -> Prop) (E : State -> Prop) : Prop :=
  forall s, P s ->
    match m s with
    | (Ok a, s') => Q a s'
    | (Throw _, s') => E s'
    end.

Definition historyBounded (s : State) : Prop :=
  length (messageHistory s) <= RmiMiddleware.MAX_HISTORY.

(** What one handler run does to the registry, [next] being the id that
    the generator returns next: nothing, or it stores under [next] one
    user whose name is not blank and clashes with no stored name, or it
    refreshes [lastActive] of one user, or it removes the entry of one
    id. *)
Inductive registryChange (next : string) (us : list (string * User)) :
  list (string * User) -> Prop :=
| RegistrySame : registryChange next us us
| RegistryAdded (n t : string) :
    trim n <> "" ->
    existsb (fun user => toLowerCase (username user) =? toLowerCase n) (mapValues us) = false ->
    registryChange next us (mapSet next (mkUser next n t) us)
| RegistryTouched (uid t : string) (user : User) :
    assoc uid us = Some user ->
    registryChange next us (mapSet uid (mkUser (userId user) (username user) t) us)
| RegistryRemoved (uid : string) :
    registryChange next us (mapDelete uid us).

Definition changesRegistry {rt : Runtime} {A : Type} (m : M A) : Prop :=
  forall s, registryChange (uuidv4 (uuidCalls s)) (users s) (users (snd (m s))).

(** The same with an id that is new to the registry: the user that is
    added takes no entry away, so no stored user is renamed or replaced. *)
Inductive registryEdit (us : list (string * User)) : list (string * User) -> Prop :=
| EditNone : registryEdit us us
| EditAdded (uid n t : string) :
    assoc uid us = None ->
    trim n <> "" ->
    existsb (fun user => toLowerCase (username user) =? toLowerCase n) (mapValues us) = false ->
    registryEdit us (us ++ [(uid, mkUser uid n t)])
| EditTouched (uid t : string) (user : User) :
    assoc uid us = Some user ->
    registryEdit us (mapSet uid (mkUser (userId user) (username user) t) us)
| EditRemoved (uid : string) :
    registryEdit us (mapDelete uid us).

Section Replies.

Context {rt : Runtime}.

(** The state after the catch-all handler has answered the error [e]. *)
Definition replied (ws : WebSocket) (e : error) (s : State) : State :=
  mkState (users s) (messageHistory s) (activeConnections s) (openSockets s)
    (sent s ++ [(ws, encoded (errorReply e (dateCalls s)))])
    (uuidCalls s) (S (dateCalls s)).

(** The reply of [handleJoin] to a name that is in use. *)
Definition nameErrorFrame (n : nat) : jsval :=
  JObj [("userId", JStr "system"); ("username", JStr "Sistema");
        ("content", JStr SocketHandler.nameErrorText);
        ("timestamp", JStr (isoDate n));
        ("type", JStr "ERROR")].

(** The PRIVATE message that [sendPrivateMessage] builds at clock reading
    [n]. *)
Definition privateMessage (uid : string) (sender : User) (target : jsval)
  (receiver : User) (content : jsval) (n : nat) : jsval :=
  JObj [("userId", JStr uid); ("username", JStr (username sender));
        ("targetUserId", target); ("targetUsername", JStr (username receiver));
        ("content", content); ("timestamp", JStr (isoDate (S n)));
        ("type", JStr "PRIVATE")].

End Replies.


(** A generator of ids that never repeats: [n] strokes after a prefix. *)
Fixpoint strokes (n : nat) : string :=
  match n with
  | O => ""
  | S k => String "i" (strokes k)
  end.

Definition tallyIds (n : nat) : string := "id-" +++ strokes n.

Definition tallyRuntime : Runtime := xmlRuntime tallyIds demoDates.

(** What the environment can make the server do: deliver a frame to the
    ['message'] handler of a connection whose variable [userId] has some
    value, close a connection, call [POST /api/users/register] (which
    calls [registerUser]), and open or close transports. *)
Inductive event : Type :=
| Frame (ws : WebSocket) (connUserId : jsval) (data : string)
| Closed (connUserId : jsval)
| HttpRegister (uname : jsval)
| Transports (open : list WebSocket).

Definition runEvent {rt : Runtime} (s : State) (ev : event) : State :=
  match ev with
  | Frame ws v data => exec (SocketHandler.onMessage ws v data) s
  | Closed v => exec (SocketHandler.onClose v) s
  | HttpRegister n => exec (SocketHandler.registerUser n) s
  | Transports open =>
      mkState (users s) (messageHistory s) (activeConnections s) open (sent s)
        (uuidCalls s) (dateCalls s)
  end.

Definition runEvents {rt : Runtime} (evs : list event) (s : State) : State :=
  fold_left runEvent evs s.

Section States.

Context {rt : Runtime}.

(** The state in which [sendPrivateMessage] emits the message: sender
    touched, message saved, nothing sent yet. *)
Definition privateSaved (uid : string) (sender : User) (target : jsval)
  (receiver : User) (content : jsval) (s : State) : State :=
  mkState
    (mapSet uid (mkUser (userId sender) (username sender) (isoDate (dateCalls s))) (users s))
    (pushCapped (messageHistory s)
       (privateMessage uid sender target receiver content (dateCalls s)))
    (activeConnections s) (openSockets s) (sent s) (uuidCalls s)
    (S (S (dateCalls s))).

(** The state after a first registration through [handleJoin]. *)
Definition joinedState (ws : WebSocket) (n : string) (s : State) : State :=
  mkState
    (mapSet (uuidv4 (uuidCalls s))
       (mkUser (uuidv4 (uuidCalls s)) n (isoDate (dateCalls s))) (users s))
    (pushCapped (messageHistory s) (joinMessageOf n (S (dateCalls s))))
    (mapSet (uuidv4 (uuidCalls s)) ws (activeConnections s))
    (openSockets s)
    (sent s ++ joinFrames ws n s)
    (S (uuidCalls s)) (S (S (S (S (dateCalls s))))).

End States.

(** *** Sample frames for the other paths *)



Definition logoutMessage (uid : string) : jsval :=
  JObj [("userId", JStr uid); ("type", JStr "LOGOUT")].

(** What [joinFrame], [rejoinFrame] and [chatFrame] decode to. *)
Definition joinRequest (name : string) : jsval :=
  JObj [("userId", JStr ""); ("username", JStr name);
        ("content", JStr "Solicitando ingreso al chat"); ("type", JStr "JOIN")].

Definition rejoinRequest (uid name : string) : jsval :=
  JObj [("userId", JStr uid); ("username", JStr name); ("type", JStr "JOIN")].

Definition chatRequest (uid name content : string) : jsval :=
  JObj [("userId", JStr uid); ("username", JStr name);
        ("content", JStr content); ("type", JStr "CHAT")].

Definition privateFrame (uid target content : string) : string :=
  "<message><userId>" +++ uid +++ "</userId><targetUserId>" +++ target +++
  "</targetUserId><content>" +++ content +++ "</content><type>PRIVATE</type></message>".

Definition privateRequest (uid target content : string) : jsval :=
  JObj [("userId", JStr uid); ("targetUserId", JStr target);
        ("content", JStr content); ("type", JStr "PRIVATE")].

Definition bob : User := mkUser "id-01" "Bob" "2024-05-01T10:00:04.000Z".

(** Two messages of the client that differ and have the same id. *)
Definition toBob : jsval :=
  JObj [("userId", JStr "id-00"); ("targetUserId", JStr "id-01");
        ("content", JStr "x|y"); ("timestamp", JStr "2024-05-01T10:01:00.000Z")].

Definition toBobX : jsval :=
  JObj [("userId", JStr "id-00"); ("targetUserId", JStr "id-01|x");
        ("content", JStr "y"); ("timestamp", JStr "2024-05-01T10:01:00.000Z")].

(** A store of [models/user.js] with one user. *)
Definition ana : UserModel.User :=
  UserModel.mkUser "u-1" "Ana" true "2024-05-01T10:00:00.000Z" "2024-05-01T10:00:00.000Z".

Definition anaStored : list (string * UserModel.User) := [("u-1", ana)].

(* ================================================================== *)
(** ** Lists and the history buffer                                    *)
(* ================================================================== *)

Section HistoryBuffer.

Import RmiMiddleware.

Lemma saveMessage_run (m : jsval) (s : State) :
  saveMessage m s = (Ok tt, setHistory (pushCapped (messageHistory s) m) s).
Proof.
  unfold saveMessage, pushCapped, bind, modify, gets, ret; simpl.
  destruct (Nat.ltb MAX_HISTORY (length (messageHistory s ++ [m]))); reflexivity.
Qed.

Lemma tl_skipn_snoc {A : Type} (k : nat) (l : list A) (a : A) :
  k < length l -> tl (skipn k l ++ [a]) = skipn (S k) (l ++ [a]).
Proof.
  revert k; induction l as [|x l IH]; intros k Hk; simpl in Hk; [lia|].
  destruct k as [|k].
  - reflexivity.
  - simpl skipn at 1. rewrite IH by lia. reflexivity.
Qed.

Lemma pushCapped_lastN (l : list jsval) (m : jsval) :
  pushCapped (lastN MAX_HISTORY l) m = lastN MAX_HISTORY (l ++ [m]).
Proof.
  unfold pushCapped, lastN, MAX_HISTORY, shift.
  rewrite !length_app, length_skipn; simpl length.
  destruct (Nat.ltb_spec 100 (length l - (length l - 100) + 1)) as [H|H].
  - replace (length l + 1 - 100) with (S (length l - 100)) by lia.
    apply tl_skipn_snoc. lia.
  - replace (length l - 100) with 0 by lia.
    replace (length l + 1 - 100) with 0 by lia. reflexivity.
Qed.

Lemma lastN_all {A : Type} (n : nat) (l : list A) :
  length l <= n -> lastN n l = l.
Proof.
  intros H. unfold lastN. replace (length l - n) with 0 by lia. reflexivity.
Qed.

Lemma lastN_length {A : Type} (n : nat) (l : list A) :
  length (lastN n l) = Nat.min n (length l).
Proof. unfold lastN. rewrite length_skipn. lia. Qed.

Lemma lastN_app_long {A : Type} (n : nat) (h l : list A) :
  n <= length l -> lastN n (h ++ l) = lastN n l.
Proof.
  intros H. unfold lastN. rewrite length_app, skipn_app.
  replace (length h + length l - n - length h) with (length l - n) by lia.
  rewrite skipn_all2 by lia. reflexivity.
Qed.

(** Appending a batch, one [saveMessage] per message. *)
Lemma saveAll_run (ms : list jsval) :
  forall (l : list jsval) (s : State),
    messageHistory s = lastN MAX_HISTORY l ->
    forEach ms saveMessage s =
    (Ok tt, setHistory (lastN MAX_HISTORY (l ++ ms)) s).
Proof.
  induction ms as [|m ms IH]; intros l s Hs.
  - rewrite app_nil_r, <- Hs. destruct s; reflexivity.
  - simpl. unfold bind. rewrite saveMessage_run.
    rewrite (IH (l ++ [m])).
    + rewrite <- app_assoc. reflexivity.
    + simpl. rewrite Hs. apply pushCapped_lastN.
Qed.

Lemma slice_neg_length {A : Type} (l : list A) :
  slice (- Z.of_nat (length l)) l = l.
Proof.
  unfold slice. destruct (Z.ltb_spec (- Z.of_nat (length l)) 0).
  - replace (Z.max _ 0) with 0%Z by lia. reflexivity.
  - replace (Z.min _ _) with 0%Z by lia. reflexivity.
Qed.

Lemma getMessageHistory_clamps (limit : Z) (s : State) :
  (Z.of_nat (length (messageHistory s)) <= limit)%Z ->
  getMessageHistory (Some limit) s = (Ok (messageHistory s), s).
Proof.
  intros H. unfold getMessageHistory, gets.
  rewrite Z.min_r by exact H. rewrite slice_neg_length. reflexivity.
Qed.

(** The trailing window of [limit] messages, for a limit that is positive. *)
Lemma getMessageHistory_window (limit : nat) (s : State) :
  0 < limit ->
  getMessageHistory (Some (Z.of_nat limit)) s =
  (Ok (lastN limit (messageHistory s)), s).
Proof.
  intros Hpos. unfold getMessageHistory, gets, slice, lastN.
  set (h := messageHistory s).
  destruct (Nat.le_gt_cases (length h) limit) as [Hle|Hgt].
  - rewrite Z.min_r by lia. fold (slice (- Z.of_nat (length h)) h).
    rewrite slice_neg_length. replace (length h - limit) with 0 by lia. reflexivity.
  - rewrite Z.min_l by lia.
    destruct (Z.ltb_spec (- Z.of_nat limit) 0); [|lia].
    rewrite Z.max_l by lia.
    replace (Z.to_nat (Z.of_nat (length h) + - Z.of_nat limit)) with (length h - limit) by lia.
    reflexivity.
Qed.

End HistoryBuffer.

(** C2.  From any history within the bound, appending a batch keeps at most
    100 messages; on a full history [saveMessage] drops the oldest message
    and appends the new one; after more than 100 appended messages
    [getMessageHistory(1000)] returns exactly the last 100 of them in
    insertion order; and a limit that is at least the stored count returns
    the whole history instead of throwing. *)
Theorem C2_history_bound :
  forall (s : State) (ms : list jsval),
    length (messageHistory s) <= RmiMiddleware.MAX_HISTORY ->
    let s' := exec (forEach ms RmiMiddleware.saveMessage) s in
    result (forEach ms RmiMiddleware.saveMessage) s = Ok tt /\
    length (messageHistory s') <= 100 /\
    (forall m : jsval,
        length (messageHistory s') = 100 ->
        messageHistory (exec (RmiMiddleware.saveMessage m) s') =
        tl (messageHistory s') ++ [m]) /\
    (100 < length ms ->
     RmiMiddleware.getMessageHistory (Some 1000%Z) s' =
     (Ok (skipn (length ms - 100) ms), s')) /\
    (forall limit : Z,
        (Z.of_nat (length (messageHistory s')) <= limit)%Z ->
        RmiMiddleware.getMessageHistory (Some limit) s' =
        (Ok (messageHistory s'), s')).
Proof.
  intros s ms Hs s'.
  assert (Hrun : forEach ms RmiMiddleware.saveMessage s =
                 (Ok tt, setHistory (lastN 100 (messageHistory s ++ ms)) s)).
  { apply (saveAll_run ms (messageHistory s)). symmetry. apply lastN_all. exact Hs. }
  assert (Hh : messageHistory s' = lastN 100 (messageHistory s ++ ms)).
  { unfold s', exec. rewrite Hrun. reflexivity. }
  assert (Hlen : length (messageHistory s') <= 100).
  { rewrite Hh, lastN_length. lia. }
  split; [unfold result; rewrite Hrun; reflexivity|].
  split; [exact Hlen|].
  split; [|split].
  - intros m H100. unfold exec. rewrite saveMessage_run. simpl.
    unfold pushCapped, RmiMiddleware.MAX_HISTORY, shift.
    rewrite length_app, H100. simpl.
    destruct (messageHistory s'); [discriminate|reflexivity].
  - intros HN.
    rewrite getMessageHistory_clamps by lia.
    rewrite Hh, lastN_app_long by lia. reflexivity.
  - intros limit Hl. apply getMessageHistory_clamps. exact Hl.
Qed.

(* ================================================================== *)
(** ** Delivery: closed forms of the loops                             *)
(* ================================================================== *)

Section Delivery.

Context {rt : Runtime}.

Import SocketHandler.

Lemma setSent_nil (s : State) : setSent (sent s ++ []) s = s.
Proof. rewrite app_nil_r. destruct s; reflexivity. Qed.

Lemma broadcast_loop (xml : string) (l : list WebSocket) :
  forall s : State,
    forEach l (fun ws =>
      open <- gets (fun s => isOpen s ws) ;;
      if open then wsSend ws xml else ret tt) s =
    (Ok tt, setSent (sent s ++ frames xml (filter (isOpen s) l)) s).
Proof.
  induction l as [|w l IH]; intros s.
  - simpl. rewrite app_nil_r. destruct s; reflexivity.
  - simpl forEach. unfold bind at 1. unfold bind at 1. unfold gets at 1.
    simpl filter. destruct (isOpen s w) eqn:Hw.
    + unfold wsSend, modify. rewrite IH. simpl.
      unfold setSent at 1 2. simpl. rewrite <- app_assoc. reflexivity.
    + unfold ret at 1. rewrite IH. reflexivity.
Qed.

Lemma broadcastMessage_run (xml : string) (s : State) :
  broadcastMessage xml s = (Ok tt, setSent (sent s ++ frames xml (openHandles s)) s).
Proof.
  unfold broadcastMessage, bind at 1, gets at 1.
  apply broadcast_loop.
Qed.

(** *** What the builder accepts *)

Lemma encodes_text (m : jsval) (xml : string) :
  RmiMiddleware.messageToXml m = Ok xml -> encoded m = xml /\ encodes m.
Proof.
  intros H. unfold encodes, encoded. rewrite H. split; reflexivity.
Qed.

Lemma refused_not_encoded (m : jsval) (e : error) :
  RmiMiddleware.messageToXml m = Throw e -> ~ encodes m.
Proof. intros H He. unfold encodes in He. rewrite H in He. discriminate He. Qed.

Lemma encodable_prefix (l : list jsval) : exists rest, l = encodable l ++ rest.
Proof.
  induction l as [|m l [rest IH]]; [exists []; reflexivity|].
  simpl. destruct (RmiMiddleware.messageToXml m).
  - exists rest. simpl. rewrite <- IH. reflexivity.
  - exists (m :: l). reflexivity.
Qed.

Lemma encodable_encodes (l : list jsval) : Forall encodes (encodable l).
Proof.
  induction l as [|m l IH]; simpl; [constructor|].
  destruct (RmiMiddleware.messageToXml m) as [xml|e] eqn:Hm; constructor; [|exact IH].
  apply (encodes_text m xml Hm).
Qed.

Lemma encodable_all (l : list jsval) :
  Forall encodes l -> encodable l = l /\ refusal l = None.
Proof.
  induction 1 as [|m l Hm _ [IH1 IH2]]; [split; reflexivity|].
  simpl. rewrite Hm, IH1, IH2. split; reflexivity.
Qed.

Lemma encodable_stop (before after : list jsval) (bad : jsval) (e : error) :
  Forall encodes before ->
  RmiMiddleware.messageToXml bad = Throw e ->
  encodable (before ++ bad :: after) = before /\
  refusal (before ++ bad :: after) = Some e.
Proof.
  intros Hb Hbad. induction Hb as [|m l Hm _ [IH1 IH2]]; simpl.
  - rewrite Hbad. split; reflexivity.
  - rewrite Hm, IH1, IH2. split; reflexivity.
Qed.

Lemma refusal_none (l : list jsval) : refusal l = None -> Forall encodes l.
Proof.
  induction l as [|m l IH]; simpl; [constructor|].
  destruct (RmiMiddleware.messageToXml m) as [xml|e] eqn:Hm; [|discriminate].
  intros H. constructor; [apply (encodes_text m xml Hm)|exact (IH H)].
Qed.

Lemma encodable_length (l : list jsval) : length (encodable l) <= length l.
Proof.
  destruct (encodable_prefix l) as [rest H]. rewrite H at 2.
  rewrite length_app. lia.
Qed.

(** The replay loop: the visible messages are encoded and written one by
    one, and the first refusal of the builder ends the loop. *)
Lemma replay_loop (ws : WebSocket) (uid : string) (l : list jsval) :
  forall s : State,
    forEach l (fun msg =>
      if skipped uid msg then ret tt
      else
        xml <- liftO (RmiMiddleware.messageToXml msg) ;;
        wsSend ws xml) s =
    (match refusal (replayed uid l) with
     | None => Ok tt
     | Some e => Throw e
     end,
     setSent (sent s ++ map (fun msg => (ws, encoded msg))
                          (encodable (replayed uid l))) s).
Proof.
  induction l as [|m l IH]; intros s.
  - simpl. rewrite setSent_nil. reflexivity.
  - simpl forEach. unfold bind at 1. simpl replayed.
    destruct (skipped uid m) eqn:Hm; simpl negb; cbv iota.
    + unfold ret at 1. rewrite IH. reflexivity.
    + unfold bind at 1. unfold liftO at 1. cbn [encodable refusal].
      destruct (RmiMiddleware.messageToXml m) as [xml|e] eqn:He.
      * unfold wsSend, modify. rewrite IH. cbn [map].
        destruct (encodes_text m xml He) as [-> _].
        unfold setSent at 1 2. simpl. rewrite <- app_assoc. reflexivity.
      * cbn [map]. rewrite setSent_nil. reflexivity.
Qed.

End Delivery.

Section Replay.

Context {rt : Runtime}.

Import SocketHandler.

Lemma replayHistory_run (ws : WebSocket) (uid : string) (s : State) :
  replayHistory ws uid s =
  (match refusal (replayed uid (lastN 20 (messageHistory s))) with
   | None => Ok tt
   | Some e => Throw e
   end,
   setSent (sent s ++ map (fun msg => (ws, encoded msg))
                        (encodable (replayed uid (lastN 20 (messageHistory s))))) s).
Proof.
  unfold replayHistory, bind at 1.
  change (RmiMiddleware.getMessageHistory None s)
    with (RmiMiddleware.getMessageHistory (Some (Z.of_nat 20)) s).
  rewrite getMessageHistory_window by lia.
  apply replay_loop.
Qed.

End Replay.

(* ================================================================== *)
(** ** The handlers: closed forms                                      *)
(* ================================================================== *)

Section Handlers.

Context {rt : Runtime}.

Import SocketHandler.

Lemma truthy_nonempty (uid : string) : uid <> "" -> truthy (JStr uid) = true.
Proof.
  intros H. simpl. destruct (String.eqb_spec uid ""); [contradiction|reflexivity].
Qed.

Lemma onChatEvent_broadcast (message : jsval) (s : State) :
  isStr (get message "type") "PRIVATE" = false ->
  onChatEvent message s = emit message tt s.
Proof.
  intros H. unfold onChatEvent, emit. unfold bind at 1. unfold liftO at 1.
  destruct (RmiMiddleware.messageToXml message) as [xml|e]; [|reflexivity].
  rewrite H. apply broadcastMessage_run.
Qed.

(** A function of the middleware that notifies the listeners of a message
    that is not PRIVATE and then returns [a]. *)
Lemma notify_then {A : Type} (m : jsval) (a : A) (s0 : State) :
  isStr (get m "type") "PRIVATE" = false ->
  bind (RmiMiddleware.notifyAll onChatEvent m) (fun _ => ret a) s0 = emit m a s0.
Proof.
  intros H. unfold bind, RmiMiddleware.notifyAll.
  rewrite (onChatEvent_broadcast m s0 H). unfold emit.
  destruct (RmiMiddleware.messageToXml m); reflexivity.
Qed.

Lemma emit_ok {A : Type} (m : jsval) (a : A) (s0 : State) :
  encodes m ->
  emit m a s0 = (Ok a, setSent (sent s0 ++ frames (encoded m) (openHandles s0)) s0).
Proof. intros H. unfold emit. rewrite H. reflexivity. Qed.

Lemma emit_refused {A : Type} (m : jsval) (a : A) (s0 : State) (e : error) :
  RmiMiddleware.messageToXml m = Throw e -> emit m a s0 = (Throw e, s0).
Proof. intros H. unfold emit. rewrite H. reflexivity. Qed.

(** Whether or not the builder accepts the message, emitting it changes
    nothing but the frames written. *)
Lemma emit_store {A : Type} (m : jsval) (a : A) (s0 : State) :
  users (snd (emit m a s0)) = users s0 /\
  messageHistory (snd (emit m a s0)) = messageHistory s0 /\
  activeConnections (snd (emit m a s0)) = activeConnections s0 /\
  openSockets (snd (emit m a s0)) = openSockets s0 /\
  uuidCalls (snd (emit m a s0)) = uuidCalls s0 /\
  dateCalls (snd (emit m a s0)) = dateCalls s0.
Proof.
  unfold emit. destruct (RmiMiddleware.messageToXml m); repeat split; reflexivity.
Qed.



Lemma sendUserListUpdate_run (s : State) :
  sendUserListUpdate s =
  emit (userListMessage (mapValues (users s)) (dateCalls s)) tt (ticked s).
Proof.
  unfold sendUserListUpdate, RmiMiddleware.getUsers, emit.
  unfold bind at 1. unfold gets at 1.
  unfold bind at 1. unfold newDate at 1.
  unfold bind at 1. unfold liftO at 1.
  change (RmiMiddleware.messageToXml
            (JObj [("userId", JStr "system"); ("username", JStr "Sistema");
                   ("content", JStr (JSON_stringify (mapValues (users s))));
                   ("timestamp", JStr (isoDate (dateCalls s)));
                   ("type", JStr "USER_LIST")]))
    with (RmiMiddleware.messageToXml (userListMessage (mapValues (users s)) (dateCalls s))).
  destruct (RmiMiddleware.messageToXml (userListMessage (mapValues (users s)) (dateCalls s)));
    [|reflexivity].
  rewrite broadcastMessage_run. reflexivity.
Qed.

(** The roster, whose call is not awaited: the caller goes on whether or
    not the roster could be encoded. *)
Lemma detached_roster (s : State) :
  detached sendUserListUpdate s =
  (Ok tt, snd (emit (userListMessage (mapValues (users s)) (dateCalls s)) tt (ticked s))).
Proof.
  unfold detached, tryCatch. rewrite sendUserListUpdate_run. unfold emit.
  destruct (RmiMiddleware.messageToXml (userListMessage (mapValues (users s)) (dateCalls s)));
    reflexivity.
Qed.

Lemma welcome_run (ws : WebSocket) (uid : string) (s : State) :
  welcome ws uid s =
  match RmiMiddleware.messageToXml (joinResponse uid (dateCalls s)) with
  | Throw e => (Throw e, bound ws uid s)
  | Ok xml =>
      let window := replayed uid (lastN 20 (messageHistory s)) in
      let shown :=
        setSent (sent s ++ (ws, xml) :: map (fun msg => (ws, encoded msg)) (encodable window))
          (bound ws uid s) in
      match refusal window with
      | Some e => (Throw e, shown)
      | None =>
          (Ok tt,
           snd (emit (userListMessage (mapValues (users s)) (S (dateCalls s))) tt
                  (ticked shown)))
      end
  end.
Proof.
  unfold welcome.
  unfold bind at 1. unfold modify at 1.
  unfold bind at 1. unfold newDate at 1.
  unfold bind at 1. unfold liftO at 1.
  change (RmiMiddleware.messageToXml
            (JObj [("userId", JStr "system"); ("username", JStr "Sistema");
                   ("content", JStr connectedText);
                   ("timestamp",
                    JStr (isoDate (dateCalls
                            (setConnections (mapSet uid ws (activeConnections s)) s))));
                   ("type", JStr "JOIN"); ("clientId", JStr uid)]))
    with (RmiMiddleware.messageToXml (joinResponse uid (dateCalls s))).
  destruct (RmiMiddleware.messageToXml (joinResponse uid (dateCalls s))) as [xml|e];
    [|reflexivity].
  unfold bind at 1. unfold wsSend at 1. unfold modify at 1.
  unfold bind at 1. rewrite replayHistory_run.
  cbn [messageHistory setSent setConnections sent].
  destruct (refusal (replayed uid (lastN 20 (messageHistory s)))) as [e|].
  - cbn zeta. unfold bound, ticked. cbn [setSent setConnections users messageHistory
      activeConnections openSockets sent uuidCalls dateCalls].
    rewrite <- app_assoc. reflexivity.
  - rewrite detached_roster. cbn zeta. unfold bound, ticked.
    cbn [setSent setConnections users messageHistory activeConnections openSockets sent
         uuidCalls dateCalls].
    rewrite <- app_assoc. reflexivity.
Qed.

(** Whatever the builder does, [welcome] leaves the registry, the history
    and the id counter alone and binds the handle. *)
Lemma welcome_store (ws : WebSocket) (uid : string) (s : State) :
  users (snd (welcome ws uid s)) = users s /\
  messageHistory (snd (welcome ws uid s)) = messageHistory s /\
  activeConnections (snd (welcome ws uid s)) = mapSet uid ws (activeConnections s) /\
  uuidCalls (snd (welcome ws uid s)) = uuidCalls s.
Proof.
  rewrite welcome_run.
  destruct (RmiMiddleware.messageToXml (joinResponse uid (dateCalls s))) as [xml|e];
    [|repeat split; reflexivity].
  cbn zeta. destruct (refusal (replayed uid (lastN 20 (messageHistory s)))) as [e|];
    [repeat split; reflexivity|].
  cbn [snd].
  match goal with |- context [emit ?m ?a ?s0] =>
    destruct (emit_store m a s0) as [Hu [Hh [Hc [_ [Hi _]]]]] end.
  rewrite Hu, Hh, Hc, Hi. repeat split; reflexivity.
Qed.

(** When the builder accepts the confirmation, the visible messages of the
    window and the roster, [welcome] returns and has written them. *)
Lemma welcome_ok (ws : WebSocket) (uid : string) (s : State) :
  Forall encodes (reconnectMessages uid s) ->
  welcome ws uid s =
  (Ok tt,
   mkState (users s) (messageHistory s) (mapSet uid ws (activeConnections s))
     (openSockets s) (sent s ++ reconnectFrames ws uid s)
     (uuidCalls s) (S (S (dateCalls s)))).
Proof.
  intros H. unfold reconnectMessages in H.
  apply Forall_app in H. destruct H as [Hj H].
  apply Forall_app in H. destruct H as [Hw Hr].
  inversion Hj as [|x l Hj' _]; subst. inversion Hr as [|x l Hr' _]; subst.
  rewrite welcome_run. rewrite Hj'. cbn zeta.
  destruct (encodable_all _ Hw) as [-> ->].
  rewrite emit_ok by exact Hr'.
  unfold reconnectFrames, bound, ticked, openHandles.
  cbn [snd setSent setConnections users messageHistory activeConnections openSockets sent
       uuidCalls dateCalls app].
  rewrite <- app_assoc. reflexivity.
Qed.

Lemma catchBlock_run (ws : WebSocket) (connUserId : jsval) (e : error) (s : State) :
  catchBlock ws connUserId e s =
  match RmiMiddleware.messageToXml (errorReply e (dateCalls s)) with
  | Ok xml => (Ok connUserId, setSent (sent s ++ [(ws, xml)]) (ticked s))
  | Throw e' => (Throw e', ticked s)
  end.
Proof.
  unfold catchBlock.
  unfold bind at 1. unfold newDate at 1.
  unfold bind at 1. unfold liftO at 1.
  change (RmiMiddleware.messageToXml
            (JObj [("userId", JStr "system"); ("username", JStr "Sistema");
                   ("content", JStr ("Error: " +++ message e));
                   ("timestamp", JStr (isoDate (dateCalls s)));
                   ("type", JStr "CHAT")]))
    with (RmiMiddleware.messageToXml (errorReply e (dateCalls s))).
  destruct (RmiMiddleware.messageToXml (errorReply e (dateCalls s))); reflexivity.
Qed.

Lemma catchBlock_ok (ws : WebSocket) (connUserId : jsval) (e : error) (s : State) :
  encodes (errorReply e (dateCalls s)) ->
  catchBlock ws connUserId e s = (Ok connUserId, replied ws e s).
Proof. intros H. rewrite catchBlock_run, H. reflexivity. Qed.

Lemma catchBlock_refused (ws : WebSocket) (connUserId : jsval) (e e' : error) (s : State) :
  RmiMiddleware.messageToXml (errorReply e (dateCalls s)) = Throw e' ->
  catchBlock ws connUserId e s = (Throw e', ticked s).
Proof. intros H. rewrite catchBlock_run, H. reflexivity. Qed.

(** Whatever the builder does, the [catch] block leaves the registry, the
    history, the bindings and the id counter alone. *)
Lemma catchBlock_store (ws : WebSocket) (connUserId : jsval) (e : error) (s : State) :
  users (snd (catchBlock ws connUserId e s)) = users s /\
  messageHistory (snd (catchBlock ws connUserId e s)) = messageHistory s /\
  activeConnections (snd (catchBlock ws connUserId e s)) = activeConnections s /\
  uuidCalls (snd (catchBlock ws connUserId e s)) = uuidCalls s.
Proof.
  rewrite catchBlock_run.
  destruct (RmiMiddleware.messageToXml (errorReply e (dateCalls s)));
    repeat split; reflexivity.
Qed.

Lemma handleJoin_reconnect (ws : WebSocket) (message : jsval) (uid : string) (s : State) :
  get message "userId" = JStr uid ->
  uid <> "" ->
  uid <> "system" ->
  existsb (fun user => userId user =? uid) (mapValues (users s)) = true ->
  handleJoin ws message s = bind (welcome ws uid) (fun _ => ret message) s.
Proof.
  intros Hu Hne Hsys Hex.
  unfold handleJoin. rewrite Hu, (truthy_nonempty uid Hne).
  assert (Hs : isStr (JStr uid) "system" = false).
  { simpl. destruct (String.eqb_spec uid "system"); [contradiction|reflexivity]. }
  rewrite Hs. cbn [negb andb].
  unfold bind at 1. unfold bind at 1. unfold RmiMiddleware.getUsers, gets at 1.
  rewrite Hex. reflexivity.
Qed.

End Handlers.

(* ================================================================== *)
(** ** The session protocol                                            *)
(* ================================================================== *)

Section Protocol.

Context {rt : Runtime}.

Import SocketHandler.

Lemma prop_get (m : jsval) (k lit : string) :
  isStr (get m k) lit = true -> prop m k = Ok (get m k).
Proof.
  destruct m; simpl; try discriminate.
  destruct (assoc k props); [reflexivity|discriminate].
Qed.

Lemma isStr_eq (v : jsval) (lit : string) : isStr v lit = true -> v = JStr lit.
Proof.
  destruct v; simpl; try discriminate.
  intros H. apply String.eqb_eq in H. congruence.
Qed.

Lemma assoc_mapSet_same {A : Type} (k : string) (a : A) (m : list (string * A)) :
  assoc k (mapSet k a m) = Some a.
Proof.
  induction m as [|[k' b] m IH]; simpl.
  - rewrite String.eqb_refl. reflexivity.
  - destruct (String.eqb_spec k' k) as [->|Hne]; simpl.
    + rewrite String.eqb_refl. reflexivity.
    + destruct (String.eqb_spec k' k); [contradiction|exact IH].
Qed.


(** The filter of the replay: a message of the window is visible to the
    joining user exactly when it is not of kind PRIVATE or the user is its
    sender or its target. *)
Lemma replayed_visible (uid : string) (window : list jsval) (msg : jsval) :
  In msg (replayed uid window) <->
  In msg window /\
  (isStr (get msg "type") "PRIVATE" = true ->
   isStr (get msg "userId") uid = true \/
   isStr (get msg "targetUserId") uid = true).
Proof.
  unfold replayed. rewrite filter_In. unfold skipped.
  split; intros [Hin H]; split; try exact Hin.
  - intros Hp. rewrite Hp in H. simpl in H.
    destruct (isStr (get msg "userId") uid); [left; reflexivity|].
    destruct (isStr (get msg "targetUserId") uid); [right; reflexivity|].
    discriminate.
  - destruct (isStr (get msg "type") "PRIVATE"); [|reflexivity].
    destruct (H eq_refl) as [-> | ->]; simpl.
    + rewrite andb_false_r. reflexivity.
    + reflexivity.
Qed.

(** C3, the divergence.  The replay loop of [handleJoin] encodes each
    message that passes the filter and writes it, and the call of the
    builder is not guarded.  When the builder refuses a message of the
    window that is visible to the joining user, the loop ends there with
    the builder's exception: the frames written are those of the visible
    messages before it, and the visible messages after it, PRIVATE or not,
    are not delivered, although each of them is in the window and passes
    the filter.  The filter itself is as specified: what it lets through
    are the messages that are not PRIVATE and the PRIVATE ones whose
    sender or target is the joining user. *)
Theorem C3_replay_stops_at_refused_message :
  forall (ws : WebSocket) (uid : string) (s : State)
         (before after : list jsval) (bad : jsval) (e : error),
    replayed uid (lastN 20 (messageHistory s)) = before ++ bad :: after ->
    Forall encodes before ->
    RmiMiddleware.messageToXml bad = Throw e ->
    result (replayHistory ws uid) s = Throw e /\
    sent (exec (replayHistory ws uid) s) =
      sent s ++ map (fun msg => (ws, encoded msg)) before /\
    (forall msg : jsval,
        In msg (bad :: after) ->
        In msg (lastN 20 (messageHistory s)) /\
        (isStr (get msg "type") "PRIVATE" = true ->
         isStr (get msg "userId") uid = true \/
         isStr (get msg "targetUserId") uid = true)) /\
    (forall msg : jsval,
        In msg (before ++ bad :: after) <->
        In msg (lastN 20 (messageHistory s)) /\
        (isStr (get msg "type") "PRIVATE" = true ->
         isStr (get msg "userId") uid = true \/
         isStr (get msg "targetUserId") uid = true)).
Proof.
  intros ws uid s before after bad e Hw Hb Hbad.
  destruct (encodable_stop before after bad e Hb Hbad) as [He Hr].
  unfold result, exec. rewrite replayHistory_run, Hw, He, Hr. cbn [fst snd sent setSent].
  split; [reflexivity|]. split; [reflexivity|].
  split.
  - intros msg Hin. apply replayed_visible. rewrite Hw.
    apply in_or_app. right. exact Hin.
  - intros msg. rewrite <- Hw. apply replayed_visible.
Qed.

(** C10.  [handleJoin] calls [getMessageHistory] without argument, so the
    window of the replay is the last 20 messages of the history, also when
    the history holds more.  The frames of the replay are the texts of the
    first visible messages of that window, in order, up to the first one
    that the builder refuses, and of all of them when it refuses none: at
    most 20 frames, all of them taken from the window. *)
Theorem C10_replay_sends_last_twenty :
  forall (ws : WebSocket) (uid : string) (s : State),
    let window := lastN 20 (messageHistory s) in
    RmiMiddleware.getMessageHistory None s = (Ok window, s) /\
    sent (exec (replayHistory ws uid) s) =
      sent s ++ map (fun msg => (ws, encoded msg)) (encodable (replayed uid window)) /\
    (exists rest, replayed uid window = encodable (replayed uid window) ++ rest) /\
    (Forall encodes (replayed uid window) ->
     result (replayHistory ws uid) s = Ok tt /\
     sent (exec (replayHistory ws uid) s) =
       sent s ++ map (fun msg => (ws, encoded msg)) (replayed uid window)) /\
    length (encodable (replayed uid window)) <= 20 /\
    length (replayed uid window) <= 20 /\
    incl (encodable (replayed uid window)) window /\
    incl (replayed uid window) window /\
    length window = Nat.min 20 (length (messageHistory s)).
Proof.
  intros ws uid s window.
  assert (Hlen : length (replayed uid window) <= 20).
  { unfold replayed. eapply Nat.le_trans; [apply filter_length_le|].
    unfold window. rewrite lastN_length. lia. }
  assert (Hincl : incl (replayed uid window) window).
  { unfold replayed. intros m Hm. apply filter_In in Hm. tauto. }
  split; [|split; [|split; [|split; [|split; [|split; [|split; [|split]]]]]]].
  - change (RmiMiddleware.getMessageHistory None s)
      with (RmiMiddleware.getMessageHistory (Some (Z.of_nat 20)) s).
    apply getMessageHistory_window. lia.
  - unfold exec. rewrite replayHistory_run. reflexivity.
  - apply encodable_prefix.
  - intros Hall. destruct (encodable_all _ Hall) as [He Hr].
    unfold result, exec. rewrite replayHistory_run.
    fold window. rewrite He, Hr. split; reflexivity.
  - eapply Nat.le_trans; [apply encodable_length|exact Hlen].
  - exact Hlen.
  - intros m Hm. apply Hincl.
    destruct (encodable_prefix (replayed uid window)) as [rest Hp].
    rewrite Hp. apply in_or_app. left. exact Hm.
  - exact Hincl.
  - apply lastN_length.
Qed.

Lemma sendPrivateMessage_run (xml target sender : string) (s : State) :
  sendPrivateMessage xml (JStr target) (JStr sender) s =
  (Ok tt, setSent (sent s ++ toTarget xml target s ++ echo xml target sender s) s).
Proof.
  unfold sendPrivateMessage, toTarget, echo.
  unfold bind at 1. unfold gets at 1. cbn [mapGet].
  unfold bind at 1.
  destruct (assoc target (activeConnections s)) as [tws|].
  - unfold bind at 1. unfold gets at 1.
    destruct (isOpen s tws) eqn:Ht.
    + unfold wsSend, modify.
      unfold bind at 1. unfold gets at 1. cbn [mapGet activeConnections setSent].
      destruct (assoc sender (activeConnections s)) as [sws|].
      * unfold bind at 1. unfold gets at 1.
        change (isOpen (setSent (sent s ++ [(tws, xml)]) s) sws) with (isOpen s sws).
        cbn [isStr]. rewrite (String.eqb_sym target sender).
        destruct (isOpen s sws && negb (sender =? target)).
        -- cbn. rewrite <- app_assoc. reflexivity.
        -- reflexivity.
      * reflexivity.
    + unfold ret at 1.
      unfold bind at 1. unfold gets at 1. cbn [mapGet].
      destruct (assoc sender (activeConnections s)) as [sws|].
      * unfold bind at 1. unfold gets at 1.
        cbn [isStr]. rewrite (String.eqb_sym target sender).
        destruct (isOpen s sws && negb (sender =? target)).
        -- reflexivity.
        -- unfold ret. cbn [app]. rewrite setSent_nil. reflexivity.
      * unfold ret. cbn [app]. rewrite setSent_nil. reflexivity.
  - unfold ret at 1.
    unfold bind at 1. unfold gets at 1. cbn [mapGet].
    destruct (assoc sender (activeConnections s)) as [sws|].
    + unfold bind at 1. unfold gets at 1.
      cbn [isStr]. rewrite (String.eqb_sym target sender).
      destruct (isOpen s sws && negb (sender =? target)).
      * reflexivity.
      * unfold ret. cbn [app]. rewrite setSent_nil. reflexivity.
    + unfold ret. cbn [app]. rewrite setSent_nil. reflexivity.
Qed.

(** The listener on a PRIVATE message: the builder is called first, and
    its text is what [sendPrivateMessage] is given. *)
Lemma onChatEvent_private (message : jsval) (s : State) :
  isStr (get message "type") "PRIVATE" = true ->
  onChatEvent message s =
  match RmiMiddleware.messageToXml message with
  | Ok xml =>
      sendPrivateMessage xml (get message "targetUserId") (get message "userId") s
  | Throw e => (Throw e, s)
  end.
Proof.
  intros H. unfold onChatEvent. unfold bind at 1. unfold liftO at 1.
  destruct (RmiMiddleware.messageToXml message); [|reflexivity].
  rewrite H. reflexivity.
Qed.

(** C7.  The unicast of an encoded PRIVATE message, [sendPrivateMessage]
    of the socket handler, for every text, target and sender: the text goes
    to the target's handle when it is bound and OPEN, and one more copy to
    the sender's handle when it is bound and OPEN and the sender is not the
    target.  Without an OPEN binding of the target only the echo is
    written; when sender and target coincide and the handle is OPEN exactly
    one copy is written.  Nothing else changes.  The listener calls it
    with the text that the builder returned for the message, and with the
    target and the sender of the message. *)
Theorem C7_unicast_delivery :
  forall (xml target sender : string) (s : State),
    let s' := exec (sendPrivateMessage xml (JStr target) (JStr sender)) s in
    result (sendPrivateMessage xml (JStr target) (JStr sender)) s = Ok tt /\
    s' = setSent (sent s') s /\
    sent s' = sent s ++ toTarget xml target s ++ echo xml target sender s /\
    (forall ws, assoc target (activeConnections s) = Some ws -> isOpen s ws = true ->
                toTarget xml target s = [(ws, xml)]) /\
    (forall ws, assoc sender (activeConnections s) = Some ws -> isOpen s ws = true ->
                sender <> target -> echo xml target sender s = [(ws, xml)]) /\
    (toTarget xml target s = [] ->
     forall ws, assoc sender (activeConnections s) = Some ws -> isOpen s ws = true ->
                sender <> target -> sent s' = sent s ++ [(ws, xml)]) /\
    (sender = target ->
     forall ws, assoc target (activeConnections s) = Some ws -> isOpen s ws = true ->
                sent s' = sent s ++ [(ws, xml)]) /\
    (forall message : jsval,
        isStr (get message "type") "PRIVATE" = true ->
        get message "targetUserId" = JStr target ->
        get message "userId" = JStr sender ->
        RmiMiddleware.messageToXml message = Ok xml ->
        onChatEvent message s =
        sendPrivateMessage xml (JStr target) (JStr sender) s).
Proof.
  intros xml target sender s s'.
  assert (Hsent : sent s' = sent s ++ toTarget xml target s ++ echo xml target sender s).
  { unfold s', exec. rewrite sendPrivateMessage_run. reflexivity. }
  assert (Hecho : forall ws, assoc sender (activeConnections s) = Some ws ->
                  isOpen s ws = true -> sender <> target ->
                  echo xml target sender s = [(ws, xml)]).
  { intros ws Hb Ho Hne. unfold echo. rewrite Hb, Ho.
    destruct (String.eqb_spec sender target); [contradiction|reflexivity]. }
  split; [unfold result; rewrite sendPrivateMessage_run; reflexivity|].
  split; [unfold s', exec; rewrite sendPrivateMessage_run; reflexivity|].
  split; [exact Hsent|].
  split; [|split; [exact Hecho|split; [|split]]].
  - intros ws Hb Ho. unfold toTarget. rewrite Hb, Ho. reflexivity.
  - intros Hnone ws Hb Ho Hne. rewrite Hsent, Hnone, (Hecho ws Hb Ho Hne). reflexivity.
  - intros -> ws Hb Ho. rewrite Hsent. unfold toTarget, echo.
    rewrite Hb, Ho, String.eqb_refl. reflexivity.
  - intros message Hp Ht Hs Hx.
    rewrite (onChatEvent_private message s Hp), Hx, Ht, Hs. reflexivity.
Qed.

(** A JOIN frame whose user id belongs to a registered user: the handler
    runs [welcome] and, if that throws, the [catch] block. *)
Lemma onMessage_reconnect (ws : WebSocket) (connUserId : jsval) (data : string)
  (message : jsval) (uid : string) (s : State) :
  RmiMiddleware.xmlToMessage data = Ok message ->
  isStr (get message "type") "JOIN" = true ->
  get message "userId" = JStr uid ->
  uid <> "" ->
  uid <> "system" ->
  existsb (fun user => userId user =? uid) (mapValues (users s)) = true ->
  onMessage ws connUserId data s =
  match welcome ws uid s with
  | (Ok _, s') => (Ok (JStr uid), s')
  | (Throw e, s') => catchBlock ws connUserId e s'
  end.
Proof.
  intros Hx Hty Hu Hne Hsys Hex.
  unfold onMessage, tryCatch.
  unfold bind at 1. unfold liftO at 1. rewrite Hx.
  unfold bind at 1. unfold liftO at 1. rewrite (prop_get _ _ _ Hty), Hty.
  unfold bind at 1.
  rewrite (handleJoin_reconnect ws message uid s Hu Hne Hsys Hex).
  unfold bind at 1.
  destruct (welcome ws uid s) as [[[]|e] s1]; [|reflexivity].
  unfold ret. rewrite Hu. reflexivity.
Qed.

(** Whatever the builder does with the frames of a reconnect, the
    registry, the history and the id counter are left alone and the handle
    is bound. *)
Lemma onMessage_reconnect_store (ws : WebSocket) (connUserId : jsval) (data : string)
  (message : jsval) (uid : string) (s : State) :
  RmiMiddleware.xmlToMessage data = Ok message ->
  isStr (get message "type") "JOIN" = true ->
  get message "userId" = JStr uid ->
  uid <> "" ->
  uid <> "system" ->
  existsb (fun user => userId user =? uid) (mapValues (users s)) = true ->
  users (exec (onMessage ws connUserId data) s) = users s /\
  messageHistory (exec (onMessage ws connUserId data) s) = messageHistory s /\
  activeConnections (exec (onMessage ws connUserId data) s) =
    mapSet uid ws (activeConnections s) /\
  uuidCalls (exec (onMessage ws connUserId data) s) = uuidCalls s.
Proof.
  intros Hx Hty Hu Hne Hsys Hex.
  unfold exec.
  rewrite (onMessage_reconnect ws connUserId data message uid s Hx Hty Hu Hne Hsys Hex).
  destruct (welcome_store ws uid s) as [Wu [Wh [Wc Wi]]].
  destruct (welcome ws uid s) as [[[]|e] s1]; cbn [snd] in *.
  - repeat split; assumption.
  - destruct (catchBlock_store ws connUserId e s1) as [Cu [Ch [Cc Ci]]].
    rewrite Cu, Ch, Cc, Ci. repeat split; assumption.
Qed.

(** C8.  A JOIN frame whose user id belongs to a registered user is a
    reconnect.  Whatever the builder does with the frames to write, the
    registry, the id counter and the history are left as they were (no
    registration took place) and the connection is bound to that id.  When
    the builder accepts the confirmation, the visible messages of the
    window and the roster, the handler returns the id and has written
    them, in this order. *)
Theorem C8_reconnect_keeps_identity :
  forall (ws : WebSocket) (connUserId : jsval) (data : string)
         (message : jsval) (uid : string) (s : State),
    RmiMiddleware.xmlToMessage data = Ok message ->
    isStr (get message "type") "JOIN" = true ->
    get message "userId" = JStr uid ->
    uid <> "" ->
    uid <> "system" ->
    existsb (fun user => userId user =? uid) (mapValues (users s)) = true ->
    let s' := exec (onMessage ws connUserId data) s in
    users s' = users s /\
    length (users s') = length (users s) /\
    uuidCalls s' = uuidCalls s /\
    messageHistory s' = messageHistory s /\
    activeConnections s' = mapSet uid ws (activeConnections s) /\
    assoc uid (activeConnections s') = Some ws /\
    (Forall encodes (reconnectMessages uid s) ->
     result (onMessage ws connUserId data) s = Ok (JStr uid) /\
     sent s' = sent s ++ reconnectFrames ws uid s).
Proof.
  intros ws connUserId data message uid s Hx Hty Hu Hne Hsys Hex s'.
  pose proof (onMessage_reconnect ws connUserId data message uid s Hx Hty Hu Hne Hsys Hex)
    as Hrun.
  destruct (onMessage_reconnect_store ws connUserId data message uid s
              Hx Hty Hu Hne Hsys Hex) as [Su [Sh [Sc Si]]].
  fold s' in Su, Sh, Sc, Si.
  split; [exact Su|]. split; [rewrite Su; reflexivity|].
  split; [exact Si|]. split; [exact Sh|]. split; [exact Sc|].
  split; [rewrite Sc; apply assoc_mapSet_same|].
  intros Hall. unfold s', exec, result. rewrite Hrun.
  rewrite (welcome_ok ws uid s Hall). split; reflexivity.
Qed.

(** A CHAT frame: the handler runs [sendMessage] and, if that throws, the
    [catch] block. *)
Lemma onMessage_chat (ws : WebSocket) (connUserId : jsval) (data : string)
  (msg : jsval) (s : State) :
  RmiMiddleware.xmlToMessage data = Ok msg ->
  isStr (get msg "type") "CHAT" = true ->
  onMessage ws connUserId data s =
  match sendMessage (JObj [("userId", get msg "userId");
                           ("content", get msg "content")]) s with
  | (Ok _, s') => (Ok connUserId, s')
  | (Throw e, s') => catchBlock ws connUserId e s'
  end.
Proof.
  intros Hx Hty. unfold onMessage, tryCatch.
  unfold bind at 1. unfold liftO at 1. rewrite Hx.
  unfold bind at 1. unfold liftO at 1. rewrite (prop_get _ _ _ Hty).
  rewrite (isStr_eq _ _ Hty). cbn [isStr String.eqb Ascii.eqb Bool.eqb andb].
  unfold bind at 1.
  match goal with |- context [sendMessage ?m ?st] =>
    destruct (sendMessage m st) as [[a|e] s1] end;
    reflexivity.
Qed.


(** A frame whose text does not decode: the handler runs the [catch]
    block, in the state in which the frame arrived. *)
Lemma onMessage_undecoded (ws : WebSocket) (connUserId : jsval) (data : string)
  (e : error) (s : State) :
  decodeFailure data = Some e ->
  onMessage ws connUserId data s = catchBlock ws connUserId e s.
Proof.
  intros Hx. unfold onMessage, tryCatch.
  unfold bind at 1. unfold liftO at 1.
  unfold decodeFailure in Hx.
  destruct (RmiMiddleware.xmlToMessage data) as [m|e'].
  - destruct (prop m "type") as [t|e'] eqn:Hp; [discriminate|].
    injection Hx as ->.
    unfold bind at 1. unfold liftO at 1. reflexivity.
  - injection Hx as ->. reflexivity.
Qed.

(** C6, the divergence.  When the text of a frame does not decode, the
    [catch] block builds a reply whose content is the description of the
    error, and encodes it outside any [try].  When the builder refuses
    that reply, which it does when the description quotes a character of
    the frame that XML excludes, nothing is written to the connection
    and the builder's exception leaves the handler: the failure is
    neither answered nor contained. *)
Theorem C6_decode_failure_escapes :
  forall (ws : WebSocket) (connUserId : jsval) (data : string) (e e' : error) (s : State),
    decodeFailure data = Some e ->
    RmiMiddleware.messageToXml (errorReply e (dateCalls s)) = Throw e' ->
    result (onMessage ws connUserId data) s = Throw e' /\
    sent (exec (onMessage ws connUserId data) s) = sent s /\
    exec (onMessage ws connUserId data) s = ticked s.
Proof.
  intros ws connUserId data e e' s Hx He.
  unfold result, exec.
  rewrite (onMessage_undecoded ws connUserId data e s Hx).
  rewrite (catchBlock_refused ws connUserId e e' s He).
  repeat split; reflexivity.
Qed.

(** When the builder accepts the reply, the failure is answered: one frame
    to that connection, of kind CHAT, from the system, with the error text
    after ["Error: "]; nothing else changes and the handler returns. *)
Lemma decode_failure_answered (ws : WebSocket) (connUserId : jsval) (data : string)
  (e : error) (s : State) :
  decodeFailure data = Some e ->
  encodes (errorReply e (dateCalls s)) ->
  onMessage ws connUserId data s = (Ok connUserId, replied ws e s) /\
  get (errorReply e (dateCalls s)) "type" = JStr "CHAT" /\
  get (errorReply e (dateCalls s)) "userId" = JStr "system" /\
  get (errorReply e (dateCalls s)) "content" = JStr ("Error: " +++ message e).
Proof.
  intros Hx He.
  rewrite (onMessage_undecoded ws connUserId data e s Hx).
  rewrite (catchBlock_ok ws connUserId e s He).
  repeat split; reflexivity.
Qed.

(** Removal of a registered user: the user is deleted and the LEAVE
    message saved before the listener is called. *)
Lemma disconnectUser_run (uid : string) (user : User) (s : State) :
  assoc uid (users s) = Some user ->
  disconnectUser (JStr uid) s =
  emit (leaveMessageOf (username user) (dateCalls s)) true (removed uid user s).
Proof.
  intros Ha. unfold disconnectUser, RmiMiddleware.disconnectUser.
  unfold bind at 1. unfold gets at 1. cbn [mapGet]. rewrite Ha.
  unfold bind at 1. unfold modify at 1.
  unfold bind at 1. unfold RmiMiddleware.createSystemMessage.
  unfold bind at 1. unfold newDate at 1. unfold ret at 1.
  unfold bind at 1. rewrite saveMessage_run.
  rewrite notify_then by reflexivity.
  reflexivity.
Qed.

(** A LOGOUT frame on the connection of a registered user: the binding is
    deleted after [disconnectUser] has returned, and not when it throws. *)
Lemma logout_run (ws : WebSocket) (data : string) (message : jsval)
  (uid : string) (user : User) (s : State) :
  RmiMiddleware.xmlToMessage data = Ok message ->
  isStr (get message "type") "LOGOUT" = true ->
  uid <> "" ->
  assoc uid (users s) = Some user ->
  onMessage ws (JStr uid) data s =
  match emit (leaveMessageOf (username user) (dateCalls s)) true (removed uid user s) with
  | (Ok _, s') =>
      (Ok JNull, setConnections (mapDelete uid (activeConnections s')) s')
  | (Throw e, s') => catchBlock ws (JStr uid) e s'
  end.
Proof.
  intros Hx Hty Hne Ha. unfold onMessage, tryCatch.
  unfold bind at 1. unfold liftO at 1. rewrite Hx.
  unfold bind at 1. unfold liftO at 1. rewrite (prop_get _ _ _ Hty).
  rewrite (isStr_eq _ _ Hty). cbn [isStr String.eqb Ascii.eqb Bool.eqb andb].
  rewrite (truthy_nonempty uid Hne).
  unfold bind at 1. rewrite (disconnectUser_run uid user s Ha).
  destruct (emit (leaveMessageOf (username user) (dateCalls s)) true (removed uid user s))
    as [[b|e] s1]; reflexivity.
Qed.

(** The ['close'] event on the connection of a registered user: the binding
    is deleted first, so the closing connection gets no LEAVE frame. *)
Lemma close_run (uid : string) (user : User) (s : State) :
  uid <> "" ->
  assoc uid (users s) = Some user ->
  onClose (JStr uid) s =
  emit (leaveMessageOf (username user) (dateCalls s)) tt
    (removed uid user (setConnections (mapDelete uid (activeConnections s)) s)).
Proof.
  intros Hne Ha. unfold onClose. rewrite (truthy_nonempty uid Hne).
  unfold bind at 1. unfold modify at 1.
  unfold bind at 1.
  rewrite disconnectUser_run with (user := user) by exact Ha.
  unfold emit. cbn [dateCalls setConnections mapDeleteV].
  destruct (RmiMiddleware.messageToXml (leaveMessageOf (username user) (dateCalls s)));
    reflexivity.
Qed.

End Protocol.

(* ================================================================== *)
(** ** The codec: decoding what the builder writes                     *)
(* ================================================================== *)

Section Codec.

Import Xml2js.

Lemma append_assoc (a b c : string) : (a +++ b) +++ c = a +++ (b +++ c).
Proof. induction a as [|x a IH]; simpl; [reflexivity|rewrite IH; reflexivity]. Qed.

Lemma append_nil_r (a : string) : a +++ "" = a.
Proof. induction a as [|x a IH]; simpl; [reflexivity|rewrite IH; reflexivity]. Qed.

Lemma isBlank_app (a b : string) : isBlank (a +++ b) = isBlank a && isBlank b.
Proof.
  induction a as [|x a IH]; simpl; [reflexivity|].
  rewrite IH, andb_assoc. reflexivity.
Qed.

Lemma feed_app (a b : string) :
  forall p : parser,
    feed p (a +++ b) =
    match feed p a with
    | Ok p' => feed p' b
    | Throw e => Throw e
    end.
Proof.
  induction a as [|c a IH]; intros p; simpl; [reflexivity|].
  destruct (step p c); [apply IH|reflexivity].
Qed.

(** Character data: the parser undoes the escaping of the builder. *)
Lemma feed_text (v : string) :
  forall (n t : string) (ks : list (string * jsval)) (st : list frame)
         (res : option jsval) (rest : string),
    feed (mkParser MText (mkFrame n t ks :: st) res) (textEscape v +++ rest) =
    feed (mkParser MText (mkFrame n (t +++ v) ks :: st) res) rest.
Proof.
  induction v as [|c v IH]; intros n t ks st res rest.
  - simpl. rewrite append_nil_r. reflexivity.
  - cbn [textEscape]. rewrite append_assoc.
    replace (t +++ String c v) with ((t +++ String c EmptyString) +++ v)
      by (rewrite append_assoc; reflexivity).
    rewrite <- IH. unfold escapeChar.
    destruct (Ascii.eqb_spec c "&") as [->|Hamp]; [reflexivity|].
    destruct (Ascii.eqb_spec c "<") as [->|Hlt]; [reflexivity|].
    destruct (Ascii.eqb_spec c ">") as [->|Hgt]; [reflexivity|].
    destruct (Ascii.eqb_spec c "013") as [->|Hcr]; [reflexivity|].
    cbn [append feed step pmode].
    apply Ascii.eqb_neq in Hamp, Hlt. rewrite Hamp, Hlt. reflexivity.
Qed.

Lemma nameBody_not_gt (c : ascii) : isNameBody c = true -> (c =? ">")%char = false.
Proof.
  intros H. destruct (Ascii.eqb_spec c ">") as [->|]; [discriminate H|reflexivity].
Qed.

Lemma nameStart_body (c : ascii) : isNameStart c = true -> isNameBody c = true.
Proof. intros H. unfold isNameBody. rewrite H. reflexivity. Qed.

Lemma nameStart_not_markup (c : ascii) :
  isNameStart c = true -> (c =? "?")%char = false /\ (c =? "/")%char = false.
Proof.
  intros H. split.
  - destruct (Ascii.eqb_spec c "?") as [->|]; [discriminate H|reflexivity].
  - destruct (Ascii.eqb_spec c "/") as [->|]; [discriminate H|reflexivity].
Qed.

Lemma feed_openName (k : string) :
  forall (n : string) (st : list frame) (res : option jsval) (rest : string),
    allNameBody k = true ->
    feed (mkParser (MOpenTag n) st res) (k +++ rest) =
    feed (mkParser (MOpenTag (n +++ k)) st res) rest.
Proof.
  induction k as [|c k IH]; intros n st res rest Hk.
  - simpl. rewrite append_nil_r. reflexivity.
  - simpl in Hk. apply andb_prop in Hk. destruct Hk as [Hc Hk].
    cbn [append feed step pmode]. rewrite Hc.
    unfold withMode, snoc. cbn [pstack presult].
    rewrite IH by exact Hk. rewrite append_assoc. reflexivity.
Qed.

Lemma feed_closeName (k : string) :
  forall (a : ascii) (n : string) (st : list frame) (res : option jsval) (rest : string),
    allNameBody k = true ->
    feed (mkParser (MCloseTag (String a n)) st res) (k +++ rest) =
    feed (mkParser (MCloseTag (String a n +++ k)) st res) rest.
Proof.
  induction k as [|c k IH]; intros a n st res rest Hk.
  - simpl. rewrite append_nil_r. reflexivity.
  - simpl in Hk. apply andb_prop in Hk. destruct Hk as [Hc Hk].
    cbn [append feed step pmode]. rewrite (nameBody_not_gt c Hc), Hc.
    unfold withMode, snoc. cbn [pstack presult append].
    rewrite IH by exact Hk. cbn [append]. rewrite append_assoc. reflexivity.
Qed.

(** A start tag read in character data pushes a frame. *)
Lemma feed_startTag (k : string) (st : list frame) (res : option jsval) (rest : string) :
  validKey k = true ->
  (st = [] -> res = None) ->
  feed (mkParser MText st res) (String "<" (k +++ String ">" rest)) =
  feed (mkParser MText (mkFrame k "" [] :: st) res) rest.
Proof.
  intros Hk Hroot. destruct k as [|c k]; [discriminate|].
  cbn [validKey] in Hk. apply andb_prop in Hk. destruct Hk as [Hk _].
  apply andb_prop in Hk. destruct Hk as [Hc Hk].
  destruct (nameStart_not_markup c Hc) as [Hq Hs].
  cbn [append feed step pmode Ascii.eqb Bool.eqb].
  cbn [withMode pstack presult pmode step]. rewrite Hq, Hs, Hc.
  unfold withMode. cbn [pstack presult].
  rewrite feed_openName by exact Hk.
  cbn [append feed step pmode].
  change (isNameBody ">") with false.
  change (">" =? ">")%char with true. cbv iota.
  unfold openTag. cbn [pstack presult].
  destruct st as [|f st]; [rewrite (Hroot eq_refl)|]; reflexivity.
Qed.

(** An end tag closes the frame on top of an enclosing one and records the
    value under the element's name. *)
Lemma feed_endTag (k t : string) (ks : list (string * jsval)) (parent : frame)
  (st : list frame) (res : option jsval) (rest : string) :
  validKey k = true ->
  feed (mkParser MText (mkFrame k t ks :: parent :: st) res)
    (String "<" (String "/" (k +++ String ">" rest))) =
  feed (mkParser MText
          (mkFrame (fname parent) (ftext parent)
             (addChild k (closeValue (mkFrame k t ks)) (fkids parent)) :: st) res) rest.
Proof.
  intros Hk. destruct k as [|c k]; [discriminate|].
  cbn [validKey] in Hk. apply andb_prop in Hk. destruct Hk as [Hk _].
  apply andb_prop in Hk. destruct Hk as [Hc Hk].
  cbn [append feed step pmode Ascii.eqb Bool.eqb].
  cbn [withMode pstack presult pmode step].
  change ("/" =? "?")%char with false. change ("/" =? "/")%char with true. cbv iota.
  cbn [withMode pstack presult pmode step feed]. rewrite Hc.
  unfold withMode. cbn [pstack presult].
  rewrite feed_closeName by exact Hk.
  cbn [append feed step pmode].
  change (">" =? ">")%char with true. cbv iota.
  unfold closeTag. cbn [pstack presult fname]. rewrite String.eqb_refl.
  reflexivity.
Qed.

(** The end tag of the root element completes the document. *)
Lemma feed_rootEnd (k t : string) (ks : list (string * jsval)) (res : option jsval)
  (rest : string) :
  validKey k = true ->
  feed (mkParser MText [mkFrame k t ks] res)
    (String "<" (String "/" (k +++ String ">" rest))) =
  feed (mkParser MText [] (Some (JObj [(k, closeValue (mkFrame k t ks))]))) rest.
Proof.
  intros Hk. destruct k as [|c k]; [discriminate|].
  cbn [validKey] in Hk. apply andb_prop in Hk. destruct Hk as [Hk _].
  apply andb_prop in Hk. destruct Hk as [Hc Hk].
  cbn [append feed step pmode Ascii.eqb Bool.eqb].
  cbn [withMode pstack presult pmode step].
  change ("/" =? "?")%char with false. change ("/" =? "/")%char with true. cbv iota.
  cbn [withMode pstack presult pmode step feed]. rewrite Hc.
  unfold withMode. cbn [pstack presult].
  rewrite feed_closeName by exact Hk.
  cbn [append feed step pmode].
  change (">" =? ">")%char with true. cbv iota.
  unfold closeTag. cbn [pstack presult fname]. rewrite String.eqb_refl.
  reflexivity.
Qed.

(** An empty-element tag opens and closes at once. *)
Lemma feed_emptyTag (k : string) (parent : frame) (st : list frame)
  (res : option jsval) (rest : string) :
  validKey k = true ->
  feed (mkParser MText (parent :: st) res)
    (String "<" (k +++ String "/" (String ">" rest))) =
  feed (mkParser MText
          (mkFrame (fname parent) (ftext parent)
             (addChild k (JStr "") (fkids parent)) :: st) res) rest.
Proof.
  intros Hk. destruct k as [|c k]; [discriminate|].
  cbn [validKey] in Hk. apply andb_prop in Hk. destruct Hk as [Hk _].
  apply andb_prop in Hk. destruct Hk as [Hc Hk].
  destruct (nameStart_not_markup c Hc) as [Hq Hs].
  cbn [append feed step pmode Ascii.eqb Bool.eqb].
  cbn [withMode pstack presult pmode step]. rewrite Hq, Hs, Hc.
  unfold withMode. cbn [pstack presult].
  rewrite feed_openName by exact Hk.
  cbn [append feed step pmode].
  change (isNameBody "/") with false.
  change ("/" =? ">")%char with false. change ("/" =? "/")%char with true. cbv iota.
  unfold withMode. cbn [pstack presult pmode step feed].
  change (">" =? ">")%char with true. cbv iota.
  unfold openTag, closeTag. cbn [pstack presult fname]. rewrite String.eqb_refl.
  reflexivity.
Qed.

Ltac normalize_text := repeat (rewrite append_assoc || (progress (cbn [append]))).

Lemma feed_space (c : ascii) (n t : string) (ks : list (string * jsval))
  (st : list frame) (res : option jsval) (rest : string) :
  (c =? "<")%char = false ->
  (c =? "&")%char = false ->
  feed (mkParser MText (mkFrame n t ks :: st) res) (String c rest) =
  feed (mkParser MText (mkFrame n (t +++ String c "") ks :: st) res) rest.
Proof.
  intros H1 H2. cbn [feed step pmode]. rewrite H1, H2. reflexivity.
Qed.

Lemma feed_fieldLine (k v : string) (root t : string) (ks : list (string * jsval))
  (res : option jsval) (rest : string) :
  validKey k = true ->
  feed (mkParser MText [mkFrame root t ks] res) (fieldLine k v +++ rest) =
  feed (mkParser MText [mkFrame root (t +++ "  " +++ LF) (addChild k (JStr v) ks)] res) rest.
Proof.
  intros Hk. unfold fieldLine, LF, chr. cbn [writeNode indentation forallb isEmptyText].
  rewrite andb_true_r.
  destruct (String.eqb_spec v "") as [->|Hv]; normalize_text.
  - rewrite !feed_space by reflexivity.
    rewrite (feed_emptyTag k _ _ _ _ Hk). cbn [fname ftext fkids].
    rewrite feed_space by reflexivity.
    normalize_text. reflexivity.
  - rewrite !feed_space by reflexivity.
    rewrite (feed_startTag k) by (exact Hk || discriminate).
    rewrite feed_text.
    rewrite (feed_endTag k) by exact Hk. cbn [fname ftext fkids closeValue append].
    rewrite feed_space by reflexivity.
    normalize_text. reflexivity.
Qed.

Lemma addChild_fresh (k : string) (v : jsval) (ks : list (string * jsval)) :
  ~ In k (map fst ks) -> addChild k v ks = ks ++ [(k, v)].
Proof.
  induction ks as [|[k' old] ks IH]; intros Hk; simpl; [reflexivity|].
  destruct (String.eqb_spec k' k) as [->|Hne].
  - exfalso. apply Hk. left. reflexivity.
  - rewrite IH; [reflexivity|]. intros Hin. apply Hk. right. exact Hin.
Qed.

Lemma feed_fieldLines (fields : list (string * string)) :
  forall (root t : string) (ks : list (string * jsval)) (res : option jsval)
         (rest : string),
    forallb validKey (map fst fields) = true ->
    NoDup (map fst ks ++ map fst fields) ->
    isBlank t = true ->
    exists t',
      isBlank t' = true /\
      feed (mkParser MText [mkFrame root t ks] res) (fieldLines fields +++ rest) =
      feed (mkParser MText [mkFrame root t' (ks ++ asValues fields)] res) rest.
Proof.
  induction fields as [|[k v] fields IH]; intros root t ks res rest Hv Hnd Ht.
  - exists t. split; [exact Ht|]. simpl. rewrite app_nil_r. reflexivity.
  - simpl in Hv. apply andb_prop in Hv. destruct Hv as [Hk Hv].
    cbn [fieldLines]. rewrite append_assoc, feed_fieldLine by exact Hk.
    assert (Hfresh : ~ In k (map fst ks)).
    { simpl in Hnd. apply NoDup_remove_2 in Hnd. intros Hin. apply Hnd.
      apply in_or_app. left. exact Hin. }
    rewrite addChild_fresh by exact Hfresh.
    destruct (IH root (t +++ "  " +++ LF) (ks ++ [(k, JStr v)]) res rest Hv) as [t' [Hb Hf]].
    + rewrite map_app, <- app_assoc. exact Hnd.
    + rewrite isBlank_app, Ht. reflexivity.
    + exists t'. split; [exact Hb|]. rewrite Hf.
      cbn [asValues map fst snd]. rewrite <- app_assoc. reflexivity.
Qed.

Lemma render_flat (fields : list (string * string)) :
  forallb validKey (map fst fields) = true ->
  render (flatObject fields) = map (fun kv => XElem (fst kv) [XText (snd kv)]) fields.
Proof.
  unfold flatObject. cbn [render].
  induction fields as [|[k v] fields IH]; intros Hv; [reflexivity|].
  simpl in Hv. apply andb_prop in Hv. destruct Hv as [Hk Hv].
  cbn [map flat_map fst snd app]. rewrite IH by exact Hv.
  assert (Hu : (k =? "_") = false).
  { destruct k as [|c k]; [discriminate|]. cbn [validKey] in Hk.
    apply andb_prop in Hk. destruct Hk as [_ Hk].
    apply negb_true_iff in Hk. exact Hk. }
  rewrite Hu. reflexivity.
Qed.

Lemma concat_fieldLines (fields : list (string * string)) :
  concatStr (map (fun n => writeNode 1 n +++ LF)
               (map (fun kv => XElem (fst kv) [XText (snd kv)]) fields)) =
  fieldLines fields.
Proof.
  induction fields as [|[k v] fields IH]; [reflexivity|].
  cbn [map concatStr fieldLines fst snd]. rewrite IH. reflexivity.
Qed.

(** The text of a flat object with at least one field. *)
Lemma buildObject_flat (root : string) (fields : list (string * string)) :
  fields <> [] ->
  forallb validKey (map fst fields) = true ->
  buildObject (JObj [(root, flatObject fields)]) =
  xmldec +++ LF +++ "<" +++ root +++ ">" +++ LF +++
  fieldLines fields +++ "</" +++ root +++ ">".
Proof.
  intros Hne Hv. unfold buildObject. rewrite render_flat by exact Hv.
  destruct fields as [|[k v] fields]; [contradiction|].
  cbn [writeNode map forallb isEmptyText andb indentation fst snd].
  rewrite <- (concat_fieldLines ((k, v) :: fields)).
  cbn [map fst snd append]. reflexivity.
Qed.

Lemma feed_declaration (rest : string) :
  feed (mkParser MBegin [] None) (xmldec +++ LF +++ rest) =
  feed (mkParser MText [] None) rest.
Proof. reflexivity. Qed.

Lemma trim_head (c : ascii) (r : string) :
  isWhiteSpace c = false -> (trim (String c r) =? "") = false.
Proof.
  intros H. unfold trim. cbn [trimStart]. rewrite H. cbn [trimEnd]. rewrite H.
  destruct (trimEnd r); reflexivity.
Qed.

(** Decoding the text of a flat object gives the object back. *)
Lemma roundtrip_flat (root : string) (fields : list (string * string)) :
  validKey root = true ->
  fields <> [] ->
  forallb validKey (map fst fields) = true ->
  NoDup (map fst fields) ->
  parseString (buildObject (JObj [(root, flatObject fields)])) =
  Ok (JObj [(root, flatObject fields)]).
Proof.
  intros Hroot Hne Hv Hnd.
  rewrite buildObject_flat by assumption.
  unfold parseString.
  assert (Htrim : (trim (xmldec +++ LF +++ "<" +++ root +++ ">" +++ LF +++
                         fieldLines fields +++ "</" +++ root +++ ">") =? "") = false).
  { apply trim_head. reflexivity. }
  rewrite Htrim.
  rewrite feed_declaration.
  unfold LF, chr. normalize_text.
  rewrite feed_startTag by (exact Hroot || reflexivity).
  rewrite feed_space by reflexivity.
  destruct (feed_fieldLines fields root ("" +++ String (ascii_of_nat 10) "") [] None
              (String "<" (String "/" (root +++ String ">" "")))) as [t' [Hb Hf]];
    [exact Hv|exact Hnd|reflexivity|].
  rewrite Hf. rewrite feed_rootEnd by exact Hroot.
  cbn [feed finish pmode pstack presult app].
  unfold flatObject. fold (asValues fields).
  destruct fields as [|kv fields]; [contradiction|].
  cbn [asValues map]. unfold closeValue. cbn [fkids ftext]. rewrite Hb. reflexivity.
Qed.

End Codec.

(** C4.  For every message whose fields are strings, with or without the
    two optional fields, decoding the encoded message gives the message
    back.  The encoder of the codec is a function (total and deterministic)
    and returns for every such message; its text is one line per present
    field, and an absent optional field has no element in it, so that it
    decodes to [undefined] and not to the empty string. *)
Theorem C4_codec_round_trip :
  forall (ids dates : nat -> string) (m : Message),
    RmiMiddleware.xmlToMessage (rt := xmlRuntime ids dates)
      (encoded (rt := xmlRuntime ids dates) (toObject m)) =
    Ok (toObject m) /\
    RmiMiddleware.messageToXml (rt := xmlRuntime ids dates) (toObject m) =
      Ok (Xml2js.xmldec +++ LF +++ "<message>" +++ LF +++
          fieldLines (messageFields m) +++ "</message>") /\
    (m_targetUserId m = None -> get (toObject m) "targetUserId" = JUndef) /\
    (m_targetUsername m = None -> get (toObject m) "targetUsername" = JUndef) /\
    (m_targetUserId m = None -> m_targetUsername m = None ->
     map fst (messageFields m) = ["userId"; "username"; "content"; "timestamp"; "type"]).
Proof.
  intros ids dates m.
  assert (Hne : messageFields m <> []) by discriminate.
  assert (Hv : forallb validKey (map fst (messageFields m)) = true).
  { unfold messageFields.
    destruct (m_targetUserId m), (m_targetUsername m); reflexivity. }
  assert (Hnd : NoDup (map fst (messageFields m))).
  { unfold messageFields.
    destruct (m_targetUserId m), (m_targetUsername m); cbn [map fst app optionalField];
      repeat constructor; simpl; intuition discriminate. }
  split; [|split; [|split; [|split]]].
  - unfold RmiMiddleware.xmlToMessage, encoded, RmiMiddleware.messageToXml.
    cbn [parseStringPromise buildObject xmlRuntime]. unfold toObject.
    rewrite roundtrip_flat by (assumption || reflexivity).
    reflexivity.
  - unfold RmiMiddleware.messageToXml. cbn [buildObject xmlRuntime]. unfold toObject.
    f_equal. apply buildObject_flat; assumption.
  - intros H. unfold toObject, messageFields. rewrite H.
    destruct (m_targetUsername m); reflexivity.
  - intros H. unfold toObject, messageFields. rewrite H.
    destruct (m_targetUserId m); reflexivity.
  - intros H1 H2. unfold messageFields. rewrite H1, H2. reflexivity.
Qed.


(* ================================================================== *)
(** ** Registration                                                    *)
(* ================================================================== *)

Section Registration.

Context {rt : Runtime}.

Import SocketHandler.

Lemma trim_nonempty (n : string) : trim n <> "" -> n <> "".
Proof. intros H ->. apply H. reflexivity. Qed.

Lemma registerUser_conflict (n : string) (s : State) :
  trim n <> "" ->
  nameClash s n = true ->
  registerUser (JStr n) s = (Throw (Error RmiMiddleware.nameInUseText), s).
Proof.
  intros Ht Hc. unfold registerUser, RmiMiddleware.registerUser.
  unfold bind at 1.
  destruct (String.eqb_spec n "") as [->|Hn]; [exfalso; apply Ht; reflexivity|].
  destruct (String.eqb_spec (trim n) ""); [contradiction|]. cbn [orb].
  unfold ret at 1. unfold bind at 1. unfold gets at 1.
  unfold nameClash in Hc. rewrite Hc. reflexivity.
Qed.

(** A registration that passes the checks: a new id from the generator,
    the user stored under it and the JOIN message saved, and then the
    listener is called. *)
Lemma registerUser_fresh (n : string) (s : State) :
  trim n <> "" ->
  nameClash s n = false ->
  registerUser (JStr n) s =
  emit (joinMessageOf n (S (dateCalls s)))
    (RmiMiddleware.mkResponse true "Registro exitoso" (uuidv4 (uuidCalls s)))
    (registered n s).
Proof.
  intros Ht Hc. unfold registerUser, RmiMiddleware.registerUser.
  unfold bind at 1.
  destruct (String.eqb_spec n "") as [->|Hn]; [exfalso; apply Ht; reflexivity|].
  destruct (String.eqb_spec (trim n) ""); [contradiction|]. cbn [orb].
  unfold ret at 1. unfold bind at 1. unfold gets at 1.
  unfold nameClash in Hc. rewrite Hc.
  unfold bind at 1. unfold newUuid at 1.
  unfold bind at 1. unfold newDate at 1.
  unfold bind at 1. unfold modify at 1.
  unfold bind at 1. unfold RmiMiddleware.createSystemMessage.
  unfold bind at 1. unfold newDate at 1. unfold ret at 1.
  unfold bind at 1. rewrite saveMessage_run.
  rewrite notify_then by reflexivity.
  reflexivity.
Qed.

(** Whatever the builder does with the JOIN message, the user is stored. *)
Lemma registerUser_stores (n : string) (s : State) :
  trim n <> "" ->
  nameClash s n = false ->
  users (exec (registerUser (JStr n)) s) =
    mapSet (uuidv4 (uuidCalls s))
      (mkUser (uuidv4 (uuidCalls s)) n (isoDate (dateCalls s))) (users s) /\
  messageHistory (exec (registerUser (JStr n)) s) =
    pushCapped (messageHistory s) (joinMessageOf n (S (dateCalls s))) /\
  activeConnections (exec (registerUser (JStr n)) s) = activeConnections s /\
  uuidCalls (exec (registerUser (JStr n)) s) = S (uuidCalls s).
Proof.
  intros Ht Hc. unfold exec. rewrite (registerUser_fresh n s Ht Hc).
  match goal with |- context [emit ?m ?a ?s0] =>
    destruct (emit_store m a s0) as [Hu [Hh [Hb [_ [Hi _]]]]] end.
  rewrite Hu, Hh, Hb, Hi. repeat split; reflexivity.
Qed.

Lemma mapSet_values_In {A : Type} (k : string) (a : A) (m : list (string * A)) :
  In a (mapValues (mapSet k a m)).
Proof.
  induction m as [|[k' b] m IH]; simpl.
  - left. reflexivity.
  - destruct (k' =? k); simpl; [left; reflexivity|right; exact IH].
Qed.

(** After a registration every case variant of the name is refused. *)
Lemma registerUser_case_variant_refused (n n' : string) (s : State) :
  trim n <> "" ->
  trim n' <> "" ->
  nameClash s n = false ->
  toLowerCase n' = toLowerCase n ->
  result (registerUser (JStr n')) (exec (registerUser (JStr n)) s) =
  Throw (Error RmiMiddleware.nameInUseText).
Proof.
  intros Ht Ht' Hc Hl. unfold result.
  rewrite registerUser_conflict; [reflexivity|exact Ht'|].
  unfold nameClash. destruct (registerUser_stores n s Ht Hc) as [-> _].
  apply existsb_exists.
  exists (mkUser (uuidv4 (uuidCalls s)) n (isoDate (dateCalls s))).
  split; [apply mapSet_values_In|]. cbn [username]. rewrite Hl. apply String.eqb_refl.
Qed.

(** A first join: [registerUser], and when it has returned, [welcome]
    under the new id. *)
Lemma handleJoin_first (ws : WebSocket) (message : jsval) (n : string) (s : State) :
  truthy (get message "userId") && negb (isStr (get message "userId") "system") = false ->
  get message "username" = JStr n ->
  trim n <> "" ->
  nameClash s n = false ->
  handleJoin ws message s =
  match registerUser (JStr n) s with
  | (Ok _, s1) =>
      bind (welcome ws (uuidv4 (uuidCalls s)))
        (fun _ => ret (assign message "userId" (JStr (uuidv4 (uuidCalls s))))) s1
  | (Throw e, s1) => (Throw e, s1)
  end.
Proof.
  intros Hid Hn Ht Hc. unfold handleJoin. rewrite Hid, Hn.
  unfold bind at 1. unfold bind at 1. unfold RmiMiddleware.getUsers, gets at 1.
  unfold bind at 1. unfold liftO at 1.
  assert (Hex : usernameExists (mapValues (users s)) (JStr n) = Ok false).
  { unfold usernameExists. unfold nameClash in Hc.
    destruct (mapValues (users s)); [reflexivity|]. rewrite Hc. reflexivity. }
  rewrite Hex.
  unfold bind at 1. rewrite (registerUser_fresh n s Ht Hc). unfold emit.
  destruct (RmiMiddleware.messageToXml (joinMessageOf n (S (dateCalls s))));
    reflexivity.
Qed.

(** [registerUser] followed by [welcome] when the builder accepts every
    message of the join. *)
Lemma join_run (ws : WebSocket) (n : string) (s : State) :
  trim n <> "" ->
  nameClash s n = false ->
  Forall encodes (joinMessages n s) ->
  registerUser (JStr n) s =
    (Ok (RmiMiddleware.mkResponse true "Registro exitoso" (uuidv4 (uuidCalls s))),
     setSent (sent s ++ frames (encoded (joinMessageOf n (S (dateCalls s)))) (openHandles s))
       (registered n s)) /\
  welcome ws (uuidv4 (uuidCalls s))
    (setSent (sent s ++ frames (encoded (joinMessageOf n (S (dateCalls s)))) (openHandles s))
       (registered n s)) =
    (Ok tt, joinedState ws n s).
Proof.
  intros Ht Hc Hall. unfold joinMessages in Hall. cbn zeta in Hall.
  inversion Hall as [|x l Hj Hrest]; subst.
  split.
  - rewrite (registerUser_fresh n s Ht Hc), (emit_ok _ _ _ Hj). reflexivity.
  - rewrite welcome_ok.
    + unfold joinedState, joinFrames, reconnectFrames, registered, openHandles.
      cbn [setSent users messageHistory activeConnections openSockets sent uuidCalls
           dateCalls].
      rewrite <- !app_assoc. reflexivity.
    + exact Hrest.
Qed.

(** A first join when the builder accepts every message of it: the user is
    registered and bound, and the roster that is pushed already contains
    the new user. *)
Lemma handleJoin_fresh (ws : WebSocket) (message : jsval) (n : string) (s : State) :
  truthy (get message "userId") && negb (isStr (get message "userId") "system") = false ->
  get message "username" = JStr n ->
  trim n <> "" ->
  nameClash s n = false ->
  Forall encodes (joinMessages n s) ->
  handleJoin ws message s =
  (Ok (assign message "userId" (JStr (uuidv4 (uuidCalls s)))), joinedState ws n s).
Proof.
  intros Hid Hn Ht Hc Hall.
  rewrite (handleJoin_first ws message n s Hid Hn Ht Hc).
  destruct (join_run ws n s Ht Hc Hall) as [Hr Hw].
  rewrite Hr. unfold bind at 1. rewrite Hw. reflexivity.
Qed.

Lemma registerUser_conflict_iff (n : string) (s : State) :
  trim n <> "" ->
  registerUser (JStr n) s = (Throw (Error RmiMiddleware.nameInUseText), s) <->
  nameClash s n = true.
Proof.
  intros Ht. split.
  - intros H. destruct (nameClash s n) eqn:Hc; [reflexivity|].
    destruct (registerUser_stores n s Ht Hc) as [_ [_ [_ Hi]]].
    unfold exec in Hi. rewrite H in Hi. cbn [snd] in Hi. lia.
  - intros Hc. apply (registerUser_conflict n s Ht Hc).
Qed.

Lemma mapSet_fresh {A : Type} (k : string) (a : A) (m : list (string * A)) :
  ~ In k (map fst m) -> mapSet k a m = m ++ [(k, a)].
Proof.
  induction m as [|[k' b] m IH]; intros Hk; simpl; [reflexivity|].
  destruct (String.eqb_spec k' k) as [->|Hne].
  - exfalso. apply Hk. left. reflexivity.
  - rewrite IH; [reflexivity|]. intros Hin. apply Hk. right. exact Hin.
Qed.

(** With a generator that never repeats an id, the id of a registration is
    new to the registry, and the user is added at the end of the map. *)
Lemma registerUser_new_id (n : string) (s : State) :
  (forall i j, uuidv4 i = uuidv4 j -> i = j) ->
  idsIssued s ->
  trim n <> "" ->
  nameClash s n = false ->
  ~ In (uuidv4 (uuidCalls s)) (map fst (users s)) /\
  users (exec (registerUser (JStr n)) s) =
    users s ++ [(uuidv4 (uuidCalls s),
                 mkUser (uuidv4 (uuidCalls s)) n (isoDate (dateCalls s)))] /\
  idsIssued (exec (registerUser (JStr n)) s).
Proof.
  intros Hinj Hiss Ht Hc.
  assert (Hnew : ~ In (uuidv4 (uuidCalls s)) (map fst (users s))).
  { intros Hin. destruct (Hiss _ Hin) as [i [Hi He]].
    apply Hinj in He. lia. }
  destruct (registerUser_stores n s Ht Hc) as [Hu [_ [_ Hi]]].
  rewrite (mapSet_fresh _ _ _ Hnew) in Hu.
  split; [exact Hnew|]. split; [exact Hu|].
  intros k Hk. rewrite Hu in Hk. rewrite Hi.
  rewrite map_app in Hk. apply in_app_or in Hk. destruct Hk as [Hk|[Hk|[]]].
  - destruct (Hiss k Hk) as [i [Hi' He]]. exists i. split; [lia|exact He].
  - exists (uuidCalls s). split; [lia|]. symmetry. exact Hk.
Qed.

End Registration.

(** The name check of [models/user.js] does trim the candidate. *)
Lemma isUsernameTaken_trims (us : list (string * UserModel.User)) (n : string) :
  UserModel.isUsernameTaken us n =
  existsb (fun user => toLowerCase (UserModel.username user) =? toLowerCase (trim n))
    (mapValues us).
Proof. reflexivity. Qed.

Lemma trimStart_head (s : string) :
  match trimStart s with
  | EmptyString => True
  | String c _ => isWhiteSpace c = false
  end.
Proof.
  induction s as [|c r IH]; simpl; [exact I|].
  destruct (isWhiteSpace c) eqn:Hc; [exact IH|exact Hc].
Qed.

Lemma trimEnd_idempotent (s : string) : trimEnd (trimEnd s) = trimEnd s.
Proof.
  induction s as [|c r IH]; simpl; [reflexivity|].
  destruct (trimEnd r) as [|d r'] eqn:Hr.
  - destruct (isWhiteSpace c) eqn:Hc; simpl; [reflexivity|].
    rewrite Hc. reflexivity.
  - simpl. simpl in IH. destruct (trimEnd r') as [|d' r''] eqn:Hr'.
    + destruct (isWhiteSpace d); [discriminate IH|]. rewrite IH. reflexivity.
    + rewrite IH. reflexivity.
Qed.

Lemma trimEnd_keeps_head (c : ascii) (r : string) :
  isWhiteSpace c = false -> exists r', trimEnd (String c r) = String c r'.
Proof.
  intros Hc. simpl. destruct (trimEnd r) as [|d r'].
  - rewrite Hc. exists EmptyString. reflexivity.
  - exists (String d r'). reflexivity.
Qed.

Lemma trim_idempotent (s : string) : trim (trim s) = trim s.
Proof.
  unfold trim. pose proof (trimStart_head s) as Hh.
  destruct (trimStart s) as [|c r]; [reflexivity|].
  destruct (trimEnd_keeps_head c r Hh) as [r' Hr]. rewrite Hr.
  cbn [trimStart]. rewrite Hh. rewrite <- Hr. apply trimEnd_idempotent.
Qed.

(** [createUser] of [models/user.js] refuses a name exactly when a stored
    user has the same name after trimming and case folding (the names it
    stores are trimmed). *)
Lemma createUser_conflict_iff (us : list (string * UserModel.User)) (uname : string)
  (uid : option string) (fresh t1 t2 : string) :
  trim uname <> "" ->
  (forall u, In u (mapValues us) -> trim (UserModel.username u) = UserModel.username u) ->
  (UserModel.createUser us uname uid fresh t1 t2 = Throw (Error UserModel.takenText) <->
   exists u, In u (mapValues us) /\ sameName (UserModel.username u) uname = true).
Proof.
  intros Ht Hstored. unfold UserModel.createUser.
  destruct (String.eqb_spec (trim uname) ""); [contradiction|].
  assert (Hiff : UserModel.isUsernameTaken us (trim uname) = true <->
                 exists u, In u (mapValues us) /\
                           sameName (UserModel.username u) uname = true).
  { unfold UserModel.isUsernameTaken. rewrite existsb_exists, trim_idempotent.
    split; intros [u [Hin Hu]]; exists u; split; try exact Hin;
      unfold sameName in *; rewrite (Hstored u Hin) in *; exact Hu. }
  destruct (UserModel.isUsernameTaken us (trim uname)) eqn:Htaken.
  - split; [intros _; apply Hiff; reflexivity|intros _; reflexivity].
  - split; [discriminate|].
    intros H. apply Hiff in H. discriminate H.
Qed.

(** C1, at the failing input.  With "Bob" registered, [registerUser] accepts
    "Bob " (a trailing space): the two names are the same name after
    trimming and case folding, the name check of [models/user.js] reports
    the second one as taken, and [registerUser] still returns a new id and
    stores a second user. *)
Theorem C1_registerUser_accepts_padded_name :
  result (SocketHandler.registerUser (rt := demoRuntime) (JStr "Bob")) (initialState []) =
    Ok (RmiMiddleware.mkResponse true "Registro exitoso" "id-00") /\
  sameName "Bob" "Bob " = true /\
  UserModel.isUsernameTaken
    [("id-00", UserModel.mkUser "id-00" "Bob" true "" "")] "Bob " = true /\
  result (SocketHandler.registerUser (rt := demoRuntime) (JStr "Bob ")) bobRegistered =
    Ok (RmiMiddleware.mkResponse true "Registro exitoso" "id-01") /\
  map username
    (mapValues (users (exec (SocketHandler.registerUser (rt := demoRuntime) (JStr "Bob "))
                         bobRegistered))) = ["Bob"; "Bob "] /\
  result (SocketHandler.registerUser (rt := demoRuntime) (JStr "BOB")) bobRegistered =
    Throw (Error RmiMiddleware.nameInUseText).
Proof. vm_compute. repeat split; reflexivity. Qed.

(** C5, at the failing input.  Alice (handle 1) and Bob (handle 2) are
    registered and bound.  When Alice logs out, or when her transport
    closes, she is removed from the registry, and the only frames written
    are the LEAVE message: no USER_LIST message is sent.  Likewise a call
    of [registerUser] alone, as the HTTP route makes it, adds Carol and
    writes only the JOIN message. *)
Theorem C5_removal_pushes_no_roster :
  map username (mapValues (users twoUsers)) = ["Alice"; "Bob"] /\
  activeConnections twoUsers = [("id-00", 1); ("id-01", 2)] /\
  map username (mapValues (users afterLogout)) = ["Bob"] /\
  kinds (newFrames twoUsers afterLogout) = [(1, Some "LEAVE"); (2, Some "LEAVE")] /\
  map username (mapValues (users afterClose)) = ["Bob"] /\
  kinds (newFrames twoUsers afterClose) = [(2, Some "LEAVE")] /\
  map username (mapValues (users carolRegistered)) = ["Alice"; "Bob"; "Carol"] /\
  kinds (newFrames twoUsers carolRegistered) = [(1, Some "JOIN"); (2, Some "JOIN")].
Proof. vm_compute. repeat split; reflexivity. Qed.

(** The reply to a frame that does not decode, when it can be encoded.
    The text ["<message>"] does not decode, and the one frame written in
    reply is of kind CHAT: no frame of kind ERROR is written. *)
Lemma C6_reply_is_not_of_kind_ERROR :
  RmiMiddleware.xmlToMessage (rt := demoRuntime) "<message>" =
    Throw (Error (RmiMiddleware.invalidXmlText +++ "Unclosed root tag")) /\
  result (SocketHandler.onMessage (rt := demoRuntime) 1 JNull "<message>")
    (initialState [1]) = Ok JNull /\
  sent (exec (SocketHandler.onMessage (rt := demoRuntime) 1 JNull "<message>")
          (initialState [1])) =
    [(1, encoded (rt := demoRuntime)
           (errorReply (rt := demoRuntime)
              (Error (RmiMiddleware.invalidXmlText +++ "Unclosed root tag")) 0))] /\
  kinds (sent (exec (SocketHandler.onMessage (rt := demoRuntime) 1 JNull "<message>")
                 (initialState [1]))) = [(1, Some "CHAT")] /\
  ~ In (1, Some "ERROR")
       (kinds (sent (exec (SocketHandler.onMessage (rt := demoRuntime) 1 JNull "<message>")
                       (initialState [1])))).
Proof.
  split; [vm_compute; reflexivity|].
  split; [vm_compute; reflexivity|].
  split; [vm_compute; reflexivity|].
  split; [vm_compute; reflexivity|].
  vm_compute. intros [H|[]]. discriminate H.
Qed.


(* ================================================================== *)
(** ** The statements at concrete inputs                               *)
(* ================================================================== *)

(** C2 at a concrete input: 103 messages appended on a fresh server. *)
Lemma C2_history_bound_witness :
  length (messageHistory (initialState [])) <= RmiMiddleware.MAX_HISTORY /\
  100 < length (map numbered (seq 0 103)) /\
  RmiMiddleware.getMessageHistory (Some 1000%Z)
    (exec (forEach (map numbered (seq 0 103)) RmiMiddleware.saveMessage) (initialState [])) =
  (Ok (skipn (length (map numbered (seq 0 103)) - 100) (map numbered (seq 0 103))),
   exec (forEach (map numbered (seq 0 103)) RmiMiddleware.saveMessage) (initialState [])).
Proof.
  assert (H1 : length (messageHistory (initialState [])) <= RmiMiddleware.MAX_HISTORY)
    by (vm_compute; lia).
  assert (H2 : 100 < length (map numbered (seq 0 103))) by (vm_compute; lia).
  split; [exact H1|]. split; [exact H2|].
  exact (proj1 (proj2 (proj2 (proj2
           (C2_history_bound (initialState []) (map numbered (seq 0 103)) H1)))) H2).
Defined.

(** C3 at a concrete input, on a server whose builder checks its texts.
    The history holds the JOIN message of a name with the character
    U+0001, stored by [POST /api/users/register], and after it the JOIN
    message of Alice.  The replay for Alice stops at the first message:
    nothing is written, and the JOIN message of Alice, which is visible to
    her, is not delivered. *)
Lemma C3_replay_stops_at_refused_message_witness :
  replayed "id-01" (lastN 20 (messageHistory poisoned)) =
    [] ++ joinMessageOf (rt := strictRuntime) oddName 1 ::
          [joinMessageOf (rt := strictRuntime) "Alice" 3] /\
  RmiMiddleware.messageToXml (rt := strictRuntime)
    (joinMessageOf (rt := strictRuntime) oddName 1) =
    Throw (Error ("Invalid character in string: " +++ oddName +++
                  " se ha unido al chat at index 1")) /\
  result (SocketHandler.replayHistory (rt := strictRuntime) 1 "id-01") poisoned =
    Throw (Error ("Invalid character in string: " +++ oddName +++
                  " se ha unido al chat at index 1")) /\
  sent (exec (SocketHandler.replayHistory (rt := strictRuntime) 1 "id-01") poisoned) =
    sent poisoned.
Proof.
  assert (H1 : replayed "id-01" (lastN 20 (messageHistory poisoned)) =
               [] ++ joinMessageOf (rt := strictRuntime) oddName 1 ::
                     [joinMessageOf (rt := strictRuntime) "Alice" 3])
    by (vm_compute; reflexivity).
  assert (H3 : RmiMiddleware.messageToXml (rt := strictRuntime)
                 (joinMessageOf (rt := strictRuntime) oddName 1) =
               Throw (Error ("Invalid character in string: " +++ oddName +++
                             " se ha unido al chat at index 1")))
    by (vm_compute; reflexivity).
  pose proof (C3_replay_stops_at_refused_message (rt := strictRuntime) 1 "id-01" poisoned
                [] [joinMessageOf (rt := strictRuntime) "Alice" 3]
                (joinMessageOf (rt := strictRuntime) oddName 1) _
                H1 (Forall_nil _) H3) as H.
  split; [exact H1|]. split; [exact H3|].
  split; [exact (proj1 H)|].
  rewrite (proj1 (proj2 H)). apply app_nil_r.
Defined.

(** C6 at a concrete input, on a server whose builder checks its texts:
    the frame that consists of the one character U+0001.  The parser
    stops at that character and quotes it, the builder refuses the reply
    that quotes it in turn, and the handler throws without having written
    anything. *)
Lemma C6_decode_failure_escapes_witness :
  decodeFailure (rt := strictRuntime) (chr 1) =
    Some (Error (RmiMiddleware.invalidXmlText +++
                 Sax.located "Non-whitespace before first tag." 0 1 (chr 1))) /\
  result (SocketHandler.onMessage (rt := strictRuntime) 1 (JStr "id-00") (chr 1)) twoUsers =
    Throw (Error ("Invalid character in string: Error: " +++
                  RmiMiddleware.invalidXmlText +++
                  Sax.located "Non-whitespace before first tag." 0 1 (chr 1) +++
                  " at index 78")) /\
  sent (exec (SocketHandler.onMessage (rt := strictRuntime) 1 (JStr "id-00") (chr 1))
          twoUsers) = sent twoUsers.
Proof.
  assert (H1 : decodeFailure (rt := strictRuntime) (chr 1) =
               Some (Error (RmiMiddleware.invalidXmlText +++
                            Sax.located "Non-whitespace before first tag." 0 1 (chr 1))))
    by (vm_compute; reflexivity).
  assert (H2 : RmiMiddleware.messageToXml (rt := strictRuntime)
                 (errorReply (rt := strictRuntime)
                    (Error (RmiMiddleware.invalidXmlText +++
                            Sax.located "Non-whitespace before first tag." 0 1 (chr 1)))
                    (dateCalls twoUsers)) =
               Throw (Error ("Invalid character in string: Error: " +++
                             RmiMiddleware.invalidXmlText +++
                             Sax.located "Non-whitespace before first tag." 0 1 (chr 1) +++
                             " at index 78")))
    by (vm_compute; reflexivity).
  pose proof (C6_decode_failure_escapes (rt := strictRuntime) 1 (JStr "id-00") (chr 1)
                _ _ twoUsers H1 H2) as H.
  split; [exact H1|]. split; [exact (proj1 H)|exact (proj1 (proj2 H))].
Defined.

(** C7 at a concrete input: Bob's private message to Alice, both bound. *)
Lemma C7_unicast_delivery_witness :
  isStr (get privateSample "type") "PRIVATE" = true /\
  get privateSample "targetUserId" = JStr "id-00" /\
  get privateSample "userId" = JStr "id-01" /\
  RmiMiddleware.messageToXml (rt := demoRuntime) privateSample =
    Ok (encoded (rt := demoRuntime) privateSample) /\
  SocketHandler.onChatEvent (rt := demoRuntime) privateSample twoUsers =
    SocketHandler.sendPrivateMessage (encoded (rt := demoRuntime) privateSample)
      (JStr "id-00") (JStr "id-01") twoUsers /\
  sent (exec (SocketHandler.sendPrivateMessage (encoded (rt := demoRuntime) privateSample)
                (JStr "id-00") (JStr "id-01")) twoUsers) =
  sent twoUsers ++
  toTarget (encoded (rt := demoRuntime) privateSample) "id-00" twoUsers ++
  echo (encoded (rt := demoRuntime) privateSample) "id-00" "id-01" twoUsers.
Proof.
  pose proof (C7_unicast_delivery (rt := demoRuntime)
                (encoded (rt := demoRuntime) privateSample) "id-00" "id-01" twoUsers) as H.
  split; [reflexivity|]. split; [reflexivity|]. split; [reflexivity|].
  split; [reflexivity|].
  split.
  - exact (proj2 (proj2 (proj2 (proj2 (proj2 (proj2 (proj2 H))))))
             privateSample eq_refl eq_refl eq_refl eq_refl).
  - exact (proj1 (proj2 (proj2 H))).
Defined.

(** C8 at a concrete input: Alice's id comes back on a new handle. *)
Lemma C8_reconnect_keeps_identity_witness :
  RmiMiddleware.xmlToMessage (rt := demoRuntime) (rejoinFrame "id-00" "Alice") =
    Ok rejoinMessage /\
  isStr (get rejoinMessage "type") "JOIN" = true /\
  get rejoinMessage "userId" = JStr "id-00" /\
  "id-00" <> "" /\
  "id-00" <> "system" /\
  existsb (fun user => userId user =? "id-00") (mapValues (users twoUsers)) = true /\
  Forall (encodes (rt := demoRuntime)) (reconnectMessages (rt := demoRuntime) "id-00" twoUsers) /\
  result (SocketHandler.onMessage (rt := demoRuntime) 3 JNull (rejoinFrame "id-00" "Alice"))
    twoUsers = Ok (JStr "id-00") /\
  users (exec (SocketHandler.onMessage (rt := demoRuntime) 3 JNull
                 (rejoinFrame "id-00" "Alice")) twoUsers) = users twoUsers /\
  assoc "id-00"
    (activeConnections (exec (SocketHandler.onMessage (rt := demoRuntime) 3 JNull
                                (rejoinFrame "id-00" "Alice")) twoUsers)) = Some 3.
Proof.
  assert (H1 : RmiMiddleware.xmlToMessage (rt := demoRuntime) (rejoinFrame "id-00" "Alice") =
               Ok rejoinMessage) by (vm_compute; reflexivity).
  assert (H4 : "id-00" <> "") by discriminate.
  assert (H5 : "id-00" <> "system") by discriminate.
  assert (H6 : existsb (fun user => userId user =? "id-00") (mapValues (users twoUsers)) = true)
    by (vm_compute; reflexivity).
  assert (H7 : Forall (encodes (rt := demoRuntime))
                 (reconnectMessages (rt := demoRuntime) "id-00" twoUsers))
    by (vm_compute; repeat constructor).
  pose proof (C8_reconnect_keeps_identity (rt := demoRuntime) 3 JNull
                (rejoinFrame "id-00" "Alice") rejoinMessage "id-00" twoUsers
                H1 eq_refl eq_refl H4 H5 H6) as H.
  split; [exact H1|]. split; [reflexivity|]. split; [reflexivity|].
  split; [exact H4|]. split; [exact H5|]. split; [exact H6|]. split; [exact H7|].
  split; [exact (proj1 (proj2 (proj2 (proj2 (proj2 (proj2 (proj2 H))))) H7))|].
  split; [exact (proj1 H)|].
  exact (proj1 (proj2 (proj2 (proj2 (proj2 (proj2 H)))))).
Defined.


(** The scenario of the private message: Carol, who joins later, is sent
    the two JOIN messages of the history and her own, and not the PRIVATE
    message between Bob and Alice; Alice, who reconnects, is sent it. *)
Example replay_hides_private_message :
  map (fun m => get m "type") (messageHistory afterPrivate) =
    [JStr "JOIN"; JStr "JOIN"; JStr "PRIVATE"] /\
  kinds (newFrames afterPrivate carolJoined) =
    [(1, Some "JOIN"); (2, Some "JOIN");
     (3, Some "JOIN"); (3, Some "JOIN"); (3, Some "JOIN"); (3, Some "JOIN");
     (1, Some "USER_LIST"); (2, Some "USER_LIST"); (3, Some "USER_LIST")] /\
  map (fun m => get m "type")
    (replayed "id-00" (lastN 20 (messageHistory afterPrivate))) =
    [JStr "JOIN"; JStr "JOIN"; JStr "PRIVATE"].
Proof. vm_compute. repeat split; reflexivity. Qed.

(** The codec on a message whose texts contain markup characters, a
    carriage return and trailing blanks. *)
Example codec_sample :
  RmiMiddleware.xmlToMessage (rt := demoRuntime)
    (encoded (rt := demoRuntime) (toObject escapedSample)) =
  Ok (toObject escapedSample) /\
  fieldLine "username" "Bob & <Co>" =
    "  <username>Bob &amp; &lt;Co&gt;</username>" +++ LF /\
  fieldLine "content" "" = "  <content/>" +++ LF.
Proof. vm_compute. repeat split; reflexivity. Qed.

(** With 25 messages in the history, the replay writes the last 20. *)
Example replay_of_a_long_history :
  length (messageHistory longHistory) = 25 /\
  sent (exec (SocketHandler.replayHistory (rt := demoRuntime) 1 "id-00") longHistory) =
  map (fun msg => (1, encoded (rt := demoRuntime) msg))
    (map numbered (seq 5 20)).
Proof. vm_compute. repeat split; reflexivity. Qed.

(* ================================================================== *)
(** ** Lookups and dispatch                                            *)
(* ================================================================== *)

Section Lookups.

Context {rt : Runtime}.

Import SocketHandler.

Lemma disconnectUser_unknown (v : jsval) (s : State) :
  mapGet v (users s) = None -> disconnectUser v s = (Ok false, s).
Proof.
  intros H. unfold disconnectUser, RmiMiddleware.disconnectUser.
  unfold bind at 1. unfold gets at 1. rewrite H. reflexivity.
Qed.

Lemma mapGet_string {A : Type} (v : jsval) (m : list (string * A)) (a : A) :
  mapGet v m = Some a -> exists uid, v = JStr uid /\ assoc uid m = Some a.
Proof. destruct v; simpl; try discriminate. intros H. exists s. split; [reflexivity|exact H]. Qed.

Lemma isStr_false_system (uid : string) : uid <> "system" -> isStr (JStr uid) "system" = false.
Proof. intros H. simpl. destruct (String.eqb_spec uid "system"); [contradiction|reflexivity]. Qed.

Lemma get_assign_same (m : jsval) (ps : list (string * jsval)) (k : string) (x : jsval) :
  m = JObj ps -> get (assign m k x) k = x.
Proof.
  intros ->. simpl. induction ps as [|[k' y] ps IH]; simpl.
  - rewrite String.eqb_refl. reflexivity.
  - destruct (String.eqb_spec k' k) as [->|Hne]; simpl.
    + rewrite String.eqb_refl. reflexivity.
    + destruct (String.eqb_spec k' k); [contradiction|exact IH].
Qed.

Lemma typed_is_object (m : jsval) (k lit : string) :
  isStr (get m k) lit = true -> exists ps, m = JObj ps.
Proof. destruct m; simpl; try discriminate. intros _. exists props. reflexivity. Qed.

(** A PRIVATE frame: the handler runs [sendPrivateMessage] of the
    middleware and, if that throws, the [catch] block. *)
Lemma onMessage_private (ws : WebSocket) (connUserId : jsval) (data : string)
  (msg : jsval) (s : State) :
  RmiMiddleware.xmlToMessage data = Ok msg ->
  isStr (get msg "type") "PRIVATE" = true ->
  onMessage ws connUserId data s =
  match RmiMiddleware.sendPrivateMessage onChatEvent
          (JObj [("userId", get msg "userId");
                 ("targetUserId", get msg "targetUserId");
                 ("content", get msg "content")]) s with
  | (Ok _, s') => (Ok connUserId, s')
  | (Throw e, s') => catchBlock ws connUserId e s'
  end.
Proof.
  intros Hx Hty. unfold onMessage, tryCatch.
  unfold bind at 1. unfold liftO at 1. rewrite Hx.
  unfold bind at 1. unfold liftO at 1. rewrite (prop_get _ _ _ Hty).
  rewrite (isStr_eq _ _ Hty). cbn [isStr String.eqb Ascii.eqb Bool.eqb andb].
  unfold bind at 1.
  match goal with |- context [RmiMiddleware.sendPrivateMessage ?l ?m ?st] =>
    destruct (RmiMiddleware.sendPrivateMessage l m st) as [[a|e] s1] end;
    reflexivity.
Qed.

Lemma mapDelete_mapSet {A : Type} (k : string) (a : A) (m : list (string * A)) :
  mapDelete k (mapSet k a m) = mapDelete k m.
Proof.
  induction m as [|[k' b] m IH]; simpl.
  - rewrite String.eqb_refl. reflexivity.
  - destruct (String.eqb_spec k' k) as [->|Hne]; simpl.
    + rewrite String.eqb_refl. reflexivity.
    + destruct (String.eqb_spec k' k); [contradiction|]. rewrite IH. reflexivity.
Qed.

Lemma assoc_existsb (uid : string) (user : User) (us : list (string * User)) :
  assoc uid us = Some user -> userId user = uid ->
  existsb (fun u => userId u =? uid) (mapValues us) = true.
Proof.
  intros Ha Hid. apply existsb_exists. exists user. split.
  - induction us as [|[k u] us IH]; simpl in *; [discriminate|].
    destruct (k =? uid); [left; congruence|right; exact (IH Ha)].
  - rewrite Hid. apply String.eqb_refl.
Qed.

End Lookups.

(* ================================================================== *)
(** ** Properties kept by every handler                                *)
(* ================================================================== *)

Section Preservation.

Context {rt : Runtime}.

Lemma preserves_ret {A : Type} (P : State -> Prop) (a : A) : preserves P (ret a).
Proof. intros s H. exact H. Qed.

Lemma preserves_throw {A : Type} (P : State -> Prop) (e : error) :
  preserves P (throw (A := A) e).
Proof. intros s H. exact H. Qed.

Lemma preserves_liftO {A : Type} (P : State -> Prop) (o : outcome A) :
  preserves P (liftO o).
Proof. intros s H. exact H. Qed.

Lemma preserves_gets {A : Type} (P : State -> Prop) (f : State -> A) :
  preserves P (gets f).
Proof. intros s H. exact H. Qed.

Lemma preserves_modify (P : State -> Prop) (f : State -> State) :
  (forall s, P s -> P (f s)) -> preserves P (modify f).
Proof. intros Hf s H. apply Hf. exact H. Qed.

Lemma preserves_bind {A B : Type} (P : State -> Prop) (m : M A) (f : A -> M B) :
  preserves P m -> (forall a, preserves P (f a)) -> preserves P (bind m f).
Proof.
  intros Hm Hf s H. unfold bind. specialize (Hm s H).
  destruct (m s) as [[a|e] s1]; simpl in *; [apply Hf; exact Hm|exact Hm].
Qed.

Lemma preserves_tryCatch {A : Type} (P : State -> Prop) (m : M A) (h : error -> M A) :
  preserves P m -> (forall e, preserves P (h e)) -> preserves P (tryCatch m h).
Proof.
  intros Hm Hh s H. unfold tryCatch. specialize (Hm s H).
  destruct (m s) as [[a|e] s1]; simpl in *; [exact Hm|apply Hh; exact Hm].
Qed.

Lemma preserves_forEach {A : Type} (P : State -> Prop) (l : list A) (body : A -> M unit) :
  (forall a, preserves P (body a)) -> preserves P (forEach l body).
Proof.
  intros Hb. induction l as [|a l IH]; simpl.
  - apply preserves_ret.
  - apply preserves_bind; [apply Hb|intros _; exact IH].
Qed.

Lemma local_quiet (P : State -> Prop) : local P -> quiet P.
Proof. intros HP s s' Hu Hh _ _ H. exact (HP s s' Hu Hh H). Qed.

Lemma preserves_newDate (P : State -> Prop) : quiet P -> preserves P newDate.
Proof. intros HP s H. apply (HP s); try reflexivity. exact H. Qed.

Lemma preserves_newUuid (P : State -> Prop) : local P -> preserves P newUuid.
Proof. intros HP s H. apply (HP s); try reflexivity. exact H. Qed.

Lemma preserves_wsSend (P : State -> Prop) (ws : WebSocket) (x : string) :
  quiet P -> preserves P (wsSend ws x).
Proof. intros HP s H. apply (HP s); try reflexivity. exact H. Qed.

Lemma preserves_setConnections (P : State -> Prop)
  (f : State -> list (string * WebSocket)) :
  local P -> preserves P (modify (fun s => setConnections (f s) s)).
Proof. intros HP s H. apply (HP s); [reflexivity|reflexivity|exact H]. Qed.

Lemma local_users (U : list (string * User)) : local (fun s => users s = U).
Proof. intros s s' Hu _ H. congruence. Qed.

Lemma local_bounded : local historyBounded.
Proof. intros s s' _ Hh H. unfold historyBounded in *. rewrite Hh. exact H. Qed.

Lemma saveMessage_users (U : list (string * User)) (m : jsval) :
  preserves (fun s => users s = U) (RmiMiddleware.saveMessage m).
Proof. intros s H. rewrite saveMessage_run. exact H. Qed.

Lemma pushCapped_length (h : list jsval) (m : jsval) :
  length h <= RmiMiddleware.MAX_HISTORY ->
  length (pushCapped h m) <= RmiMiddleware.MAX_HISTORY.
Proof.
  unfold pushCapped, shift, RmiMiddleware.MAX_HISTORY. intros H.
  destruct (Nat.ltb_spec 100 (length (h ++ [m]))) as [Hlt|Hle]; [|exact Hle].
  rewrite length_app in Hlt. simpl in Hlt.
  destruct h as [|x h]; simpl in *; [lia|]. rewrite length_app. simpl. lia.
Qed.

Lemma saveMessage_bounded (m : jsval) :
  preserves historyBounded (RmiMiddleware.saveMessage m).
Proof.
  intros s H. rewrite saveMessage_run. unfold historyBounded in *. simpl.
  apply pushCapped_length. exact H.
Qed.

Lemma setUsers_bounded (f : State -> list (string * User)) :
  preserves historyBounded (modify (fun s => setUsers (f s) s)).
Proof. intros s H. exact H. Qed.

Lemma touch_bounded (uid t : string) :
  preserves historyBounded (RmiMiddleware.touch uid t).
Proof.
  intros s H. unfold RmiMiddleware.touch, modify. simpl.
  destruct (assoc uid (users s)); exact H.
Qed.

Create HintDb pres.

#[local] Hint Resolve local_quiet local_users local_bounded saveMessage_users
  saveMessage_bounded setUsers_bounded touch_bounded : pres.

(** One step of a proof that a handler keeps a property: the rules of the
    monad, the primitive effects, case analysis on tests. *)
Ltac pres_step :=
  first
    [ apply preserves_ret | apply preserves_throw | apply preserves_liftO
    | apply preserves_gets
    | solve [auto with pres]
    | apply preserves_newDate; solve [auto with pres]
    | apply preserves_newUuid; solve [auto with pres]
    | apply preserves_wsSend; solve [auto with pres]
    | apply preserves_setConnections; solve [auto with pres]
    | apply preserves_modify; solve [intros ? Hq; exact Hq]
    | apply preserves_bind | apply preserves_tryCatch | apply preserves_forEach
    | match goal with
      | |- forall _, _ => intro
      | |- preserves _ (if ?b then _ else _) => destruct b
      | |- preserves _ (match ?x with _ => _ end) => destruct x
      end ].

Ltac pres := repeat pres_step.

Lemma broadcastMessage_local (P : State -> Prop) (xml : string) :
  quiet P -> preserves P (SocketHandler.broadcastMessage xml).
Proof. intros HP. unfold SocketHandler.broadcastMessage. pres. Qed.

Lemma sendPrivateMessage_local (P : State -> Prop) (xml : string) (t u : jsval) :
  quiet P -> preserves P (SocketHandler.sendPrivateMessage xml t u).
Proof. intros HP. unfold SocketHandler.sendPrivateMessage. pres. Qed.

Lemma onChatEvent_local (P : State -> Prop) (m : jsval) :
  quiet P -> preserves P (SocketHandler.onChatEvent m).
Proof.
  intros HP. unfold SocketHandler.onChatEvent.
  apply preserves_bind; [apply preserves_liftO|]. intros xml.
  destruct (isStr (get m "type") "PRIVATE");
    [apply sendPrivateMessage_local|apply broadcastMessage_local]; exact HP.
Qed.

Lemma replayHistory_local (P : State -> Prop) (ws : WebSocket) (uid : string) :
  quiet P -> preserves P (SocketHandler.replayHistory ws uid).
Proof.
  intros HP. unfold SocketHandler.replayHistory, RmiMiddleware.getMessageHistory. pres.
Qed.

Lemma sendUserListUpdate_local (P : State -> Prop) :
  quiet P -> preserves P SocketHandler.sendUserListUpdate.
Proof.
  intros HP. unfold SocketHandler.sendUserListUpdate, RmiMiddleware.getUsers.
  pres.
Qed.

Lemma catchBlock_local (P : State -> Prop) (ws : WebSocket) (v : jsval) (e : error) :
  quiet P -> preserves P (SocketHandler.catchBlock ws v e).
Proof. intros HP. unfold SocketHandler.catchBlock. pres. Qed.

Ltac pres_op :=
  first
    [ apply onChatEvent_local; solve [auto with pres]
    | apply replayHistory_local; solve [auto with pres]
    | apply sendUserListUpdate_local; solve [auto with pres]
    | apply catchBlock_local; solve [auto with pres]
    | pres_step ].

(** All the steps, giving up at the first one that does not apply. *)
Ltac pres_ops := pres_op; [ pres_ops .. ].

(** The history never grows beyond its bound, whatever the handlers are
    given. *)
Lemma registerUser_bounded (v : jsval) :
  preserves historyBounded (SocketHandler.registerUser v).
Proof. unfold SocketHandler.registerUser, RmiMiddleware.registerUser. pres_ops. Qed.

#[local] Hint Resolve registerUser_bounded : pres.

Lemma sendMessage_bounded (v : jsval) :
  preserves historyBounded (SocketHandler.sendMessage v).
Proof. unfold SocketHandler.sendMessage, RmiMiddleware.sendMessage. pres_ops. Qed.

Lemma sendPrivateMessage_bounded (v : jsval) :
  preserves historyBounded (RmiMiddleware.sendPrivateMessage SocketHandler.onChatEvent v).
Proof. unfold RmiMiddleware.sendPrivateMessage. pres_ops. Qed.

Lemma disconnectUser_bounded (v : jsval) :
  preserves historyBounded (SocketHandler.disconnectUser v).
Proof. unfold SocketHandler.disconnectUser, RmiMiddleware.disconnectUser. pres_ops. Qed.

#[local] Hint Resolve sendMessage_bounded sendPrivateMessage_bounded
  disconnectUser_bounded : pres.

Lemma handleJoin_bounded (ws : WebSocket) (m : jsval) :
  preserves historyBounded (SocketHandler.handleJoin ws m).
Proof. unfold SocketHandler.handleJoin. pres_ops. Qed.

#[local] Hint Resolve handleJoin_bounded : pres.

Lemma onMessage_bounded (ws : WebSocket) (v : jsval) (data : string) :
  preserves historyBounded (SocketHandler.onMessage ws v data).
Proof. unfold SocketHandler.onMessage. pres_ops. Qed.

Lemma onClose_bounded (v : jsval) :
  preserves historyBounded (SocketHandler.onClose v).
Proof. unfold SocketHandler.onClose. pres_ops. Qed.

(** *** The registry *)

Lemma changes_silent {A : Type} (m : M A) :
  (forall U, preserves (fun s => users s = U) m) -> changesRegistry m.
Proof. intros H s. rewrite (H (users s) s eq_refl). constructor. Qed.

Lemma changes_bind_l {A B : Type} (m : M A) (f : A -> M B) :
  changesRegistry m ->
  (forall a U, preserves (fun s => users s = U) (f a)) ->
  changesRegistry (bind m f).
Proof.
  intros Hm Hf s. unfold bind. specialize (Hm s).
  destruct (m s) as [[a|e] s1]; simpl in *; [|exact Hm].
  rewrite (Hf a (users s1) s1 eq_refl). exact Hm.
Qed.

Lemma changes_bind_r {A B : Type} (m : M A) (f : A -> M B) :
  (forall U N, preserves (fun s => users s = U /\ uuidCalls s = N) m) ->
  (forall a, changesRegistry (f a)) ->
  changesRegistry (bind m f).
Proof.
  intros Hm Hf s. unfold bind.
  specialize (Hm (users s) (uuidCalls s) s (conj eq_refl eq_refl)).
  destruct (m s) as [[a|e] s1]; simpl in *; destruct Hm as [Hu Hn].
  - rewrite <- Hu, <- Hn. apply Hf.
  - rewrite Hu. constructor.
Qed.

Lemma quiet_next (U : list (string * User)) (N : nat) :
  quiet (fun s => users s = U /\ uuidCalls s = N).
Proof. intros s s' Hu _ _ Hn [H1 H2]. split; congruence. Qed.

Lemma setConnections_next (U : list (string * User)) (N : nat)
  (f : State -> list (string * WebSocket)) :
  preserves (fun s => users s = U /\ uuidCalls s = N)
    (modify (fun s => setConnections (f s) s)).
Proof. intros s H. exact H. Qed.

Lemma changes_tryCatch {A : Type} (m : M A) (h : error -> M A) :
  changesRegistry m ->
  (forall e U, preserves (fun s => users s = U) (h e)) ->
  changesRegistry (tryCatch m h).
Proof.
  intros Hm Hh s. unfold tryCatch. specialize (Hm s).
  destruct (m s) as [[a|e] s1]; simpl in *; [exact Hm|].
  rewrite (Hh e (users s1) s1 eq_refl). exact Hm.
Qed.

Lemma touch_changes (uid t : string) : changesRegistry (RmiMiddleware.touch uid t).
Proof.
  intros s. unfold RmiMiddleware.touch, modify. simpl.
  destruct (assoc uid (users s)) as [user|] eqn:Ha; simpl.
  - apply RegistryTouched. exact Ha.
  - constructor.
Qed.

Lemma delete_changes (v : jsval) :
  changesRegistry (modify (fun s => setUsers (mapDeleteV v (users s)) s)).
Proof.
  intros s. unfold modify. simpl. destruct v; simpl; constructor.
Qed.

Lemma registerUser_blank (n : string) (s : State) :
  trim n = "" ->
  SocketHandler.registerUser (JStr n) s = (Throw (Error RmiMiddleware.emptyNameText), s).
Proof.
  intros Ht. unfold SocketHandler.registerUser, RmiMiddleware.registerUser.
  unfold bind at 1. rewrite Ht. rewrite orb_true_r. reflexivity.
Qed.

Lemma registerUser_changes (v : jsval) : changesRegistry (SocketHandler.registerUser v).
Proof.
  intros s. destruct v as [| |n|ps|items]; try (simpl; constructor).
  destruct (String.eqb_spec (trim n) "") as [Ht|Ht].
  - rewrite (registerUser_blank n s Ht). constructor.
  - destruct (nameClash s n) eqn:Hc.
    + rewrite (registerUser_conflict n s Ht Hc). constructor.
    + destruct (registerUser_stores n s Ht Hc) as [Hu _]. unfold exec in Hu.
      rewrite Hu. apply RegistryAdded; assumption.
Qed.

Create HintDb chg.

#[local] Hint Resolve touch_changes delete_changes registerUser_changes : chg.

#[local] Hint Resolve quiet_next setConnections_next : pres.

Ltac silent := intros; pres_ops.

Ltac chg_step :=
  first
    [ solve [auto with chg]
    | apply changes_silent; silent
    | apply changes_tryCatch; [|silent]
    | apply changes_bind_r; [silent|]
    | apply changes_bind_l; [|silent]
    | match goal with
      | |- forall _, _ => intro
      | |- changesRegistry (if ?b then _ else _) => destruct b
      | |- changesRegistry (match ?x with _ => _ end) => destruct x
      end ].

Ltac chg := repeat chg_step.

Lemma sendMessage_changes (v : jsval) : changesRegistry (SocketHandler.sendMessage v).
Proof. unfold SocketHandler.sendMessage, RmiMiddleware.sendMessage. chg. Qed.

Lemma sendPrivateMessage_changes (v : jsval) :
  changesRegistry (RmiMiddleware.sendPrivateMessage SocketHandler.onChatEvent v).
Proof. unfold RmiMiddleware.sendPrivateMessage. chg. Qed.

Lemma disconnectUser_changes (v : jsval) : changesRegistry (SocketHandler.disconnectUser v).
Proof. unfold SocketHandler.disconnectUser, RmiMiddleware.disconnectUser. chg. Qed.

#[local] Hint Resolve sendMessage_changes sendPrivateMessage_changes
  disconnectUser_changes : chg.

Lemma handleJoin_changes (ws : WebSocket) (m : jsval) :
  changesRegistry (SocketHandler.handleJoin ws m).
Proof.
  unfold SocketHandler.handleJoin, SocketHandler.welcome, SocketHandler.detached. chg.
Qed.

#[local] Hint Resolve handleJoin_changes : chg.

Lemma onMessage_changes (ws : WebSocket) (v : jsval) (data : string) :
  changesRegistry (SocketHandler.onMessage ws v data).
Proof. unfold SocketHandler.onMessage. chg. Qed.

Lemma onClose_changes (v : jsval) : changesRegistry (SocketHandler.onClose v).
Proof. unfold SocketHandler.onClose. chg. Qed.

(** *** The registry stays well formed *)

Lemma mapSet_values_cases {A : Type} (k : string) (a x : A) (m : list (string * A)) :
  In x (mapValues (mapSet k a m)) -> x = a \/ In x (mapValues m).
Proof.
  induction m as [|[k' b] m IH]; simpl.
  - intros [H|[]]. left. symmetry. exact H.
  - destruct (k' =? k); simpl.
    + intros [H|H]; [left; symmetry; exact H|right; right; exact H].
    + intros [H|H]; [right; left; exact H|].
      destruct (IH H) as [H'|H']; [left; exact H'|right; right; exact H'].
Qed.

Lemma mapSet_entries_cases {A : Type} (k : string) (a : A) (e : string * A)
  (m : list (string * A)) :
  In e (mapSet k a m) -> e = (k, a) \/ In e m.
Proof.
  induction m as [|[k' b] m IH]; simpl.
  - intros [H|[]]. left. symmetry. exact H.
  - destruct (k' =? k); simpl.
    + intros [H|H]; [left; symmetry; exact H|right; right; exact H].
    + intros [H|H]; [right; left; exact H|].
      destruct (IH H) as [H'|H']; [left; exact H'|right; right; exact H'].
Qed.

Lemma mapDelete_entries {A : Type} (k : string) (e : string * A) (m : list (string * A)) :
  In e (mapDelete k m) -> In e m.
Proof.
  induction m as [|[k' b] m IH]; simpl; [tauto|].
  destruct (k' =? k); simpl; [tauto|]. intros [H|H]; [left; exact H|right; exact (IH H)].
Qed.

Lemma assoc_In {A : Type} (k : string) (a : A) (m : list (string * A)) :
  assoc k m = Some a -> In (k, a) m.
Proof.
  induction m as [|[k' b] m IH]; simpl; [discriminate|].
  destruct (String.eqb_spec k' k) as [->|Hne].
  - intros H. injection H as ->. left. reflexivity.
  - intros H. right. exact (IH H).
Qed.

Lemma entries_values {A : Type} (k : string) (a : A) (m : list (string * A)) :
  In (k, a) m -> In a (mapValues m).
Proof. intros H. apply (in_map snd) in H. exact H. Qed.

Lemma values_entries {A : Type} (a : A) (m : list (string * A)) :
  In a (mapValues m) -> exists k, In (k, a) m.
Proof.
  unfold mapValues. intros H. apply in_map_iff in H.
  destruct H as [[k b] [Hb Hin]]. simpl in Hb. subst b. exists k. exact Hin.
Qed.

Section Folded.

Variables (A B : Type) (g : A -> B).

Lemma mapSet_NoDup (k : string) (a : A) (m : list (string * A)) :
  NoDup (map g (mapValues m)) ->
  ~ In (g a) (map g (mapValues m)) ->
  NoDup (map g (mapValues (mapSet k a m))).
Proof.
  induction m as [|[k' b] m IH]; simpl; intros Hnd Hnew.
  - constructor; [intros []|constructor].
  - inversion Hnd as [|x l Hx Hl]; subst.
    destruct (k' =? k); simpl.
    + constructor; [|exact Hl]. intros Hin. apply Hnew. right. exact Hin.
    + constructor.
      * intros Hin. apply in_map_iff in Hin. destruct Hin as [y [Hy Hin]].
        apply mapSet_values_cases in Hin. destruct Hin as [->|Hin].
        -- apply Hnew. left. symmetry. exact Hy.
        -- apply Hx. rewrite <- Hy. apply in_map. exact Hin.
      * apply IH; [exact Hl|]. intros Hin. apply Hnew. right. exact Hin.
Qed.

Lemma mapSet_same_image (k : string) (a b : A) (m : list (string * A)) :
  assoc k m = Some b -> g a = g b ->
  map g (mapValues (mapSet k a m)) = map g (mapValues m).
Proof.
  induction m as [|[k' c] m IH]; simpl; [discriminate|].
  destruct (String.eqb_spec k' k) as [->|Hne]; simpl.
  - intros H Hg. injection H as ->. rewrite Hg. reflexivity.
  - intros H Hg. rewrite (IH H Hg). reflexivity.
Qed.

Lemma mapDelete_NoDup (k : string) (m : list (string * A)) :
  NoDup (map g (mapValues m)) -> NoDup (map g (mapValues (mapDelete k m))).
Proof.
  induction m as [|[k' b] m IH]; simpl; intros Hnd; [constructor|].
  inversion Hnd as [|x l Hx Hl]; subst.
  destruct (k' =? k); simpl; [exact Hl|].
  constructor; [|apply IH; exact Hl].
  intros Hin. apply Hx. apply in_map_iff in Hin. destruct Hin as [y [Hy Hin]].
  rewrite <- Hy. apply in_map. destruct (values_entries _ _ Hin) as [k0 Hk0].
  apply mapDelete_entries in Hk0. exact (entries_values _ _ _ Hk0).
Qed.

End Folded.

Lemma mapSet_keys {A : Type} (k : string) (a : A) (m : list (string * A)) :
  NoDup (map fst m) -> NoDup (map fst (mapSet k a m)).
Proof.
  induction m as [|[k' b] m IH]; simpl; intros Hnd.
  - constructor; [intros []|constructor].
  - inversion Hnd as [|x l Hx Hl]; subst.
    destruct (String.eqb_spec k' k) as [->|Hne]; simpl.
    + constructor; assumption.
    + constructor; [|apply IH; exact Hl].
      intros Hin. apply in_map_iff in Hin. destruct Hin as [[k0 c] [Hk0 Hin]].
      simpl in Hk0. subst k0. apply mapSet_entries_cases in Hin.
      destruct Hin as [Hin|Hin]; [injection Hin as Hk _; apply Hne; exact Hk|].
      apply Hx. apply (in_map fst) in Hin. exact Hin.
Qed.

Lemma mapDelete_keys {A : Type} (k : string) (m : list (string * A)) :
  NoDup (map fst m) -> NoDup (map fst (mapDelete k m)).
Proof.
  induction m as [|[k' b] m IH]; simpl; intros Hnd; [constructor|].
  inversion Hnd as [|x l Hx Hl]; subst.
  destruct (k' =? k); simpl; [exact Hl|].
  constructor; [|apply IH; exact Hl].
  intros Hin. apply in_map_iff in Hin. destruct Hin as [[k0 c] [Hk0 Hin]].
  simpl in Hk0. subst k0. apply mapDelete_entries in Hin.
  apply Hx. apply (in_map fst) in Hin. exact Hin.
Qed.

Lemma assoc_mapDelete_gone {A : Type} (k : string) (m : list (string * A)) :
  NoDup (map fst m) -> assoc k (mapDelete k m) = None.
Proof.
  induction m as [|[k' b] m IH]; simpl; intros Hnd; [reflexivity|].
  inversion Hnd as [|x l Hx Hl]; subst.
  destruct (String.eqb_spec k' k) as [->|Hne]; simpl.
  - destruct (assoc k m) as [a|] eqn:Ha; [|reflexivity].
    exfalso. apply Hx. apply assoc_In in Ha. apply (in_map fst) in Ha. exact Ha.
  - destruct (String.eqb_spec k' k); [contradiction|]. apply IH. exact Hl.
Qed.

Lemma mapDelete_values_gone {A : Type} (g : A -> string) (k : string) (u : A)
  (m : list (string * A)) :
  NoDup (map g (mapValues m)) -> assoc k m = Some u ->
  ~ In (g u) (map g (mapValues (mapDelete k m))).
Proof.
  induction m as [|[k' b] m IH]; simpl; intros Hnd Ha; [discriminate|].
  inversion Hnd as [|x l Hx Hl]; subst.
  destruct (String.eqb_spec k' k) as [->|Hne]; simpl.
  - injection Ha as ->. exact Hx.
  - intros [Hb|Hin].
    + apply Hx. rewrite Hb. apply in_map.
      exact (entries_values _ _ _ (assoc_In _ _ _ Ha)).
    + exact (IH Hl Ha Hin).
Qed.

Lemma noClash_notIn (n : string) (us : list (string * User)) :
  existsb (fun user => toLowerCase (username user) =? toLowerCase n) (mapValues us) = false ->
  ~ In (toLowerCase n) (foldedNames us).
Proof.
  intros Hc Hin. unfold foldedNames in Hin. apply in_map_iff in Hin.
  destruct Hin as [u [Hu Hin]].
  assert (Ht : existsb (fun user => toLowerCase (username user) =? toLowerCase n)
                 (mapValues us) = true).
  { apply existsb_exists. exists u. split; [exact Hin|]. rewrite Hu. apply String.eqb_refl. }
  rewrite Hc in Ht. discriminate Ht.
Qed.

(** Each change a handler can make keeps the registry well formed. *)
Lemma registryChange_ok (next : string) (s s' : State) :
  registryOk s -> registryChange next (users s) (users s') -> registryOk s'.
Proof.
  intros [Hnd [Hnb [Hk Hu]]] Hc. unfold registryOk.
  remember (users s') as U' eqn:HU. clear HU.
  destruct Hc as [|n t Ht Hclash|uid t user Ha|uid].
  - repeat split; assumption.
  - split; [|split; [|split]].
    + unfold foldedNames. apply mapSet_NoDup; [exact Hnd|].
      apply (noClash_notIn n _ Hclash).
    + intros u Hin. apply mapSet_values_cases in Hin. destruct Hin as [->|Hin]; [exact Ht|].
      apply Hnb. exact Hin.
    + intros k u Hin. apply mapSet_entries_cases in Hin. destruct Hin as [Hin|Hin].
      * injection Hin as -> ->. reflexivity.
      * apply Hk. exact Hin.
    + apply mapSet_keys. exact Hu.
  - split; [|split; [|split]].
    + unfold foldedNames.
      rewrite (mapSet_same_image _ _ (fun u => toLowerCase (username u)) uid _ user);
        [exact Hnd|exact Ha|reflexivity].
    + intros u Hin. apply mapSet_values_cases in Hin. destruct Hin as [->|Hin].
      * simpl. apply Hnb. exact (entries_values _ _ _ (assoc_In _ _ _ Ha)).
      * apply Hnb. exact Hin.
    + intros k u Hin. apply mapSet_entries_cases in Hin. destruct Hin as [Hin|Hin].
      * injection Hin as -> ->. simpl. apply Hk. exact (assoc_In _ _ _ Ha).
      * apply Hk. exact Hin.
    + apply mapSet_keys. exact Hu.
  - split; [|split; [|split]].
    + unfold foldedNames. apply mapDelete_NoDup. exact Hnd.
    + intros u Hin. destruct (values_entries _ _ Hin) as [k Hin'].
      apply mapDelete_entries in Hin'. apply Hnb. exact (entries_values _ _ _ Hin').
    + intros k u Hin. apply mapDelete_entries in Hin. apply Hk. exact Hin.
    + apply mapDelete_keys. exact Hu.
Qed.

Lemma runEvent_changes (s : State) (ev : event) :
  registryChange (uuidv4 (uuidCalls s)) (users s) (users (runEvent s ev)).
Proof.
  destruct ev as [ws v data|v|n|open]; unfold runEvent, exec.
  - apply onMessage_changes.
  - apply onClose_changes.
  - apply registerUser_changes.
  - constructor.
Qed.

Lemma notIn_assoc {A : Type} (k : string) (m : list (string * A)) :
  ~ In k (map fst m) -> assoc k m = None.
Proof.
  intros H. destruct (assoc k m) as [a|] eqn:Ha; [|reflexivity].
  exfalso. apply H. apply assoc_In in Ha. apply (in_map fst) in Ha. exact Ha.
Qed.

(** With a generator that never repeats an id, the id that comes next is
    new to a registry whose ids were all issued. *)
Lemma registryChange_edit (s : State) (us' : list (string * User)) :
  (forall i j, uuidv4 i = uuidv4 j -> i = j) ->
  idsIssued s ->
  registryChange (uuidv4 (uuidCalls s)) (users s) us' ->
  registryEdit (users s) us'.
Proof.
  intros Hinj Hiss Hc.
  assert (Hnew : ~ In (uuidv4 (uuidCalls s)) (map fst (users s))).
  { intros Hin. destruct (Hiss _ Hin) as [i [Hi He]]. apply Hinj in He. lia. }
  destruct Hc as [|n t Ht Hclash|uid t user Ha|uid].
  - constructor.
  - rewrite (mapSet_fresh _ _ _ Hnew).
    apply EditAdded; [apply notIn_assoc; exact Hnew|exact Ht|exact Hclash].
  - apply EditTouched. exact Ha.
  - apply EditRemoved.
Qed.

(** X1.  One frame changes the registry in at most one way.  With a
    generator that never repeats an id and a registry whose ids it has
    issued, the frame adds one user under an id that is new to the
    registry, with a name that is not blank and clashes with no stored
    name, or it refreshes [lastActive] of one user, or it removes the
    entry of one id.  No frame renames or replaces a stored user, changes
    an id or touches two users. *)
Theorem frame_changes_registry_once :
  forall (ws : WebSocket) (connUserId : jsval) (data : string) (s : State),
    (forall i j, uuidv4 i = uuidv4 j -> i = j) ->
    idsIssued s ->
    registryEdit (users s) (users (exec (SocketHandler.onMessage ws connUserId data) s)).
Proof.
  intros ws v data s Hinj Hiss.
  apply (registryChange_edit s _ Hinj Hiss). apply onMessage_changes.
Qed.

(** X2.  Whatever frames arrive, connections close, registrations come
    over HTTP and transports open or close, the registry of a server
    started empty is well formed: names are pairwise distinct up to case
    and not blank, every user is stored under its own id, and no id has
    two entries. *)
Theorem registry_always_well_formed :
  forall (open : list WebSocket) (evs : list event),
    registryOk (runEvents evs (initialState open)).
Proof.
  intros open evs.
  assert (H0 : registryOk (initialState open)).
  { unfold registryOk. simpl. repeat split; try constructor; intros; contradiction. }
  revert H0. unfold runEvents. generalize (initialState open).
  induction evs as [|ev evs IH]; intros s Hs; simpl; [exact Hs|].
  apply IH. apply (registryChange_ok (uuidv4 (uuidCalls s)) s);
    [exact Hs|apply runEvent_changes].
Qed.

(** X3.  In every run of a server started empty the history holds at most
    100 messages. *)
Theorem history_always_bounded :
  forall (open : list WebSocket) (evs : list event),
    length (messageHistory (runEvents evs (initialState open))) <= 100.
Proof.
  intros open evs.
  assert (H0 : historyBounded (initialState open)).
  { unfold historyBounded. simpl. apply Nat.le_0_l. }
  revert H0. unfold runEvents. generalize (initialState open).
  induction evs as [|ev evs IH]; intros s Hs; simpl; [exact Hs|].
  apply IH. destruct ev as [ws v data|v|n|o]; unfold runEvent, exec.
  - apply onMessage_bounded. exact Hs.
  - apply onClose_bounded. exact Hs.
  - apply registerUser_bounded. exact Hs.
  - exact Hs.
Qed.

(** *** Ids are issued once *)

Lemma mapDelete_keys_subset {A : Type} (k k' : string) (m : list (string * A)) :
  In k (map fst (mapDelete k' m)) -> In k (map fst m).
Proof.
  intros H. apply in_map_iff in H. destruct H as [[k0 b] [Hk Hin]].
  simpl in Hk. subst k0. apply mapDelete_entries in Hin.
  apply (in_map fst) in Hin. exact Hin.
Qed.

Lemma quiet_issued : quiet idsIssued.
Proof.
  intros s s' Hu _ _ Hn H k Hk. rewrite Hu in Hk. rewrite Hn. exact (H k Hk).
Qed.

Lemma saveMessage_issued (m : jsval) : preserves idsIssued (RmiMiddleware.saveMessage m).
Proof. intros s H. rewrite saveMessage_run. exact H. Qed.

Lemma touch_issued (uid t : string) : preserves idsIssued (RmiMiddleware.touch uid t).
Proof.
  intros s H. unfold RmiMiddleware.touch, modify. simpl.
  destruct (assoc uid (users s)) as [user|] eqn:Ha; [|exact H].
  intros k Hk. simpl in Hk. apply H.
  apply in_map_iff in Hk. destruct Hk as [[k0 u] [Hk0 Hin]]. simpl in Hk0. subst k0.
  apply mapSet_entries_cases in Hin. destruct Hin as [Hin|Hin].
  - injection Hin as -> _. apply assoc_In in Ha. apply (in_map fst) in Ha. exact Ha.
  - apply (in_map fst) in Hin. exact Hin.
Qed.

Lemma delete_issued (v : jsval) :
  preserves idsIssued (modify (fun s => setUsers (mapDeleteV v (users s)) s)).
Proof.
  intros s H. unfold modify. simpl. destruct v; try exact H.
  intros k Hk. simpl in Hk. apply H. exact (mapDelete_keys_subset _ _ _ Hk).
Qed.

Lemma registerUser_issued (v : jsval) :
  preserves idsIssued (SocketHandler.registerUser v).
Proof.
  intros s Hs. destruct v as [| |n|ps|items]; try exact Hs.
  destruct (String.eqb_spec (trim n) "") as [Ht|Ht].
  - rewrite (registerUser_blank n s Ht). exact Hs.
  - destruct (nameClash s n) eqn:Hc.
    + rewrite (registerUser_conflict n s Ht Hc). exact Hs.
    + destruct (registerUser_stores n s Ht Hc) as [Hu [_ [_ Hi]]]. unfold exec in Hu, Hi.
      intros k Hk. rewrite Hu in Hk. rewrite Hi.
      apply in_map_iff in Hk. destruct Hk as [[k0 u] [Hk0 Hin]]. simpl in Hk0. subst k0.
      apply mapSet_entries_cases in Hin. destruct Hin as [Hin|Hin].
      * injection Hin as -> _. exists (uuidCalls s). split; [lia|reflexivity].
      * apply (in_map fst) in Hin. destruct (Hs k Hin) as [i [Hi' He]].
        exists i. split; [lia|exact He].
Qed.

#[local] Hint Resolve quiet_issued saveMessage_issued touch_issued delete_issued
  registerUser_issued : pres.

Lemma sendMessage_issued (v : jsval) : preserves idsIssued (SocketHandler.sendMessage v).
Proof. unfold SocketHandler.sendMessage, RmiMiddleware.sendMessage. pres_ops. Qed.

Lemma sendPrivateMessage_issued (v : jsval) :
  preserves idsIssued (RmiMiddleware.sendPrivateMessage SocketHandler.onChatEvent v).
Proof. unfold RmiMiddleware.sendPrivateMessage. pres_ops. Qed.

Lemma disconnectUser_issued (v : jsval) :
  preserves idsIssued (SocketHandler.disconnectUser v).
Proof.
  unfold SocketHandler.disconnectUser, RmiMiddleware.disconnectUser,
    RmiMiddleware.createSystemMessage. pres_ops.
Qed.

#[local] Hint Resolve sendMessage_issued sendPrivateMessage_issued
  disconnectUser_issued : pres.

Lemma handleJoin_issued (ws : WebSocket) (m : jsval) :
  preserves idsIssued (SocketHandler.handleJoin ws m).
Proof.
  unfold SocketHandler.handleJoin, SocketHandler.welcome, SocketHandler.detached.
  pres_ops.
Qed.

#[local] Hint Resolve handleJoin_issued : pres.

Lemma onMessage_issued (ws : WebSocket) (v : jsval) (data : string) :
  preserves idsIssued (SocketHandler.onMessage ws v data).
Proof. unfold SocketHandler.onMessage. pres_ops. Qed.

Lemma onClose_issued (v : jsval) : preserves idsIssued (SocketHandler.onClose v).
Proof. unfold SocketHandler.onClose. pres_ops. Qed.

Lemma runEvent_issued (s : State) (ev : event) : idsIssued s -> idsIssued (runEvent s ev).
Proof.
  intros Hs. destruct ev as [ws v data|v|n|o]; unfold runEvent, exec.
  - apply onMessage_issued. exact Hs.
  - apply onClose_issued. exact Hs.
  - apply registerUser_issued. exact Hs.
  - exact Hs.
Qed.

(** X5.  Ids are issued once.  In every run of a server started empty,
    every id of the registry is one the generator has returned; so, with a
    generator that never returns an id twice, the id of the next
    registration is new to the registry and the registration adds an entry
    at the end of the map: it never replaces a stored user. *)
Theorem registration_never_replaces :
  forall (open : list WebSocket) (evs : list event),
    (forall i j, uuidv4 i = uuidv4 j -> i = j) ->
    let s := runEvents evs (initialState open) in
    idsIssued s /\
    (forall n : string,
        trim n <> "" ->
        nameClash s n = false ->
        ~ In (uuidv4 (uuidCalls s)) (map fst (users s)) /\
        users (exec (SocketHandler.registerUser (JStr n)) s) =
          users s ++ [(uuidv4 (uuidCalls s),
                       mkUser (uuidv4 (uuidCalls s)) n (isoDate (dateCalls s)))]).
Proof.
  intros open evs Hinj s.
  assert (Hs : idsIssued s).
  { unfold s.
    assert (H0 : idsIssued (initialState open)) by (intros k []).
    revert H0. unfold runEvents. generalize (initialState open).
    induction evs as [|ev evs IH]; intros s0 Hs0; simpl; [exact Hs0|].
    apply IH. apply runEvent_issued. exact Hs0. }
  split; [exact Hs|].
  intros n Ht Hc.
  destruct (registerUser_new_id n s Hinj Hs Ht Hc) as [H1 [H2 _]].
  split; [exact H1|exact H2].
Qed.

(** *** The bindings stay well formed *)

Lemma triple_ret {A : Type} (P : State -> Prop) (a : A) (Q : A -> State -> Prop)
  (E : State -> Prop) :
  (forall s, P s -> Q a s) -> triple P (ret a) Q E.
Proof. intros H s Hs. apply H. exact Hs. Qed.

Lemma triple_bind {A B : Type} (P : State -> Prop) (m : M A) (f : A -> M B)
  (R : A -> State -> Prop) (Q : B -> State -> Prop) (E : State -> Prop) :
  triple P m R E -> (forall a, triple (R a) (f a) Q E) -> triple P (bind m f) Q E.
Proof.
  intros Hm Hf s Hs. unfold bind. specialize (Hm s Hs).
  destruct (m s) as [[a|e] s1]; [exact (Hf a s1 Hm)|exact Hm].
Qed.

Lemma triple_preserves {A : Type} (P : State -> Prop) (m : M A) :
  preserves P m -> triple P m (fun _ => P) P.
Proof.
  intros H s Hs. specialize (H s Hs). destruct (m s) as [[a|e] s1]; exact H.
Qed.

Lemma preserves_triple {A : Type} (P : State -> Prop) (m : M A) :
  triple P m (fun _ => P) P -> preserves P m.
Proof.
  intros H s Hs. specialize (H s Hs). destruct (m s) as [[a|e] s1]; exact H.
Qed.

Lemma triple_weaken {A : Type} (P P' : State -> Prop) (m : M A)
  (Q : A -> State -> Prop) (E : State -> Prop) :
  (forall s, P' s -> P s) -> triple P m Q E -> triple P' m Q E.
Proof. intros HP H s Hs. apply H. apply HP. exact Hs. Qed.

Lemma mapSet_has_key {A : Type} (k : string) (a : A) (m : list (string * A)) :
  In k (map fst (mapSet k a m)).
Proof.
  induction m as [|[k0 b] m IH]; simpl; [left; reflexivity|].
  destruct (k0 =? k); simpl; [left; reflexivity|right; exact IH].
Qed.

Lemma issued_later (k : string) (n n' : nat) :
  n <= n' -> (exists i, i < n /\ k = uuidv4 i) -> exists i, i < n' /\ k = uuidv4 i.
Proof. intros Hle [i [Hi He]]. exists i. split; [lia|exact He]. Qed.

Lemma quiet_bindings : quiet bindingsOk.
Proof.
  intros s s' _ _ Hc Hn H. unfold bindingsOk in *. rewrite Hc, Hn. exact H.
Qed.

Lemma newUuid_bindings : preserves bindingsOk newUuid.
Proof.
  intros s [Hnd Hk]. split; [exact Hnd|]. intros k Hin. simpl in *.
  apply (issued_later k (uuidCalls s)); [lia|]. apply Hk. exact Hin.
Qed.

Lemma setUsers_bindings (f : State -> list (string * User)) :
  preserves bindingsOk (modify (fun s => setUsers (f s) s)).
Proof. intros s H. exact H. Qed.

Lemma saveMessage_bindings (m : jsval) :
  preserves bindingsOk (RmiMiddleware.saveMessage m).
Proof. intros s H. rewrite saveMessage_run. exact H. Qed.

Lemma touch_bindings (uid t : string) : preserves bindingsOk (RmiMiddleware.touch uid t).
Proof.
  intros s H. unfold RmiMiddleware.touch, modify. simpl.
  destruct (assoc uid (users s)); exact H.
Qed.

(** Deleting a binding keeps the bindings well formed. *)
Lemma unbind_bindings (v : jsval) :
  preserves bindingsOk
    (modify (fun s => setConnections (mapDeleteV v (activeConnections s)) s)).
Proof.
  intros s [Hnd Hk]. unfold modify. destruct v; try (split; assumption).
  split; simpl.
  - apply mapDelete_keys. exact Hnd.
  - intros k Hin. apply Hk. exact (mapDelete_keys_subset _ _ _ Hin).
Qed.

#[local] Hint Resolve quiet_bindings newUuid_bindings setUsers_bindings saveMessage_bindings
  touch_bindings unbind_bindings : pres.

Lemma registerUser_bindings (v : jsval) :
  preserves bindingsOk (SocketHandler.registerUser v).
Proof.
  unfold SocketHandler.registerUser, RmiMiddleware.registerUser,
    RmiMiddleware.createSystemMessage. pres_ops.
Qed.

Lemma sendMessage_bindings (v : jsval) :
  preserves bindingsOk (SocketHandler.sendMessage v).
Proof. unfold SocketHandler.sendMessage, RmiMiddleware.sendMessage. pres_ops. Qed.

Lemma sendPrivateMessage_bindings (v : jsval) :
  preserves bindingsOk (RmiMiddleware.sendPrivateMessage SocketHandler.onChatEvent v).
Proof. unfold RmiMiddleware.sendPrivateMessage. pres_ops. Qed.

Lemma disconnectUser_bindings (v : jsval) :
  preserves bindingsOk (SocketHandler.disconnectUser v).
Proof.
  unfold SocketHandler.disconnectUser, RmiMiddleware.disconnectUser,
    RmiMiddleware.createSystemMessage. pres_ops.
Qed.

Lemma changes_registryOk {A : Type} (m : M A) :
  changesRegistry m -> preserves registryOk m.
Proof.
  intros Hc s Hs. apply (registryChange_ok (uuidv4 (uuidCalls s)) s); [exact Hs|apply Hc].
Qed.

(** A computation that changes the registry in one of the ways of
    [registryChange] and keeps the ids issued and the bindings well formed
    keeps the three together. *)
Lemma session_parts {A : Type} (m : M A) :
  changesRegistry m -> preserves idsIssued m -> preserves bindingsOk m ->
  preserves sessionOk m.
Proof.
  intros Hc Hi Hb s [Hr [Hs Hk]]. split; [|split].
  - apply (changes_registryOk m Hc s Hr).
  - apply Hi. exact Hs.
  - apply Hb. exact Hk.
Qed.

Lemma quiet_session : quiet sessionOk.
Proof.
  intros s s' Hu Hh Hc Hn [Hr [Hi Hb]]. split; [|split].
  - unfold registryOk in *. rewrite Hu. exact Hr.
  - apply (quiet_issued s); assumption.
  - apply (quiet_bindings s); assumption.
Qed.

Lemma registerUser_session (v : jsval) : preserves sessionOk (SocketHandler.registerUser v).
Proof.
  apply session_parts;
    [apply registerUser_changes|apply registerUser_issued|apply registerUser_bindings].
Qed.

Lemma sendMessage_session (v : jsval) : preserves sessionOk (SocketHandler.sendMessage v).
Proof.
  apply session_parts;
    [apply sendMessage_changes|apply sendMessage_issued|apply sendMessage_bindings].
Qed.

Lemma sendPrivateMessage_session (v : jsval) :
  preserves sessionOk (RmiMiddleware.sendPrivateMessage SocketHandler.onChatEvent v).
Proof.
  apply session_parts;
    [apply sendPrivateMessage_changes|apply sendPrivateMessage_issued
    |apply sendPrivateMessage_bindings].
Qed.

Lemma disconnectUser_session (v : jsval) :
  preserves sessionOk (SocketHandler.disconnectUser v).
Proof.
  apply session_parts;
    [apply disconnectUser_changes|apply disconnectUser_issued
    |apply disconnectUser_bindings].
Qed.

Lemma unbind_session (v : jsval) :
  preserves sessionOk
    (modify (fun s => setConnections (mapDeleteV v (activeConnections s)) s)).
Proof.
  intros s [Hr [Hi Hb]]. split; [exact Hr|]. split; [exact Hi|].
  apply unbind_bindings. exact Hb.
Qed.

(** A registration that returns, returns the id of a registered user. *)
Lemma registerUser_registered (v : jsval) :
  triple sessionOk (SocketHandler.registerUser v)
    (fun r s => sessionOk s /\ In (RmiMiddleware.r_userId r) (map fst (users s)))
    sessionOk.
Proof.
  intros s Hs. pose proof (registerUser_session v s Hs) as Hpres.
  destruct v as [| |n|ps|items]; try exact Hs.
  destruct (String.eqb_spec (trim n) "") as [Ht|Ht].
  - rewrite (registerUser_blank n s Ht). exact Hs.
  - destruct (nameClash s n) eqn:Hc.
    + rewrite (registerUser_conflict n s Ht Hc). exact Hs.
    + rewrite (registerUser_fresh n s Ht Hc) in *. unfold emit in *.
      destruct (RmiMiddleware.messageToXml (joinMessageOf n (S (dateCalls s))));
        [|exact Hpres].
      split; [exact Hpres|]. simpl. apply mapSet_has_key.
Qed.

Lemma existsb_registered (uid : string) (s : State) :
  registryOk s ->
  existsb (fun user => userId user =? uid) (mapValues (users s)) = true ->
  In uid (map fst (users s)).
Proof.
  intros [_ [_ [Hk _]]] H. apply existsb_exists in H. destruct H as [u [Hin Hu]].
  apply String.eqb_eq in Hu. destruct (values_entries _ _ Hin) as [k Hke].
  rewrite <- Hu, (Hk k u Hke). apply (in_map fst) in Hke. exact Hke.
Qed.

(** Binding the id of a registered user keeps the bindings well formed:
    the id was issued. *)
Lemma bind_session (uid : string) (ws : WebSocket) (s : State) :
  sessionOk s -> In uid (map fst (users s)) ->
  sessionOk (setConnections (mapSet uid ws (activeConnections s)) s).
Proof.
  intros [Hr [Hi [Hnd Hk]]] Hin. split; [exact Hr|]. split; [exact Hi|]. split; simpl.
  - apply mapSet_keys. exact Hnd.
  - intros k Hkin. apply in_map_iff in Hkin. destruct Hkin as [[k0 w] [Hk0 Hkin]].
    simpl in Hk0. subst k0. apply mapSet_entries_cases in Hkin.
    destruct Hkin as [Hkin|Hkin]; [injection Hkin as -> _; exact (Hi uid Hin)|].
    apply Hk. apply (in_map fst) in Hkin. exact Hkin.
Qed.

Lemma welcome_session (ws : WebSocket) (uid : string) :
  triple (fun s => sessionOk s /\ In uid (map fst (users s)))
    (SocketHandler.welcome ws uid) (fun _ => sessionOk) sessionOk.
Proof.
  unfold SocketHandler.welcome, SocketHandler.detached.
  eapply triple_bind with (R := fun _ s => sessionOk s).
  - intros s [Hs Hin]. apply bind_session; assumption.
  - intros _. apply triple_preserves. pres_ops.
Qed.

Lemma handleJoin_session (ws : WebSocket) (m : jsval) :
  preserves sessionOk (SocketHandler.handleJoin ws m).
Proof.
  apply preserves_triple. unfold SocketHandler.handleJoin.
  apply triple_bind with
    (R := fun joined s =>
            sessionOk s /\
            match joined with
            | Some (uid, _) => In uid (map fst (users s))
            | None => True
            end).
  - assert (Hreg : forall (P : State -> Prop),
              (forall s, P s -> sessionOk s) ->
              triple P
                (result <- SocketHandler.registerUser (get m "username") ;;
                 ret (Some (RmiMiddleware.r_userId result,
                            assign m "userId" (JStr (RmiMiddleware.r_userId result)))))
                (fun joined s =>
                   sessionOk s /\
                   match joined with
                   | Some (uid, _) => In uid (map fst (users s))
                   | None => True
                   end) sessionOk).
    { intros P HP. apply (triple_weaken sessionOk); [exact HP|].
      eapply triple_bind; [apply registerUser_registered|].
      intros r. apply triple_ret. intros s H. exact H. }
    destruct (truthy (get m "userId") && negb (isStr (get m "userId") "system")).
    + intros s Hs. unfold bind at 1. unfold RmiMiddleware.getUsers, gets at 1.
      destruct (get m "userId") as [| |uid|ps|items];
        try (apply (Hreg sessionOk); [intros ? H; exact H|exact Hs]).
      destruct (existsb (fun user => userId user =? uid) (mapValues (users s))) eqn:Hex.
      * split; [exact Hs|]. apply existsb_registered; [apply Hs|exact Hex].
      * apply (Hreg sessionOk); [intros ? H; exact H|exact Hs].
    + intros s Hs. unfold bind at 1. unfold RmiMiddleware.getUsers, gets at 1.
      unfold bind at 1. unfold liftO at 1.
      destruct (SocketHandler.usernameExists (mapValues (users s)) (get m "username"))
        as [[|]|e]; [| |exact Hs].
      * unfold bind at 1. unfold newDate at 1.
        unfold bind at 1. unfold liftO at 1.
        match goal with |- context [RmiMiddleware.messageToXml ?x] =>
          destruct (RmiMiddleware.messageToXml x) end;
          unfold bind, wsSend, modify, ret; cbn [fst snd];
          try (split; [|exact I]);
          apply (quiet_session s); try reflexivity; exact Hs.
      * apply (Hreg sessionOk); [intros ? H; exact H|exact Hs].
  - intros [[uid m']|].
    + eapply triple_bind with (R := fun _ s => sessionOk s).
      * apply welcome_session.
      * intros _. apply triple_ret. intros s Hs. exact Hs.
    + apply triple_ret. intros s [Hs _]. exact Hs.
Qed.

#[local] Hint Resolve quiet_session registerUser_session sendMessage_session
  sendPrivateMessage_session disconnectUser_session unbind_session
  handleJoin_session : pres.

Lemma onMessage_session (ws : WebSocket) (v : jsval) (data : string) :
  preserves sessionOk (SocketHandler.onMessage ws v data).
Proof. unfold SocketHandler.onMessage. pres_ops. Qed.

Lemma onClose_session (v : jsval) : preserves sessionOk (SocketHandler.onClose v).
Proof. unfold SocketHandler.onClose. pres_ops. Qed.

(** X4.  In every run of a server started empty, no id is bound to two
    handles and every bound id is one that the generator has returned: a
    handle is never bound to an id that the server did not issue, whatever
    id a JOIN frame carries. *)
Theorem bindings_always_well_formed :
  forall (open : list WebSocket) (evs : list event),
    bindingsOk (runEvents evs (initialState open)).
Proof.
  intros open evs.
  assert (H0 : sessionOk (initialState open)).
  { unfold sessionOk, registryOk, idsIssued, bindingsOk. simpl.
    repeat split; try constructor; intros; contradiction. }
  assert (H : sessionOk (runEvents evs (initialState open))); [|apply H].
  revert H0. unfold runEvents. generalize (initialState open).
  induction evs as [|ev evs IH]; intros s Hs; simpl; [exact Hs|].
  apply IH. destruct ev as [ws v data|v|n|o]; unfold runEvent, exec.
  - apply onMessage_session. exact Hs.
  - apply onClose_session. exact Hs.
  - apply registerUser_session. exact Hs.
  - exact Hs.
Qed.

End Preservation.

(* ================================================================== *)
(** ** The other paths of the session protocol                         *)
(* ================================================================== *)

Section Paths.

Context {rt : Runtime}.

Import SocketHandler.

(** A frame whose processing throws [e] is answered by the [catch] block;
    when the builder accepts the reply, the reply is written and the
    handler returns. *)
Lemma caught (ws : WebSocket) (connUserId : jsval) (data : string) (e : error) (s : State) :
  onMessage ws connUserId data s = catchBlock ws connUserId e s ->
  onMessage ws connUserId data s = catchBlock ws connUserId e s /\
  (encodes (errorReply e (dateCalls s)) ->
   onMessage ws connUserId data s = (Ok connUserId, replied ws e s)).
Proof.
  intros H. split; [exact H|].
  intros He. rewrite H. apply catchBlock_ok. exact He.
Qed.

(** X6.  The only exceptions that leave a handler are exceptions of the
    builder.  When the ['message'] handler throws, the body had thrown,
    and what leaves the handler is the exception that the builder threw
    for the reply of the [catch] block; whatever the body throws
    otherwise (a frame that does not decode, a field that is missing, a
    user that is not registered) is caught.  When the ['close'] handler
    throws, the user of the connection was registered and what leaves is
    the exception that the builder threw for the LEAVE message. *)
Theorem handlers_throw_only_builder_errors :
  forall (ws : WebSocket) (connUserId : jsval) (data : string) (s : State) (e : error),
    (result (onMessage ws connUserId data) s = Throw e ->
     exists (e0 : error) (n : nat),
       RmiMiddleware.messageToXml (errorReply e0 n) = Throw e) /\
    (result (onClose connUserId) s = Throw e ->
     exists user : User,
       mapGet connUserId (users s) = Some user /\
       RmiMiddleware.messageToXml (leaveMessageOf (username user) (dateCalls s)) = Throw e).
Proof.
  intros ws connUserId data s e. split.
  - unfold result, onMessage, tryCatch.
    match goal with |- context [let (o, s') := ?body s in _] =>
      destruct (body s) as [[a|e0] s1] end.
    + cbn [fst]. discriminate.
    + rewrite catchBlock_run. intros H. exists e0, (dateCalls s1).
      destruct (RmiMiddleware.messageToXml (errorReply e0 (dateCalls s1)));
        cbn [fst] in H; [discriminate|]. congruence.
  - unfold result, onClose. destruct (truthy connUserId); [|cbn [fst ret]; discriminate].
    unfold bind at 1. unfold modify at 1. unfold bind at 1.
    destruct (mapGet connUserId (users s)) as [user|] eqn:Hg.
    + destruct (mapGet_string _ _ _ Hg) as [uid [-> Ha]].
      match goal with |- context [disconnectUser _ ?st] =>
        rewrite (disconnectUser_run uid user st Ha) end.
      unfold emit. cbn [dateCalls setConnections].
      intros H. exists user. split; [reflexivity|].
      destruct (RmiMiddleware.messageToXml (leaveMessageOf (username user) (dateCalls s)));
        cbn [fst] in H; [discriminate|]. congruence.
    + match goal with |- context [disconnectUser ?v ?st] =>
        rewrite (disconnectUser_unknown v st Hg) end.
      cbn [fst ret]. discriminate.
Qed.


(** X8.  LOGOUT on a connection whose variable holds no user, and the close
    of such a connection, do nothing. *)
Theorem no_user_no_effect :
  forall (ws : WebSocket) (connUserId : jsval) (data : string)
         (message : jsval) (s : State),
    truthy connUserId = false ->
    RmiMiddleware.xmlToMessage data = Ok message ->
    isStr (get message "type") "LOGOUT" = true ->
    onMessage ws connUserId data s = (Ok connUserId, s) /\
    onClose connUserId s = (Ok tt, s).
Proof.
  intros ws connUserId data message s Hf Hx Hty. split.
  - unfold onMessage, tryCatch.
    unfold bind at 1. unfold liftO at 1. rewrite Hx.
    unfold bind at 1. unfold liftO at 1. rewrite (prop_get _ _ _ Hty).
    rewrite (isStr_eq _ _ Hty). cbn [isStr String.eqb Ascii.eqb Bool.eqb andb].
    rewrite Hf. reflexivity.
  - unfold onClose. rewrite Hf. reflexivity.
Qed.

(** X9.  The close of a connection whose user is no longer registered only
    deletes the binding of that id: no LEAVE message is saved or sent. *)
Theorem close_of_removed_user :
  forall (connUserId : jsval) (s : State),
    truthy connUserId = true ->
    mapGet connUserId (users s) = None ->
    onClose connUserId s =
    (Ok tt, setConnections (mapDeleteV connUserId (activeConnections s)) s).
Proof.
  intros v s Ht Hg. unfold onClose. rewrite Ht.
  unfold bind at 1. unfold modify at 1.
  unfold bind at 1. rewrite disconnectUser_unknown by exact Hg. reflexivity.
Qed.

(** X10.  A JOIN frame without usable id whose name is in use (up to
    case).  The reply of kind ERROR is encoded inside [handleJoin]: when
    the builder accepts it, the connection gets that one frame, nothing
    else is written, and registry, history, bindings and the id counter
    stay as they were; the connection's variable takes the id of the
    frame, which is not usable.  When the builder throws, the [catch]
    block runs, with nothing written and the clock read once. *)
Theorem join_with_taken_name :
  forall (ws : WebSocket) (connUserId : jsval) (data : string)
         (message : jsval) (n : string) (s : State),
    RmiMiddleware.xmlToMessage data = Ok message ->
    isStr (get message "type") "JOIN" = true ->
    truthy (get message "userId") && negb (isStr (get message "userId") "system") = false ->
    get message "username" = JStr n ->
    nameClash s n = true ->
    (encodes (nameErrorFrame (dateCalls s)) ->
     onMessage ws connUserId data s =
     (Ok (get message "userId"),
      mkState (users s) (messageHistory s) (activeConnections s) (openSockets s)
        (sent s ++ [(ws, encoded (nameErrorFrame (dateCalls s)))])
        (uuidCalls s) (S (dateCalls s)))) /\
    (forall e : error,
        RmiMiddleware.messageToXml (nameErrorFrame (dateCalls s)) = Throw e ->
        onMessage ws connUserId data s = catchBlock ws connUserId e (ticked s)).
Proof.
  intros ws connUserId data message n s Hx Hty Hid Hn Hc.
  assert (Hrun : onMessage ws connUserId data s =
                 match RmiMiddleware.messageToXml (nameErrorFrame (dateCalls s)) with
                 | Ok xml =>
                     (Ok (get message "userId"),
                      mkState (users s) (messageHistory s) (activeConnections s)
                        (openSockets s) (sent s ++ [(ws, xml)])
                        (uuidCalls s) (S (dateCalls s)))
                 | Throw e => catchBlock ws connUserId e (ticked s)
                 end);
    [|split; [intros He; rewrite Hrun, He; reflexivity
             |intros e He; rewrite Hrun, He; reflexivity]].
  unfold onMessage, tryCatch.
  unfold bind at 1. unfold liftO at 1. rewrite Hx.
  unfold bind at 1. unfold liftO at 1. rewrite (prop_get _ _ _ Hty), Hty.
  unfold bind at 1. unfold handleJoin. rewrite Hid, Hn.
  unfold bind at 1. unfold bind at 1. unfold RmiMiddleware.getUsers, gets at 1.
  unfold bind at 1. unfold liftO at 1.
  assert (Hex : usernameExists (mapValues (users s)) (JStr n) = Ok true).
  { unfold usernameExists. unfold nameClash in Hc.
    destruct (mapValues (users s)); [discriminate Hc|]. rewrite Hc. reflexivity. }
  rewrite Hex.
  unfold bind at 1. unfold newDate at 1.
  unfold bind at 1. unfold liftO at 1.
  change (RmiMiddleware.messageToXml
            (JObj [("userId", JStr "system"); ("username", JStr "Sistema");
                   ("content", JStr nameErrorText);
                   ("timestamp", JStr (isoDate (dateCalls s)));
                   ("type", JStr "ERROR")]))
    with (RmiMiddleware.messageToXml (nameErrorFrame (dateCalls s))).
  destruct (RmiMiddleware.messageToXml (nameErrorFrame (dateCalls s))); reflexivity.
Qed.

End Paths.

(* ================================================================== *)
(** ** Joining                                                         *)
(* ================================================================== *)

Section Joining.

Context {rt : Runtime}.

Import SocketHandler.

(** A JOIN whose id is not registered is a registration like any other. *)
Lemma handleJoin_stale (ws : WebSocket) (message : jsval) (uid n : string) (s : State) :
  get message "userId" = JStr uid ->
  uid <> "" ->
  uid <> "system" ->
  existsb (fun user => userId user =? uid) (mapValues (users s)) = false ->
  get message "username" = JStr n ->
  handleJoin ws message s =
  match registerUser (JStr n) s with
  | (Ok r, s1) =>
      bind (welcome ws (RmiMiddleware.r_userId r))
        (fun _ => ret (assign message "userId" (JStr (RmiMiddleware.r_userId r)))) s1
  | (Throw e, s1) => (Throw e, s1)
  end.
Proof.
  intros Hu Hne Hsys Hex Hn. unfold handleJoin.
  rewrite Hu, (truthy_nonempty uid Hne), (isStr_false_system uid Hsys). cbn [negb andb].
  unfold bind at 1. unfold bind at 1. unfold RmiMiddleware.getUsers, gets at 1.
  rewrite Hex, Hn.
  unfold bind at 1.
  destruct (registerUser (JStr n) s) as [[r|e] s1]; reflexivity.
Qed.

(** A JOIN frame that leads to a registration under a name that passes the
    checks: [registerUser], then [welcome] under the new id, and the
    [catch] block when either throws. *)
Lemma onMessage_registers (ws : WebSocket) (connUserId : jsval) (data : string)
  (message : jsval) (n : string) (s : State) :
  RmiMiddleware.xmlToMessage data = Ok message ->
  isStr (get message "type") "JOIN" = true ->
  (truthy (get message "userId") && negb (isStr (get message "userId") "system") = false \/
   exists uid, get message "userId" = JStr uid /\ uid <> "" /\ uid <> "system" /\
               existsb (fun user => userId user =? uid) (mapValues (users s)) = false) ->
  get message "username" = JStr n ->
  trim n <> "" ->
  nameClash s n = false ->
  onMessage ws connUserId data s =
  match registerUser (JStr n) s with
  | (Ok _, s1) =>
      match welcome ws (uuidv4 (uuidCalls s)) s1 with
      | (Ok _, s2) => (Ok (JStr (uuidv4 (uuidCalls s))), s2)
      | (Throw e, s2) => catchBlock ws connUserId e s2
      end
  | (Throw e, s1) => catchBlock ws connUserId e s1
  end.
Proof.
  intros Hx Hty Hid Hn Ht Hc.
  assert (Hj : handleJoin ws message s =
               match registerUser (JStr n) s with
               | (Ok _, s1) =>
                   bind (welcome ws (uuidv4 (uuidCalls s)))
                     (fun _ => ret (assign message "userId" (JStr (uuidv4 (uuidCalls s))))) s1
               | (Throw e, s1) => (Throw e, s1)
               end).
  { destruct Hid as [Hid|[uid [Hu [Hne [Hsys Hex]]]]].
    - apply (handleJoin_first ws message n s Hid Hn Ht Hc).
    - rewrite (handleJoin_stale ws message uid n s Hu Hne Hsys Hex Hn).
      rewrite (registerUser_fresh n s Ht Hc). unfold emit.
      destruct (RmiMiddleware.messageToXml (joinMessageOf n (S (dateCalls s))));
        reflexivity. }
  unfold onMessage, tryCatch.
  unfold bind at 1. unfold liftO at 1. rewrite Hx.
  unfold bind at 1. unfold liftO at 1. rewrite (prop_get _ _ _ Hty), Hty.
  unfold bind at 1. rewrite Hj.
  destruct (registerUser (JStr n) s) as [[r|e] s1]; [|reflexivity].
  unfold bind at 1.
  destruct (welcome ws (uuidv4 (uuidCalls s)) s1) as [[[]|e] s2]; [|reflexivity].
  unfold ret. destruct (typed_is_object _ _ _ Hty) as [ps Hps].
  rewrite (get_assign_same message ps "userId" _ Hps). reflexivity.
Qed.

(** Whatever the builder does with the frames of such a join, the user is
    stored under the new id and the JOIN message is saved. *)
Lemma onMessage_registers_store (ws : WebSocket) (connUserId : jsval) (data : string)
  (message : jsval) (n : string) (s : State) :
  RmiMiddleware.xmlToMessage data = Ok message ->
  isStr (get message "type") "JOIN" = true ->
  (truthy (get message "userId") && negb (isStr (get message "userId") "system") = false \/
   exists uid, get message "userId" = JStr uid /\ uid <> "" /\ uid <> "system" /\
               existsb (fun user => userId user =? uid) (mapValues (users s)) = false) ->
  get message "username" = JStr n ->
  trim n <> "" ->
  nameClash s n = false ->
  users (exec (onMessage ws connUserId data) s) =
    mapSet (uuidv4 (uuidCalls s))
      (mkUser (uuidv4 (uuidCalls s)) n (isoDate (dateCalls s))) (users s) /\
  messageHistory (exec (onMessage ws connUserId data) s) =
    pushCapped (messageHistory s) (joinMessageOf n (S (dateCalls s))) /\
  uuidCalls (exec (onMessage ws connUserId data) s) = S (uuidCalls s).
Proof.
  intros Hx Hty Hid Hn Ht Hc. unfold exec.
  rewrite (onMessage_registers ws connUserId data message n s Hx Hty Hid Hn Ht Hc).
  destruct (registerUser_stores n s Ht Hc) as [Ru [Rh [_ Ri]]]. unfold exec in Ru, Rh, Ri.
  destruct (registerUser (JStr n) s) as [[r|e] s1]; cbn [snd] in *.
  - destruct (welcome_store ws (uuidv4 (uuidCalls s)) s1) as [Wu [Wh [_ Wi]]].
    destruct (welcome ws (uuidv4 (uuidCalls s)) s1) as [[[]|e] s2]; cbn [snd] in *.
    + rewrite Wu, Wh, Wi. repeat split; assumption.
    + destruct (catchBlock_store ws connUserId e s2) as [Cu [Ch [_ Ci]]].
      rewrite Cu, Ch, Ci, Wu, Wh, Wi. repeat split; assumption.
  - destruct (catchBlock_store ws connUserId e s1) as [Cu [Ch [_ Ci]]].
    rewrite Cu, Ch, Ci. repeat split; assumption.
Qed.

(** When the builder accepts every message of the join, the handler
    returns the new id, in the state [joinedState]. *)
Lemma onMessage_registers_ok (ws : WebSocket) (connUserId : jsval) (data : string)
  (message : jsval) (n : string) (s : State) :
  RmiMiddleware.xmlToMessage data = Ok message ->
  isStr (get message "type") "JOIN" = true ->
  (truthy (get message "userId") && negb (isStr (get message "userId") "system") = false \/
   exists uid, get message "userId" = JStr uid /\ uid <> "" /\ uid <> "system" /\
               existsb (fun user => userId user =? uid) (mapValues (users s)) = false) ->
  get message "username" = JStr n ->
  trim n <> "" ->
  nameClash s n = false ->
  Forall encodes (joinMessages n s) ->
  onMessage ws connUserId data s =
  (Ok (JStr (uuidv4 (uuidCalls s))), joinedState ws n s).
Proof.
  intros Hx Hty Hid Hn Ht Hc Hall.
  rewrite (onMessage_registers ws connUserId data message n s Hx Hty Hid Hn Ht Hc).
  destruct (join_run ws n s Ht Hc Hall) as [Hr Hw].
  rewrite Hr, Hw. reflexivity.
Qed.

Lemma assoc_mapSet_other {A : Type} (k k' : string) (a : A) (m : list (string * A)) :
  k <> k' -> assoc k (mapSet k' a m) = assoc k m.
Proof.
  intros Hd. induction m as [|[k0 w] m IH]; simpl.
  - destruct (String.eqb_spec k' k); [congruence|reflexivity].
  - destruct (String.eqb_spec k0 k') as [->|Hk]; simpl.
    + destruct (String.eqb_spec k' k); [congruence|reflexivity].
    + destruct (String.eqb_spec k0 k); [reflexivity|exact IH].
Qed.

(** X11.  A JOIN frame that carries an id which no registered user has is
    treated as a first join.  Whatever the builder does with the frames,
    a user with the name of the frame is registered under a new id and
    nothing is stored under the id of the frame.  When the builder
    accepts every message of the join, the handler returns, the
    connection is bound to the new id and its variable takes it, and
    nothing is bound under the id of the frame. *)
Theorem join_with_stale_id :
  forall (ws : WebSocket) (connUserId : jsval) (data : string)
         (message : jsval) (uid n : string) (s : State),
    RmiMiddleware.xmlToMessage data = Ok message ->
    isStr (get message "type") "JOIN" = true ->
    get message "userId" = JStr uid ->
    uid <> "" ->
    uid <> "system" ->
    existsb (fun user => userId user =? uid) (mapValues (users s)) = false ->
    get message "username" = JStr n ->
    trim n <> "" ->
    nameClash s n = false ->
    users (exec (onMessage ws connUserId data) s) =
      mapSet (uuidv4 (uuidCalls s))
        (mkUser (uuidv4 (uuidCalls s)) n (isoDate (dateCalls s))) (users s) /\
    (uid <> uuidv4 (uuidCalls s) ->
     assoc uid (users (exec (onMessage ws connUserId data) s)) = assoc uid (users s)) /\
    (Forall encodes (joinMessages n s) ->
     onMessage ws connUserId data s =
       (Ok (JStr (uuidv4 (uuidCalls s))), joinedState ws n s) /\
     assoc (uuidv4 (uuidCalls s)) (activeConnections (joinedState ws n s)) = Some ws /\
     (uid <> uuidv4 (uuidCalls s) ->
      assoc uid (activeConnections (joinedState ws n s)) =
      assoc uid (activeConnections s))).
Proof.
  intros ws connUserId data message uid n s Hx Hty Hu Hne Hsys Hex Hn Ht Hc.
  assert (Hid : truthy (get message "userId") &&
                negb (isStr (get message "userId") "system") = false \/
                exists uid, get message "userId" = JStr uid /\ uid <> "" /\
                  uid <> "system" /\
                  existsb (fun user => userId user =? uid) (mapValues (users s)) = false).
  { right. exists uid. repeat split; assumption. }
  destruct (onMessage_registers_store ws connUserId data message n s Hx Hty Hid Hn Ht Hc)
    as [Su _].
  split; [exact Su|]. split.
  - intros Hd. rewrite Su. apply assoc_mapSet_other. exact Hd.
  - intros Hall. split; [|split].
    + apply (onMessage_registers_ok ws connUserId data message n s Hx Hty Hid Hn Ht Hc Hall).
    + apply assoc_mapSet_same.
    + intros Hd. cbn [joinedState activeConnections]. apply assoc_mapSet_other. exact Hd.
Qed.

(** X12.  A first JOIN (no usable id, free name).  Whatever the builder
    does with the frames, the user is registered under a new id and the
    JOIN message is saved.  When the builder accepts every message of the
    join, the handler returns, the user is bound, the connection's
    variable takes the new id, and the frames are, in order, the JOIN
    message to the handles bound before, the confirmation with the new
    id, the replay, and the roster, which already lists the new user, to
    every OPEN bound handle including the new one. *)
Theorem first_join :
  forall (ws : WebSocket) (connUserId : jsval) (data : string)
         (message : jsval) (n : string) (s : State),
    RmiMiddleware.xmlToMessage data = Ok message ->
    isStr (get message "type") "JOIN" = true ->
    truthy (get message "userId") && negb (isStr (get message "userId") "system") = false ->
    get message "username" = JStr n ->
    trim n <> "" ->
    nameClash s n = false ->
    users (exec (onMessage ws connUserId data) s) =
      mapSet (uuidv4 (uuidCalls s))
        (mkUser (uuidv4 (uuidCalls s)) n (isoDate (dateCalls s))) (users s) /\
    messageHistory (exec (onMessage ws connUserId data) s) =
      pushCapped (messageHistory s) (joinMessageOf n (S (dateCalls s))) /\
    In (mkUser (uuidv4 (uuidCalls s)) n (isoDate (dateCalls s)))
       (mapValues (users (exec (onMessage ws connUserId data) s))) /\
    get (joinResponse (uuidv4 (uuidCalls s)) (S (S (dateCalls s)))) "clientId" =
      JStr (uuidv4 (uuidCalls s)) /\
    (Forall encodes (joinMessages n s) ->
     onMessage ws connUserId data s =
       (Ok (JStr (uuidv4 (uuidCalls s))), joinedState ws n s) /\
     sent (joinedState ws n s) = sent s ++ joinFrames ws n s /\
     assoc (uuidv4 (uuidCalls s)) (activeConnections (joinedState ws n s)) = Some ws).
Proof.
  intros ws connUserId data message n s Hx Hty Hid Hn Ht Hc.
  destruct (onMessage_registers_store ws connUserId data message n s Hx Hty
              (or_introl Hid) Hn Ht Hc) as [Su [Sh _]].
  split; [exact Su|]. split; [exact Sh|].
  split; [rewrite Su; apply mapSet_values_In|]. split; [reflexivity|].
  intros Hall. split; [|split].
  - apply (onMessage_registers_ok ws connUserId data message n s Hx Hty
             (or_introl Hid) Hn Ht Hc Hall).
  - reflexivity.
  - apply assoc_mapSet_same.
Qed.

(** X13.  A JOIN frame with a stale id and a name that is in use: here
    [registerUser] throws and the [catch] block runs in the state in which
    the frame arrived, so the reply is of kind CHAT (not ERROR as on the
    path without id); when the builder accepts the reply it is written,
    the handler returns and nothing else changes. *)
Theorem stale_join_with_taken_name :
  forall (ws : WebSocket) (connUserId : jsval) (data : string)
         (message : jsval) (uid n : string) (s : State),
    RmiMiddleware.xmlToMessage data = Ok message ->
    isStr (get message "type") "JOIN" = true ->
    get message "userId" = JStr uid ->
    uid <> "" ->
    uid <> "system" ->
    existsb (fun user => userId user =? uid) (mapValues (users s)) = false ->
    get message "username" = JStr n ->
    trim n <> "" ->
    nameClash s n = true ->
    onMessage ws connUserId data s =
      catchBlock ws connUserId (Error RmiMiddleware.nameInUseText) s /\
    (encodes (errorReply (Error RmiMiddleware.nameInUseText) (dateCalls s)) ->
     onMessage ws connUserId data s =
       (Ok connUserId, replied ws (Error RmiMiddleware.nameInUseText) s)) /\
    get (errorReply (Error RmiMiddleware.nameInUseText) (dateCalls s)) "type" = JStr "CHAT".
Proof.
  intros ws connUserId data message uid n s Hx Hty Hu Hne Hsys Hex Hn Ht Hc.
  cut (onMessage ws connUserId data s =
       catchBlock ws connUserId (Error RmiMiddleware.nameInUseText) s).
  { intros H. destruct (caught _ _ _ _ _ H) as [H1 H2].
    split; [exact H1|]. split; [exact H2|reflexivity]. }
  unfold onMessage, tryCatch.
  unfold bind at 1. unfold liftO at 1. rewrite Hx.
  unfold bind at 1. unfold liftO at 1. rewrite (prop_get _ _ _ Hty), Hty.
  unfold bind at 1.
  rewrite (handleJoin_stale ws message uid n s Hu Hne Hsys Hex Hn).
  rewrite (registerUser_conflict n s Ht Hc).
  reflexivity.
Qed.

End Joining.

(* ================================================================== *)
(** ** CHAT and PRIVATE frames                                         *)
(* ================================================================== *)

Section ChatFrames.

Context {rt : Runtime}.

Import SocketHandler.

(** [sendPrivateMessage] of the middleware on complete data of two
    registered users: the sender is touched and the message saved, and
    then the listener is called. *)
Lemma sendPrivateMessage_saved (md : jsval) (uid tid : string) (sender receiver : User)
  (s : State) :
  get md "userId" = JStr uid ->
  uid <> "" ->
  get md "targetUserId" = JStr tid ->
  tid <> "" ->
  truthy (get md "content") = true ->
  assoc uid (users s) = Some sender ->
  assoc tid (users s) = Some receiver ->
  let saved := privateMessage uid sender (JStr tid) receiver (get md "content")
                 (dateCalls s) in
  let s0 := privateSaved uid sender (JStr tid) receiver (get md "content") s in
  RmiMiddleware.sendPrivateMessage onChatEvent md s =
  match RmiMiddleware.messageToXml saved with
  | Ok xml =>
      (Ok saved, setSent (sent s ++ toTarget xml tid s ++ echo xml tid uid s) s0)
  | Throw e => (Throw e, s0)
  end.
Proof.
  intros Hu Hne Ht Htne Htc Ha Hr saved s0.
  unfold RmiMiddleware.sendPrivateMessage.
  rewrite Hu, Ht, Htc, (truthy_nonempty uid Hne), (truthy_nonempty tid Htne).
  cbn [negb orb].
  unfold bind at 1. unfold gets at 1. cbn [mapGet]. rewrite Ha.
  unfold bind at 1. unfold gets at 1. rewrite Hr.
  unfold bind at 1. unfold newDate at 1.
  unfold bind at 1. unfold RmiMiddleware.touch at 1. unfold modify at 1.
  cbn [users]. rewrite Ha.
  unfold bind at 1. unfold newDate at 1.
  unfold bind at 1. rewrite saveMessage_run.
  unfold bind at 1. unfold RmiMiddleware.notifyAll.
  rewrite onChatEvent_private by reflexivity.
  match goal with |- context [RmiMiddleware.messageToXml ?m] =>
    change (RmiMiddleware.messageToXml m) with (RmiMiddleware.messageToXml saved) end.
  destruct (RmiMiddleware.messageToXml saved) as [xml|e]; [|reflexivity].
  cbn [get assoc String.eqb Ascii.eqb Bool.eqb].
  rewrite sendPrivateMessage_run. reflexivity.
Qed.

(** X14.  A PRIVATE frame between two registered users: the message that is
    saved carries the ids of the frame and, for both ends, the display
    names of the registry, whatever names the frame carried, and the
    sender's [lastActive] is refreshed, all before the listener is called
    and whatever the builder does then.  When the builder accepts the
    message, the handler returns and the text goes to the target's handle
    and, as an echo, to the sender's, never to a third one.  The id bound
    to the connection that delivered the frame plays no part. *)
Theorem private_frame_delivered :
  forall (ws : WebSocket) (connUserId : jsval) (data : string)
         (message content : jsval) (uid tid : string) (sender receiver : User)
         (s : State),
    RmiMiddleware.xmlToMessage data = Ok message ->
    isStr (get message "type") "PRIVATE" = true ->
    get message "userId" = JStr uid ->
    uid <> "" ->
    get message "targetUserId" = JStr tid ->
    tid <> "" ->
    get message "content" = content ->
    truthy content = true ->
    assoc uid (users s) = Some sender ->
    assoc tid (users s) = Some receiver ->
    let saved := privateMessage uid sender (JStr tid) receiver content (dateCalls s) in
    let xml := encoded saved in
    let s' := exec (onMessage ws connUserId data) s in
    messageHistory s' = pushCapped (messageHistory s) saved /\
    users s' = mapSet uid (mkUser (userId sender) (username sender) (isoDate (dateCalls s)))
                 (users s) /\
    activeConnections s' = activeConnections s /\
    get saved "username" = JStr (username sender) /\
    get saved "targetUsername" = JStr (username receiver) /\
    (encodes saved ->
     result (onMessage ws connUserId data) s = Ok connUserId /\
     sent s' = sent s ++ toTarget xml tid s ++ echo xml tid uid s) /\
    (forall w x, In (w, x) (toTarget xml tid s ++ echo xml tid uid s) ->
       x = xml /\
       (assoc tid (activeConnections s) = Some w \/
        assoc uid (activeConnections s) = Some w)).
Proof.
  intros ws connUserId data message content uid tid sender receiver s
         Hx Hty Hu Hne Ht Htne Hc Htc Ha Hr saved xml s'.
  assert (Hrun : onMessage ws connUserId data s =
                 match RmiMiddleware.messageToXml saved with
                 | Ok x =>
                     (Ok connUserId,
                      setSent (sent s ++ toTarget x tid s ++ echo x tid uid s)
                        (privateSaved uid sender (JStr tid) receiver content s))
                 | Throw e =>
                     catchBlock ws connUserId e
                       (privateSaved uid sender (JStr tid) receiver content s)
                 end).
  { rewrite (onMessage_private ws connUserId data message s Hx Hty).
    rewrite (sendPrivateMessage_saved _ uid tid sender receiver s);
      cbn [get assoc String.eqb Ascii.eqb Bool.eqb andb];
      try rewrite Hc; try assumption.
    fold saved. destruct (RmiMiddleware.messageToXml saved); reflexivity. }
  assert (Hstore : messageHistory s' = pushCapped (messageHistory s) saved /\
                   users s' = mapSet uid (mkUser (userId sender) (username sender)
                                            (isoDate (dateCalls s))) (users s) /\
                   activeConnections s' = activeConnections s).
  { unfold s', exec. rewrite Hrun.
    destruct (RmiMiddleware.messageToXml saved) as [x|e].
    - repeat split; reflexivity.
    - destruct (catchBlock_store ws connUserId e
                  (privateSaved uid sender (JStr tid) receiver content s))
        as [Cu [Ch [Cc _]]].
      rewrite Cu, Ch, Cc. repeat split; reflexivity. }
  destruct Hstore as [Sh [Su Sc]].
  split; [exact Sh|]. split; [exact Su|]. split; [exact Sc|].
  split; [reflexivity|]. split; [reflexivity|]. split.
  - intros He. unfold s', exec, result. rewrite Hrun, He. split; reflexivity.
  - intros w x Hin. apply in_app_or in Hin. destruct Hin as [Hin|Hin].
    + unfold toTarget in Hin.
      destruct (assoc tid (activeConnections s)) as [tws|]; [|destruct Hin].
      destruct (isOpen s tws); [|destruct Hin].
      destruct Hin as [Hin|[]]. inversion Hin; subst. split; [reflexivity|left; reflexivity].
    + unfold echo in Hin.
      destruct (assoc uid (activeConnections s)) as [sws|]; [|destruct Hin].
      destruct (isOpen s sws && negb (uid =? tid)); [|destruct Hin].
      destruct Hin as [Hin|[]]. inversion Hin; subst. split; [reflexivity|right; reflexivity].
Qed.

(** X15.  A PRIVATE frame that is refused: a field is missing or empty, the
    sender is not registered, or the target is not registered.  The
    [catch] block runs with the reason, in the state in which the frame
    arrived: nothing is saved, and the sender's [lastActive] is not
    refreshed even when only the target is unknown.  When the builder
    accepts the reply, the connection gets that one reply and the handler
    returns. *)
Theorem private_frame_refused :
  forall (ws : WebSocket) (connUserId : jsval) (data : string)
         (message : jsval) (s : State),
    RmiMiddleware.xmlToMessage data = Ok message ->
    isStr (get message "type") "PRIVATE" = true ->
    let complete := truthy (get message "userId") &&
                    truthy (get message "targetUserId") &&
                    truthy (get message "content") in
    let refused (e : error) :=
      onMessage ws connUserId data s = catchBlock ws connUserId e s /\
      (encodes (errorReply e (dateCalls s)) ->
       onMessage ws connUserId data s = (Ok connUserId, replied ws e s)) in
    (complete = false -> refused (Error "Datos de mensaje privado incompletos")) /\
    (complete = true ->
     mapGet (get message "userId") (users s) = None ->
     refused (Error "Usuario remitente no encontrado")) /\
    (complete = true ->
     mapGet (get message "userId") (users s) <> None ->
     mapGet (get message "targetUserId") (users s) = None ->
     refused (Error "Usuario destinatario no encontrado")).
Proof.
  intros ws connUserId data message s Hx Hty complete refused.
  unfold complete, refused. clear complete refused.
  split; [|split]; intros; apply caught;
    rewrite (onMessage_private ws connUserId data message s Hx Hty);
    unfold RmiMiddleware.sendPrivateMessage;
    cbn [get assoc String.eqb Ascii.eqb Bool.eqb andb].
  - rename H into Hc.
    assert (Hor : negb (truthy (get message "userId")) ||
                  negb (truthy (get message "targetUserId")) ||
                  negb (truthy (get message "content")) = true).
    { destruct (truthy (get message "userId")), (truthy (get message "targetUserId")),
               (truthy (get message "content")); try reflexivity; discriminate Hc. }
    rewrite Hor. reflexivity.
  - rename H into Hc, H0 into Hs.
    apply andb_true_iff in Hc. destruct Hc as [Hc H3].
    apply andb_true_iff in Hc. destruct Hc as [H1 H2].
    rewrite H1, H2, H3. cbn [negb orb].
    unfold bind at 1. unfold gets at 1. rewrite Hs. reflexivity.
  - rename H into Hc, H0 into Hs, H1 into Ht.
    apply andb_true_iff in Hc. destruct Hc as [Hc H3].
    apply andb_true_iff in Hc. destruct Hc as [H1 H2].
    rewrite H1, H2, H3. cbn [negb orb].
    unfold bind at 1. unfold gets at 1.
    destruct (mapGet (get message "userId") (users s)) as [sender|] eqn:Hg;
      [|exfalso; apply Hs; reflexivity].
    destruct (mapGet_string _ _ _ Hg) as [uid [Hu _]]. rewrite Hu.
    unfold bind at 1. unfold gets at 1. rewrite Ht. reflexivity.
Qed.

(** X16.  A CHAT frame that is refused: the id or the content is missing or
    empty, or the id is not registered.  The [catch] block runs with the
    reason, in the state in which the frame arrived: nothing is saved and
    nobody else is sent anything.  When the builder accepts the reply,
    the connection gets that one reply and the handler returns. *)
Theorem chat_frame_refused :
  forall (ws : WebSocket) (connUserId : jsval) (data : string)
         (message : jsval) (s : State),
    RmiMiddleware.xmlToMessage data = Ok message ->
    isStr (get message "type") "CHAT" = true ->
    let complete := truthy (get message "userId") && truthy (get message "content") in
    let refused (e : error) :=
      onMessage ws connUserId data s = catchBlock ws connUserId e s /\
      (encodes (errorReply e (dateCalls s)) ->
       onMessage ws connUserId data s = (Ok connUserId, replied ws e s)) in
    (complete = false -> refused (Error "Datos de mensaje incompletos")) /\
    (complete = true ->
     mapGet (get message "userId") (users s) = None ->
     refused (Error "Usuario no encontrado")).
Proof.
  intros ws connUserId data message s Hx Hty complete refused.
  unfold complete, refused. clear complete refused.
  split; intros; apply caught;
    rewrite (onMessage_chat ws connUserId data message s Hx Hty);
    unfold sendMessage, RmiMiddleware.sendMessage;
    cbn [get assoc String.eqb Ascii.eqb Bool.eqb andb].
  - rename H into Hc.
    assert (Hor : negb (truthy (get message "userId")) ||
                  negb (truthy (get message "content")) = true).
    { destruct (truthy (get message "userId")), (truthy (get message "content"));
        try reflexivity; discriminate Hc. }
    rewrite Hor. reflexivity.
  - rename H into Hc, H0 into Hs.
    apply andb_true_iff in Hc. destruct Hc as [H1 H2].
    rewrite H1, H2. cbn [negb orb].
    unfold bind at 1. unfold gets at 1. rewrite Hs. reflexivity.
Qed.

End ChatFrames.

(* ================================================================== *)
(** ** Leaving, reconnecting, and the history window                   *)
(* ================================================================== *)

Section Sessions.

Context {rt : Runtime}.

Import SocketHandler.

(** X17.  LOGOUT and the close of the transport remove the user in the same
    way: the registry entry is deleted and the LEAVE message with the
    user's name is saved, before the listener is called and whatever the
    builder does then; the close has deleted the binding before that.
    When the builder accepts the LEAVE message both handlers return and
    LOGOUT deletes the binding as well.  They differ in who is told:
    LOGOUT broadcasts while the binding is still there, so the leaving
    handle is among the receivers when it is OPEN; on close the binding is
    deleted first.  After LOGOUT the connection's variable is null. *)
Theorem logout_and_close :
  forall (ws : WebSocket) (data : string) (message : jsval)
         (uid : string) (user : User) (s : State),
    RmiMiddleware.xmlToMessage data = Ok message ->
    isStr (get message "type") "LOGOUT" = true ->
    uid <> "" ->
    assoc uid (users s) = Some user ->
    let leave := leaveMessageOf (username user) (dateCalls s) in
    let s1 := exec (onMessage ws (JStr uid) data) s in
    let s2 := exec (onClose (JStr uid)) s in
    users s1 = mapDelete uid (users s) /\ users s2 = users s1 /\
    messageHistory s1 = pushCapped (messageHistory s) leave /\
    messageHistory s2 = messageHistory s1 /\
    activeConnections s2 = mapDelete uid (activeConnections s) /\
    (encodes leave ->
     result (onMessage ws (JStr uid) data) s = Ok JNull /\
     result (onClose (JStr uid)) s = Ok tt /\
     activeConnections s1 = mapDelete uid (activeConnections s) /\
     sent s1 = sent s ++ frames (encoded leave) (openHandles s) /\
     sent s2 = sent s ++
       frames (encoded leave)
         (filter (isOpen s) (mapValues (mapDelete uid (activeConnections s))))).
Proof.
  intros ws data message uid user s Hx Hty Hne Ha leave s1 s2.
  pose proof (logout_run ws data message uid user s Hx Hty Hne Ha) as H1.
  pose proof (close_run uid user s Hne Ha) as H2.
  fold leave in H1, H2. unfold emit in H1, H2.
  assert (Hstore : users s1 = mapDelete uid (users s) /\
                   messageHistory s1 = pushCapped (messageHistory s) leave).
  { unfold s1, exec. rewrite H1.
    destruct (RmiMiddleware.messageToXml leave) as [xml|e].
    - split; reflexivity.
    - destruct (catchBlock_store ws (JStr uid) e (removed uid user s)) as [Cu [Ch _]].
      rewrite Cu, Ch. split; reflexivity. }
  assert (Hclose : users s2 = mapDelete uid (users s) /\
                   messageHistory s2 = pushCapped (messageHistory s) leave /\
                   activeConnections s2 = mapDelete uid (activeConnections s)).
  { unfold s2, exec. rewrite H2.
    destruct (RmiMiddleware.messageToXml leave); repeat split; reflexivity. }
  destruct Hstore as [Su Sh]. destruct Hclose as [Cu [Ch Cc]].
  split; [exact Su|]. split; [rewrite Su; exact Cu|].
  split; [exact Sh|]. split; [rewrite Sh; exact Ch|]. split; [exact Cc|].
  intros He. unfold s1, s2, exec, result. rewrite H1, H2, He.
  repeat split; reflexivity.
Qed.

(** X30.  LOGOUT when the builder refuses the LEAVE message.  The user has
    been removed from the registry and the LEAVE message saved when the
    listener throws, so [activeConnections.delete] and [userId = null] are
    not reached: the [catch] block runs, the binding of the id stays, and
    the connection's variable keeps the id.  With a handle bound under the
    id, that handle is then bound to an id that no registered user has.
    The close of such a connection deletes the binding, removes the user
    and throws. *)
Theorem logout_with_refused_leave :
  forall (ws : WebSocket) (data : string) (message : jsval)
         (uid : string) (user : User) (s : State) (e : error),
    RmiMiddleware.xmlToMessage data = Ok message ->
    isStr (get message "type") "LOGOUT" = true ->
    uid <> "" ->
    assoc uid (users s) = Some user ->
    RmiMiddleware.messageToXml (leaveMessageOf (username user) (dateCalls s)) = Throw e ->
    let s1 := exec (onMessage ws (JStr uid) data) s in
    onMessage ws (JStr uid) data s = catchBlock ws (JStr uid) e (removed uid user s) /\
    users s1 = mapDelete uid (users s) /\
    messageHistory s1 =
      pushCapped (messageHistory s) (leaveMessageOf (username user) (dateCalls s)) /\
    activeConnections s1 = activeConnections s /\
    (forall v, result (onMessage ws (JStr uid) data) s = Ok v -> v = JStr uid) /\
    (NoDup (map fst (users s)) ->
     forall w, assoc uid (activeConnections s) = Some w ->
       assoc uid (users s1) = None /\ assoc uid (activeConnections s1) = Some w) /\
    onClose (JStr uid) s =
      (Throw e, removed uid user (setConnections (mapDelete uid (activeConnections s)) s)).
Proof.
  intros ws data message uid user s e Hx Hty Hne Ha He s1.
  assert (Hrun : onMessage ws (JStr uid) data s =
                 catchBlock ws (JStr uid) e (removed uid user s)).
  { rewrite (logout_run ws data message uid user s Hx Hty Hne Ha).
    unfold emit. rewrite He. reflexivity. }
  destruct (catchBlock_store ws (JStr uid) e (removed uid user s)) as [Cu [Ch [Cc _]]].
  assert (Su : users s1 = mapDelete uid (users s))
    by (unfold s1, exec; rewrite Hrun; exact Cu).
  assert (Sc : activeConnections s1 = activeConnections s)
    by (unfold s1, exec; rewrite Hrun; exact Cc).
  split; [exact Hrun|]. split; [exact Su|].
  split; [unfold s1, exec; rewrite Hrun; exact Ch|]. split; [exact Sc|].
  split; [|split].
  - intros v. unfold result. rewrite Hrun, catchBlock_run.
    destruct (RmiMiddleware.messageToXml
                (errorReply e (dateCalls (removed uid user s)))); cbn [fst]; congruence.
  - intros Hnd w Hw. rewrite Su, Sc.
    split; [apply assoc_mapDelete_gone; exact Hnd|exact Hw].
  - rewrite (close_run uid user s Hne Ha). unfold emit. rewrite He. reflexivity.
Qed.

(** X18.  The close handler does not look at which handle is bound.  When a
    registered user reconnects on a new handle and the old connection
    closes afterwards, the close removes the user from the registry and
    deletes the binding that the reconnect had just made: the new handle
    is bound to nothing, and it is not told, because the LEAVE frame, when
    the builder accepts the message, goes to the handles that are still
    bound. *)
Theorem close_after_reconnect :
  forall (ws : WebSocket) (connUserId : jsval) (data : string)
         (message : jsval) (uid : string) (user : User) (s : State),
    RmiMiddleware.xmlToMessage data = Ok message ->
    isStr (get message "type") "JOIN" = true ->
    get message "userId" = JStr uid ->
    uid <> "" ->
    uid <> "system" ->
    assoc uid (users s) = Some user ->
    userId user = uid ->
    let s1 := exec (onMessage ws connUserId data) s in
    let s2 := exec (onClose (JStr uid)) s1 in
    let leave := leaveMessageOf (username user) (dateCalls s1) in
    assoc uid (activeConnections s1) = Some ws /\
    assoc uid (users s1) = Some user /\
    users s2 = mapDelete uid (users s) /\
    activeConnections s2 = mapDelete uid (activeConnections s) /\
    (encodes leave ->
     sent s2 = sent s1 ++
       frames (encoded leave)
         (filter (isOpen s1) (mapValues (mapDelete uid (activeConnections s))))).
Proof.
  intros ws connUserId data message uid user s Hx Hty Hu Hne Hsys Ha Hid s1 s2 leave.
  destruct (onMessage_reconnect_store ws connUserId data message uid s Hx Hty Hu Hne Hsys
              (assoc_existsb uid user (users s) Ha Hid)) as [Su [_ [Sc _]]].
  fold s1 in Su, Sc.
  assert (Ha1 : assoc uid (users s1) = Some user) by (rewrite Su; exact Ha).
  pose proof (close_run uid user s1 Hne Ha1) as H2. fold leave in H2. unfold emit in H2.
  split; [rewrite Sc; apply assoc_mapSet_same|]. split; [exact Ha1|].
  assert (Hclose : users s2 = mapDelete uid (users s1) /\
                   activeConnections s2 = mapDelete uid (activeConnections s1)).
  { unfold s2, exec. rewrite H2.
    destruct (RmiMiddleware.messageToXml leave); split; reflexivity. }
  destruct Hclose as [Cu Cc].
  split; [rewrite Cu, Su; reflexivity|].
  split; [rewrite Cc, Sc; apply mapDelete_mapSet|].
  intros He. unfold s2, exec. rewrite H2, He. cbn [snd sent setSent].
  unfold openHandles. cbn [removed setConnections activeConnections].
  rewrite Sc, mapDelete_mapSet. reflexivity.
Qed.

(** X19.  [getMessageHistory] with a limit that is not positive: a limit of
    zero returns the whole history, not an empty list, and a limit [-k]
    returns the history without its oldest [k] messages. *)
Theorem getMessageHistory_nonpositive_limit :
  forall (limit : Z) (s : State),
    (limit <= 0)%Z ->
    RmiMiddleware.getMessageHistory (Some limit) s =
      (Ok (skipn (Z.to_nat (- limit)) (messageHistory s)), s) /\
    (limit = 0%Z ->
     result (RmiMiddleware.getMessageHistory (Some limit)) s = Ok (messageHistory s)).
Proof.
  intros limit s Hl.
  assert (Hrun : RmiMiddleware.getMessageHistory (Some limit) s =
                 (Ok (skipn (Z.to_nat (- limit)) (messageHistory s)), s)).
  { unfold RmiMiddleware.getMessageHistory, gets, slice.
    set (h := messageHistory s).
    rewrite Z.min_l by lia.
    destruct (Z.ltb_spec (- limit) 0); [lia|].
    destruct (Z.le_gt_cases (- limit) (Z.of_nat (length h))) as [Hle|Hgt].
    - rewrite Z.min_l by lia. reflexivity.
    - rewrite Z.min_r by lia. rewrite Nat2Z.id.
      rewrite skipn_all.
      rewrite skipn_all2 by lia. reflexivity. }
  split; [exact Hrun|].
  intros ->. unfold result. rewrite Hrun. reflexivity.
Qed.

(** X20.  A first JOIN whose name is empty or only white space: the check
    for a name in use passes, [registerUser] refuses the name without
    changing anything, and the [catch] block runs in the state in which
    the frame arrived: nobody is registered or bound.  When the builder
    accepts the reply, the connection gets it and the handler returns. *)
Theorem join_with_blank_name :
  forall (ws : WebSocket) (connUserId : jsval) (data : string)
         (message : jsval) (n : string) (s : State),
    RmiMiddleware.xmlToMessage data = Ok message ->
    isStr (get message "type") "JOIN" = true ->
    truthy (get message "userId") && negb (isStr (get message "userId") "system") = false ->
    get message "username" = JStr n ->
    trim n = "" ->
    nameClash s n = false ->
    registerUser (JStr n) s = (Throw (Error RmiMiddleware.emptyNameText), s) /\
    onMessage ws connUserId data s =
      catchBlock ws connUserId (Error RmiMiddleware.emptyNameText) s /\
    (encodes (errorReply (Error RmiMiddleware.emptyNameText) (dateCalls s)) ->
     onMessage ws connUserId data s =
       (Ok connUserId, replied ws (Error RmiMiddleware.emptyNameText) s)).
Proof.
  intros ws connUserId data message n s Hx Hty Hid Hn Ht Hc.
  assert (Hreg : registerUser (JStr n) s = (Throw (Error RmiMiddleware.emptyNameText), s)).
  { unfold registerUser, RmiMiddleware.registerUser.
    unfold bind at 1. rewrite Ht. rewrite orb_true_r. reflexivity. }
  split; [exact Hreg|]. apply caught.
  unfold onMessage, tryCatch.
  unfold bind at 1. unfold liftO at 1. rewrite Hx.
  unfold bind at 1. unfold liftO at 1. rewrite (prop_get _ _ _ Hty), Hty.
  unfold bind at 1. unfold handleJoin. rewrite Hid, Hn.
  unfold bind at 1. unfold bind at 1. unfold RmiMiddleware.getUsers, gets at 1.
  unfold bind at 1. unfold liftO at 1.
  assert (Hex : usernameExists (mapValues (users s)) (JStr n) = Ok false).
  { unfold usernameExists. unfold nameClash in Hc.
    destruct (mapValues (users s)); [reflexivity|]. rewrite Hc. reflexivity. }
  rewrite Hex.
  unfold bind at 1. rewrite Hreg. reflexivity.
Qed.

(** X21.  A name is free again once its user has left.  In a well-formed
    registry, after the close of the connection of a registered user (or
    after LOGOUT, which leaves the same registry) no stored name clashes
    with the name of the user that left, so [registerUser] does not refuse
    that name: it stores a user with that name under the next id, and it
    returns when the builder accepts the JOIN message. *)
Theorem departure_frees_name :
  forall (uid : string) (user : User) (s : State),
    registryOk s ->
    uid <> "" ->
    assoc uid (users s) = Some user ->
    let s' := exec (onClose (JStr uid)) s in
    assoc uid (users s') = None /\
    nameClash s' (username user) = false /\
    users (exec (registerUser (JStr (username user))) s') =
      mapSet (uuidv4 (uuidCalls s))
        (mkUser (uuidv4 (uuidCalls s)) (username user) (isoDate (dateCalls s')))
        (users s') /\
    (encodes (joinMessageOf (username user) (S (dateCalls s'))) ->
     result (registerUser (JStr (username user))) s' =
       Ok (RmiMiddleware.mkResponse true "Registro exitoso" (uuidv4 (uuidCalls s)))).
Proof.
  intros uid user s [Hnd [Hnb [Hk Hu]]] Hne Ha s'.
  assert (Hs' : users s' = mapDelete uid (users s) /\ uuidCalls s' = uuidCalls s).
  { unfold s', exec. rewrite (close_run uid user s Hne Ha). unfold emit.
    destruct (RmiMiddleware.messageToXml (leaveMessageOf (username user) (dateCalls s)));
      split; reflexivity. }
  destruct Hs' as [Su Si].
  assert (Hfree : nameClash s' (username user) = false).
  { unfold nameClash. rewrite Su.
    destruct (existsb _ _) eqn:He; [|reflexivity].
    exfalso. apply existsb_exists in He. destruct He as [v [Hv Hn]].
    apply String.eqb_eq in Hn.
    apply (mapDelete_values_gone (fun x => toLowerCase (username x)) uid user (users s) Hnd Ha).
    rewrite <- Hn. apply (in_map (fun x => toLowerCase (username x))). exact Hv. }
  assert (Hin : In user (mapValues (users s)))
    by exact (entries_values _ _ _ (assoc_In _ _ _ Ha)).
  split; [rewrite Su; apply assoc_mapDelete_gone; exact Hu|]. split; [exact Hfree|].
  split.
  - destruct (registerUser_stores (username user) s' (Hnb user Hin) Hfree) as [Ru _].
    rewrite Ru, Si. reflexivity.
  - intros He. unfold result.
    rewrite (registerUser_fresh (username user) s' (Hnb user Hin) Hfree).
    rewrite (emit_ok _ _ _ He), Si. reflexivity.
Qed.

End Sessions.
(* ================================================================== *)
(** ** Escaping                                                        *)
(* ================================================================== *)

Lemma replaceAll_app (c : ascii) (t a b : string) :
  replaceAll c t (a +++ b) = replaceAll c t a +++ replaceAll c t b.
Proof.
  induction a as [|d a IH]; simpl; [reflexivity|].
  destruct (d =? c)%char; simpl; rewrite IH; [|reflexivity].
  rewrite append_assoc. reflexivity.
Qed.

Lemma escapeXml_cons (c : ascii) (r : string) :
  _escapeXml (String c r) = escaped c +++ _escapeXml r.
Proof.
  unfold _escapeXml, escaped. cbn [replaceAll].
  destruct (Ascii.eqb_spec c "&") as [->|H1]; [reflexivity|]. cbn [replaceAll].
  destruct (Ascii.eqb_spec c "<") as [->|H2]; [reflexivity|]. cbn [replaceAll].
  destruct (Ascii.eqb_spec c ">") as [->|H3]; [reflexivity|]. cbn [replaceAll].
  destruct (Ascii.eqb_spec c (ascii_of_nat 34)) as [->|H4]; [reflexivity|]. cbn [replaceAll].
  destruct (Ascii.eqb_spec c "'") as [->|H5]; reflexivity.
Qed.

(** The five passes amount to one pass that replaces each character on its
    own: no pass rewrites what an earlier one produced. *)
Lemma escapeXml_one_pass (s : string) : _escapeXml s = escapeEach s.
Proof.
  induction s as [|c r IH]; [reflexivity|].
  rewrite escapeXml_cons, IH. reflexivity.
Qed.

Lemma occurs_app (c : ascii) (a b : string) :
  occurs c (a +++ b) = occurs c a || occurs c b.
Proof.
  induction a as [|d a IH]; simpl; [reflexivity|].
  rewrite IH. apply orb_assoc.
Qed.

Lemma delimiter_cases (c : ascii) :
  delimiter c = true -> c = "<"%char \/ c = ">"%char \/ c = ascii_of_nat 34 \/ c = "'"%char.
Proof.
  unfold delimiter. intros H.
  repeat (apply orb_true_iff in H; destruct H as [H|H]);
    apply Ascii.eqb_eq in H; auto.
Qed.

Lemma escaped_no_delimiter (c d : ascii) :
  delimiter c = true -> occurs c (escaped d) = false.
Proof.
  intros Hc. unfold escaped.
  destruct (Ascii.eqb_spec d "&") as [->|H1];
    [destruct (delimiter_cases c Hc) as [-> | [-> | [-> | ->]]]; reflexivity|].
  destruct (Ascii.eqb_spec d "<") as [->|H2];
    [destruct (delimiter_cases c Hc) as [-> | [-> | [-> | ->]]]; reflexivity|].
  destruct (Ascii.eqb_spec d ">") as [->|H3];
    [destruct (delimiter_cases c Hc) as [-> | [-> | [-> | ->]]]; reflexivity|].
  destruct (Ascii.eqb_spec d (ascii_of_nat 34)) as [->|H4];
    [destruct (delimiter_cases c Hc) as [-> | [-> | [-> | ->]]]; reflexivity|].
  destruct (Ascii.eqb_spec d "'") as [->|H5];
    [destruct (delimiter_cases c Hc) as [-> | [-> | [-> | ->]]]; reflexivity|].
  simpl. rewrite orb_false_r. apply Ascii.eqb_neq.
  destruct (delimiter_cases c Hc) as [-> | [-> | [-> | ->]]]; assumption.
Qed.

Lemma escaped_prefix_free (c d : ascii) (x y : string) :
  escaped c +++ x = escaped d +++ y -> c = d /\ x = y.
Proof.
  unfold escaped.
  destruct (Ascii.eqb_spec c "&") as [->|C1];
  [|destruct (Ascii.eqb_spec c "<") as [->|C2];
    [|destruct (Ascii.eqb_spec c ">") as [->|C3];
      [|destruct (Ascii.eqb_spec c (ascii_of_nat 34)) as [->|C4];
        [|destruct (Ascii.eqb_spec c "'") as [->|C5]]]]];
  (destruct (Ascii.eqb_spec d "&") as [->|D1];
   [|destruct (Ascii.eqb_spec d "<") as [->|D2];
     [|destruct (Ascii.eqb_spec d ">") as [->|D3];
       [|destruct (Ascii.eqb_spec d (ascii_of_nat 34)) as [->|D4];
         [|destruct (Ascii.eqb_spec d "'") as [->|D5]]]]]);
  cbn [append]; intros H;
  try (injection H; intros; subst; split; reflexivity);
  try discriminate H;
  try (exfalso; injection H; intros; subst; congruence).
Qed.

Lemma escapeEach_injective (a b : string) : escapeEach a = escapeEach b -> a = b.
Proof.
  revert b. induction a as [|c a IH]; intros [|d b] H; simpl in H.
  - reflexivity.
  - exfalso. unfold escaped in H.
    destruct (d =? "&")%char; [discriminate H|].
    destruct (d =? "<")%char; [discriminate H|].
    destruct (d =? ">")%char; [discriminate H|].
    destruct (d =? ascii_of_nat 34)%char; [discriminate H|].
    destruct (d =? "'")%char; discriminate H.
  - exfalso. unfold escaped in H.
    destruct (c =? "&")%char; [discriminate H|].
    destruct (c =? "<")%char; [discriminate H|].
    destruct (c =? ">")%char; [discriminate H|].
    destruct (c =? ascii_of_nat 34)%char; [discriminate H|].
    destruct (c =? "'")%char; discriminate H.
  - destruct (escaped_prefix_free c d _ _ H) as [-> H']. rewrite (IH b H'). reflexivity.
Qed.

(** X22.  [_escapeXml] loses nothing and leaves no delimiter: two texts
    with the same escaped form are equal, and the escaped form of any text
    contains none of [<], [>] and the two quotes.  In particular the passes
    do not escape twice: the ampersands that the later passes write are
    not rewritten, because the pass for [&] runs first. *)
Theorem escapeXml_lossless_and_safe :
  (forall a b : string, _escapeXml a = _escapeXml b -> a = b) /\
  (forall (s : string) (c : ascii), delimiter c = true -> occurs c (_escapeXml s) = false) /\
  (forall a b : string, _escapeXml (a +++ b) = _escapeXml a +++ _escapeXml b) /\
  _escapeXml "<&>" = "&lt;&amp;&gt;".
Proof.
  split; [|split; [|split]].
  - intros a b H. rewrite !escapeXml_one_pass in H. exact (escapeEach_injective a b H).
  - intros s c Hc. rewrite escapeXml_one_pass.
    induction s as [|d s IH]; [reflexivity|]. simpl.
    rewrite occurs_app, IH, (escaped_no_delimiter c d Hc). reflexivity.
  - intros a b. unfold _escapeXml. rewrite !replaceAll_app. reflexivity.
  - reflexivity.
Qed.

(* ================================================================== *)
(** ** The client's filter of duplicates                               *)
(* ================================================================== *)

Section Duplicates.

Import RmiClient.

Lemma existsb_eqb_In (x : string) (l : list string) :
  existsb (String.eqb x) l = true <-> In x l.
Proof.
  rewrite existsb_exists. split.
  - intros [y [Hin Hy]]. apply String.eqb_eq in Hy. subst y. exact Hin.
  - intros Hin. exists x. split; [exact Hin|apply String.eqb_refl].
Qed.

Lemma In_tl_last (x : string) (l : list string) :
  l <> [] -> In x (tl (l ++ [x])).
Proof.
  destruct l as [|y l]; [congruence|]. intros _. simpl.
  apply in_or_app. right. left. reflexivity.
Qed.

Lemma NoDup_snoc (x : string) (l : list string) :
  NoDup l -> ~ In x l -> NoDup (l ++ [x]).
Proof.
  induction l as [|y l IH]; simpl; intros Hnd Hx.
  - constructor; [intros []|constructor].
  - inversion Hnd as [|z m Hy Hl]; subst. constructor.
    + intros Hin. apply in_app_or in Hin. destruct Hin as [Hin|[Hin|[]]].
      * exact (Hy Hin).
      * apply Hx. left. symmetry. exact Hin.
    + apply IH; [exact Hl|]. intros Hin. apply Hx. right. exact Hin.
Qed.

Lemma NoDup_tl (l : list string) : NoDup l -> NoDup (tl l).
Proof. intros H. destruct H; [constructor|assumption]. Qed.

Lemma process_window (m : jsval) (c : Client) :
  NoDup (processedMessages c) /\ length (processedMessages c) <= 1000 ->
  NoDup (processedMessages (snd (processIncomingMessage m c))) /\
  length (processedMessages (snd (processIncomingMessage m c))) <= 1000.
Proof.
  intros [Hnd Hlen]. unfold processIncomingMessage.
  destruct (_generateMessageId m) as [id|e]; [|split; assumption].
  destruct (existsb (String.eqb id) (processedMessages c)) eqn:Hhas; [split; assumption|].
  assert (Hnew : ~ In id (processedMessages c)).
  { intros Hin. apply existsb_eqb_In in Hin. rewrite Hin in Hhas. discriminate Hhas. }
  cbn [snd processedMessages].
  pose proof (NoDup_snoc id _ Hnd Hnew) as Hadd.
  destruct (Nat.ltb_spec 1000 (length (processedMessages c ++ [id]))) as [Hlt|Hle].
  - split; [apply NoDup_tl; exact Hadd|].
    rewrite length_app in Hlt. simpl in Hlt.
    destruct (processedMessages c) as [|x l]; simpl in *; [lia|].
    rewrite length_app. simpl. lia.
  - split; [exact Hadd|exact Hle].
Qed.

(** X23.  The set of remembered message ids of the client holds at most
    1000 ids, without repetition, after any sequence of messages; and when
    it is full, a message with a new id pushes out the oldest id, so a
    repetition of the oldest message is handed on again. *)
Theorem client_remembers_last_1000 :
  forall (callback : bool) (ms : list jsval),
    let c := processAll ms (newClient callback) in
    NoDup (processedMessages c) /\
    length (processedMessages c) <= 1000 /\
    (forall (m : jsval) (id : string),
        _generateMessageId m = Ok id ->
        existsb (String.eqb id) (processedMessages c) = false ->
        length (processedMessages c) = 1000 ->
        fst (processIncomingMessage m c) = Ok true /\
        processedMessages (snd (processIncomingMessage m c)) =
          tl (processedMessages c) ++ [id] /\
        (forall oldest : string,
            hd_error (processedMessages c) = Some oldest ->
            existsb (String.eqb oldest)
              (processedMessages (snd (processIncomingMessage m c))) = false)).
Proof.
  intros callback ms c.
  assert (H : NoDup (processedMessages c) /\ length (processedMessages c) <= 1000).
  { unfold c, processAll.
    assert (H0 : NoDup (processedMessages (newClient callback)) /\
                 length (processedMessages (newClient callback)) <= 1000).
    { simpl. split; [constructor|lia]. }
    revert H0. generalize (newClient callback).
    induction ms as [|m ms IH]; intros c0 H0; simpl; [exact H0|].
    apply IH. apply process_window. exact H0. }
  destruct H as [Hnd Hlen]. split; [exact Hnd|]. split; [exact Hlen|].
  intros m id Hid Hnew H1000. unfold processIncomingMessage. rewrite Hid, Hnew.
  cbn [fst snd processedMessages]. split; [reflexivity|].
  rewrite length_app, H1000. simpl.
  destruct (processedMessages c) as [|x l]; [discriminate H1000|].
  split; [reflexivity|].
  intros oldest Hold. injection Hold as <-. simpl.
  inversion Hnd as [|y l' Hx Hl]; subst.
  simpl in Hnew. apply orb_false_iff in Hnew. destruct Hnew as [Hne _].
  rewrite existsb_app. simpl. rewrite String.eqb_sym, Hne.
  destruct (existsb (String.eqb x) l) eqn:He; [|reflexivity].
  exfalso. apply Hx. apply existsb_eqb_In. exact He.
Qed.

Lemma generateMessageId_fields (a b x t : string) :
  _generateMessageId
    (JObj [("userId", JStr a); ("targetUserId", JStr b);
           ("content", JStr x); ("timestamp", JStr t)]) =
  Ok (a +++ "|" +++ b +++ "|" +++ x +++ "|" +++ t).
Proof.
  unfold _generateMessageId. simpl.
  destruct b as [|ch b]; reflexivity.
Qed.

(** X24.  The filter compares messages by the four fields joined with [|]
    and nothing else.  A message whose id equals that of the message just
    processed is dropped: the callback is not called and the client is
    unchanged.  Because the separator may occur in the fields, this
    happens to messages that differ: a message to [b] with content
    [x|y] and a message to [b|x] with content [y] have the same id. *)
Theorem client_drops_equal_ids :
  forall (m m' : jsval) (c : Client) (id : string),
    _generateMessageId m = Ok id ->
    _generateMessageId m' = Ok id ->
    let c1 := snd (processIncomingMessage m c) in
    processIncomingMessage m' c1 = (Ok false, c1) /\
    (forall a b x y t : string,
        _generateMessageId
          (JObj [("userId", JStr a); ("targetUserId", JStr b);
                 ("content", JStr (x +++ "|" +++ y)); ("timestamp", JStr t)]) =
        _generateMessageId
          (JObj [("userId", JStr a); ("targetUserId", JStr (b +++ "|" +++ x));
                 ("content", JStr y); ("timestamp", JStr t)])).
Proof.
  intros m m' c id Hm Hm' c1. split.
  - assert (Hin : In id (processedMessages c1)).
    { unfold c1, processIncomingMessage. rewrite Hm.
      destruct (existsb (String.eqb id) (processedMessages c)) eqn:Hhas.
      - apply existsb_eqb_In. exact Hhas.
      - cbn [snd processedMessages].
        destruct (Nat.ltb_spec 1000 (length (processedMessages c ++ [id]))) as [Hlt|Hle].
        + apply In_tl_last. intros Hnil. rewrite Hnil in Hlt. simpl in Hlt. lia.
        + apply in_or_app. right. left. reflexivity. }
    unfold processIncomingMessage at 1. rewrite Hm'.
    apply existsb_eqb_In in Hin. rewrite Hin. reflexivity.
  - intros a b x y t. rewrite !generateMessageId_fields.
    rewrite !append_assoc. reflexivity.
Qed.

End Duplicates.

(* ================================================================== *)
(** ** The store of models/user.js                                     *)
(* ================================================================== *)

Section Store.

Import UserModel UserStore.

Lemma createUser_cases (us : list (string * User)) (uname : string)
  (uid : option string) (fresh t1 t2 : string) :
  (createUser us uname uid fresh t1 t2 = Throw (Error RmiMiddleware.emptyNameText) /\
   trim uname = "") \/
  (createUser us uname uid fresh t1 t2 = Throw (Error takenText) /\
   trim uname <> "" /\ isUsernameTaken us (trim uname) = true) \/
  (exists id,
     createUser us uname uid fresh t1 t2 =
       Ok (mkUser id (trim uname) true t1 t2,
           mapSet id (mkUser id (trim uname) true t1 t2) us) /\
     trim uname <> "" /\ isUsernameTaken us (trim uname) = false /\
     id = match uid with
          | Some i => if i =? "" then fresh else i
          | None => fresh
          end).
Proof.
  unfold createUser.
  destruct (String.eqb_spec (trim uname) "") as [He|Hne]; [left; split; [reflexivity|exact He]|].
  destruct (isUsernameTaken us (trim uname)) eqn:Ht.
  - right. left. repeat split; assumption.
  - right. right. eexists. repeat split; assumption.
Qed.

Lemma notTaken_notIn (us : list (string * User)) (n : string) :
  isUsernameTaken us (trim n) = false ->
  ~ In (toLowerCase (trim n))
       (map (fun u => toLowerCase (username u)) (mapValues us)).
Proof.
  unfold isUsernameTaken. rewrite trim_idempotent. intros Hc Hin.
  apply in_map_iff in Hin. destruct Hin as [u [Hu Hin]].
  assert (Ht : existsb (fun user => toLowerCase (username user) =? toLowerCase (trim n))
                 (mapValues us) = true).
  { apply existsb_exists. exists u. split; [exact Hin|]. rewrite Hu. apply String.eqb_refl. }
  rewrite Hc in Ht. discriminate Ht.
Qed.

Lemma create_ok (us : list (string * User)) (id n : string) (c : bool) (t1 t2 : string) :
  storeOk us -> trim n <> "" -> isUsernameTaken us (trim n) = false ->
  storeOk (mapSet id (mkUser id (trim n) c t1 t2) us).
Proof.
  intros [Hnd [Hnames [Hk Hu]]] Hne Hfree. split; [|split; [|split]].
  - apply (mapSet_NoDup _ _ (fun u => toLowerCase (username u))); [exact Hnd|].
    apply (notTaken_notIn us n Hfree).
  - intros u Hin. apply mapSet_values_cases in Hin. destruct Hin as [->|Hin].
    + simpl. split; [apply trim_idempotent|exact Hne].
    + apply Hnames. exact Hin.
  - intros k u Hin. apply mapSet_entries_cases in Hin. destruct Hin as [Hin|Hin].
    + injection Hin as -> ->. reflexivity.
    + apply Hk. exact Hin.
  - apply mapSet_keys. exact Hu.
Qed.

Lemma after_ok (us : list (string * User)) (c : call) : storeOk us -> storeOk (after us c).
Proof.
  intros Hok. destruct c as [uname uid fresh t1 t2|uid|uid c now]; simpl.
  - destruct (createUser_cases us uname uid fresh t1 t2)
      as [[-> _]|[[-> _]|[id [-> [Hne [Hfree _]]]]]]; try exact Hok.
    apply create_ok; assumption.
  - unfold removeUser. destruct (assoc uid us) as [u|]; [|exact Hok]. simpl.
    destruct Hok as [Hnd [Hnames [Hk Hu]]]. split; [|split; [|split]].
    + apply mapDelete_NoDup. exact Hnd.
    + intros v Hin. destruct (values_entries _ _ Hin) as [k Hin'].
      apply mapDelete_entries in Hin'. apply Hnames. exact (entries_values _ _ _ Hin').
    + intros k v Hin. apply mapDelete_entries in Hin. apply Hk. exact Hin.
    + apply mapDelete_keys. exact Hu.
  - unfold updateUserConnection. destruct (assoc uid us) as [u|] eqn:Ha; [|exact Hok]. simpl.
    destruct Hok as [Hnd [Hnames [Hk Hu]]]. split; [|split; [|split]].
    + rewrite (mapSet_same_image _ _ (fun u => toLowerCase (username u)) uid _ u);
        [exact Hnd|exact Ha|reflexivity].
    + intros v Hin. apply mapSet_values_cases in Hin. destruct Hin as [->|Hin].
      * simpl. apply Hnames. exact (entries_values _ _ _ (assoc_In _ _ _ Ha)).
      * apply Hnames. exact Hin.
    + intros k v Hin. apply mapSet_entries_cases in Hin. destruct Hin as [Hin|Hin].
      * injection Hin as -> ->. simpl. apply Hk. exact (assoc_In _ _ _ Ha).
      * apply Hk. exact Hin.
    + apply mapSet_keys. exact Hu.
Qed.

Lemma afterAll_ok (cs : list call) : storeOk (afterAll cs).
Proof.
  unfold afterAll.
  assert (H0 : storeOk []).
  { unfold storeOk. simpl. repeat split; try constructor; intros; contradiction. }
  revert H0. generalize (@nil (string * User)).
  induction cs as [|c cs IH]; intros us Hus; simpl; [exact Hus|].
  apply IH. apply after_ok. exact Hus.
Qed.

(** X25.  Whatever calls are made on the store of [models/user.js], the
    store is well formed, and [createUser] refuses a name that is not
    blank with the text for a name in use exactly when a stored user has
    the same name up to case and surrounding white space. *)
Theorem store_always_well_formed :
  forall (cs : list call),
    storeOk (afterAll cs) /\
    (forall (uname : string) (uid : option string) (fresh t1 t2 : string),
        trim uname <> "" ->
        (createUser (afterAll cs) uname uid fresh t1 t2 = Throw (Error takenText) <->
         exists u, In u (getAllUsers (afterAll cs)) /\
                   sameName (username u) uname = true)).
Proof.
  intros cs. pose proof (afterAll_ok cs) as Hok. split; [exact Hok|].
  intros uname uid fresh t1 t2 Hne.
  apply createUser_conflict_iff; [exact Hne|].
  intros u Hin. destruct Hok as [_ [Hnames _]]. apply (Hnames u Hin).
Qed.

Lemma find_unique {A : Type} (g : A -> string) (x : string) (a : A) (l : list A) :
  NoDup (map g l) -> In a l -> g a = x ->
  find (fun v => g v =? x) l = Some a.
Proof.
  induction l as [|b l IH]; simpl; intros Hnd Hin Hg; [contradiction|].
  inversion Hnd as [|y m Hy Hl]; subst.
  destruct Hin as [->|Hin].
  - rewrite String.eqb_refl. reflexivity.
  - destruct (String.eqb_spec (g b) (g a)) as [He|Hn].
    + exfalso. apply Hy. rewrite He. apply in_map. exact Hin.
    + apply IH; [exact Hl|exact Hin|reflexivity].
Qed.

(** X26.  A user that [createUser] has just stored is found by its id, and
    by its name in every spelling that differs only in case and
    surrounding white space; the stored name is the trimmed one. *)
Theorem created_user_is_found :
  forall (us us' : list (string * User)) (uname : string) (uid : option string)
         (fresh t1 t2 : string) (u : User),
    storeOk us ->
    createUser us uname uid fresh t1 t2 = Ok (u, us') ->
    username u = trim uname /\
    getUserById us' (userId u) = Some u /\
    (forall n : string, sameName n uname = true -> getUserByUsername us' n = Some u) /\
    isUsernameTaken us' uname = true.
Proof.
  intros us us' uname uid fresh t1 t2 u Hok Hc.
  destruct (createUser_cases us uname uid fresh t1 t2)
    as [[H _]|[[H _]|[id [H [Hne [Hfree _]]]]]]; rewrite H in Hc; try discriminate Hc.
  injection Hc as <- <-.
  pose proof (create_ok us id uname true t1 t2 Hok Hne Hfree) as [Hnd _].
  assert (Hfind : forall n, sameName n uname = true ->
            getUserByUsername (mapSet id (mkUser id (trim uname) true t1 t2) us) n =
            Some (mkUser id (trim uname) true t1 t2)).
  { intros n Hn. unfold getUserByUsername.
    apply (find_unique (fun v => toLowerCase (username v)));
      [exact Hnd|apply mapSet_values_In|].
    simpl. unfold sameName in Hn. apply String.eqb_eq in Hn. symmetry. exact Hn. }
  split; [reflexivity|]. split; [apply assoc_mapSet_same|]. split; [exact Hfind|].
  unfold isUsernameTaken. apply existsb_exists.
  exists (mkUser id (trim uname) true t1 t2). split; [apply mapSet_values_In|].
  simpl. apply String.eqb_refl.
Qed.

(** X27.  [removeUser] on an id that is not stored returns [false] and
    changes nothing.  On the id of a stored user it returns [true]; then
    the id is no longer found and the user's name is free again:
    [createUser] with that name succeeds. *)
Theorem removed_user_frees_name :
  forall (us : list (string * User)) (uid : string),
    storeOk us ->
    (getUserById us uid = None -> removeUser us uid = (false, us)) /\
    (forall u : User,
        getUserById us uid = Some u ->
        fst (removeUser us uid) = true /\
        getUserById (snd (removeUser us uid)) uid = None /\
        isUsernameTaken (snd (removeUser us uid)) (username u) = false /\
        (forall (id : option string) (fresh t1 t2 : string),
            exists v us',
              createUser (snd (removeUser us uid)) (username u) id fresh t1 t2 =
                Ok (v, us') /\ username v = username u)).
Proof.
  intros us uid [Hnd [Hnames [Hk Hu]]]. unfold getUserById, removeUser. split.
  - intros ->. reflexivity.
  - intros u Ha. rewrite Ha. cbn [fst snd].
    assert (Hin : In u (mapValues us)) by exact (entries_values _ _ _ (assoc_In _ _ _ Ha)).
    destruct (Hnames u Hin) as [Htrim Hne].
    assert (Hfree : isUsernameTaken (mapDelete uid us) (username u) = false).
    { unfold isUsernameTaken. rewrite Htrim.
      destruct (existsb _ _) eqn:He; [|reflexivity].
      exfalso. apply existsb_exists in He. destruct He as [v [Hv Hn]].
      apply String.eqb_eq in Hn.
      apply (mapDelete_values_gone (fun x => toLowerCase (username x)) uid u us Hnd Ha).
      rewrite <- Hn. apply (in_map (fun x => toLowerCase (username x))). exact Hv. }
    split; [reflexivity|]. split; [apply assoc_mapDelete_gone; exact Hu|].
    split; [exact Hfree|].
    intros id fresh t1 t2.
    destruct (createUser_cases (mapDelete uid us) (username u) id fresh t1 t2)
      as [[_ He]|[[_ [_ Ht]]|[i [Hc _]]]].
    + rewrite Htrim in He. contradiction.
    + rewrite Htrim, Hfree in Ht. discriminate Ht.
    + rewrite Hc. eexists. eexists. split; [reflexivity|]. simpl. exact Htrim.
Qed.

End Store.

(* ================================================================== *)
(** ** models/message.js                                               *)
(* ================================================================== *)

Section MessageStore.

Import MessageModel.

Lemma truthy_text (text : string) : text <> "" -> truthy (JStr text) = true.
Proof. intros H. simpl. destruct (String.eqb_spec text ""); [contradiction|reflexivity]. Qed.

Lemma timestampRegex_nonempty (now : string) :
  timestampRegex now = true -> negb (now =? "") = true.
Proof. destruct now; [intros H; discriminate H|reflexivity]. Qed.

(** X28.  Validation in [createMessage].  While no schema is loaded every
    message is accepted and stored, whatever its fields.  With the schema,
    a system message is accepted when its content is not empty and the
    clock text has the ISO shape, and is refused with the reason when the
    content is empty or the kind is not one of the six kinds.  The kind
    defaults to SYSTEM only when it is omitted: for [null] the constructor
    falls back to CHAT. *)
Theorem createMessage_validation :
  (forall (ms : list Message) (data uid : jsval) (fresh now : string),
      prop data "userId" = Ok uid ->
      exists m, createMessage false ms data fresh now = Ok (m, addToHistory ms m) /\
                messageId m = fresh /\ userId m = uid) /\
  (forall (ms : list Message) (text fresh now : string),
      timestampRegex now = true ->
      (text <> "" ->
       createSystemMessage true ms (JStr text) JUndef fresh now =
         Ok (mkMessage fresh (JStr "system") (JStr "Sistema") (JStr text) (JStr now)
               (JStr "SYSTEM"),
             addToHistory ms
               (mkMessage fresh (JStr "system") (JStr "Sistema") (JStr text) (JStr now)
                  (JStr "SYSTEM"))) /\
       createSystemMessage true ms (JStr text) JNull fresh now =
         Ok (mkMessage fresh (JStr "system") (JStr "Sistema") (JStr text) (JStr now)
               (JStr "CHAT"),
             addToHistory ms
               (mkMessage fresh (JStr "system") (JStr "Sistema") (JStr text) (JStr now)
                  (JStr "CHAT")))) /\
      createSystemMessage true ms (JStr "") JUndef fresh now =
        Throw (Error (invalidText +++ "content es requerido")) /\
      (forall kind : string,
          kind <> "" -> existsb (String.eqb kind) MessageType = false ->
          text <> "" ->
          createSystemMessage true ms (JStr text) (JStr kind) fresh now =
            Throw (Error (invalidText +++ typeText)))).
Proof.
  split.
  - intros ms data uid fresh now Hp. unfold createMessage, newMessage. rewrite Hp.
    eexists. split; [reflexivity|]. split; reflexivity.
  - intros ms text fresh now Hnow.
    pose proof (timestampRegex_nonempty now Hnow) as Hn. split; [|split].
    + intros Hne. pose proof (truthy_text text Hne) as Ht.
      unfold createSystemMessage, createMessage, newMessage, validate.
      cbn [prop get assoc String.eqb Ascii.eqb Bool.eqb truthy negb andb
           userId username content timestamp type jsToString].
      simpl in Ht. rewrite Ht, Hn. cbn [negb]. rewrite Hnow. split; reflexivity.
    + unfold createSystemMessage, createMessage, newMessage, validate.
      cbn [prop get assoc String.eqb Ascii.eqb Bool.eqb truthy negb andb
           userId username content timestamp type jsToString].
      rewrite Hn, Hnow. reflexivity.
    + intros kind Hk Hnot Hne. pose proof (truthy_text text Hne) as Ht.
      pose proof (truthy_text kind Hk) as Htk.
      unfold createSystemMessage, createMessage, newMessage, validate.
      cbn [prop get assoc String.eqb Ascii.eqb Bool.eqb truthy negb andb
           userId username content timestamp type jsToString].
      simpl in Ht, Htk. rewrite Ht, Htk. cbn [negb].
      assert (Hin : existsb (isStr (JStr kind)) MessageType = false) by exact Hnot.
      rewrite Hn, Hin, Hnow. cbn [truthy]. rewrite Htk. reflexivity.
Qed.

Lemma addToHistory_length (ms : list Message) (m : Message) :
  length ms <= MAX_HISTORY -> length (addToHistory ms m) <= MAX_HISTORY.
Proof.
  unfold addToHistory, MAX_HISTORY. intros H.
  destruct (Nat.ltb_spec 100 (length (ms ++ [m]))) as [Hlt|Hle]; [|exact Hle].
  rewrite length_app in Hlt. simpl in Hlt.
  destruct ms as [|x ms]; simpl in *; [lia|]. rewrite length_app. simpl. lia.
Qed.

Lemma created_length (schema : bool) (ms : list Message) (c : jsval * string * string) :
  length ms <= MAX_HISTORY -> length (created schema ms c) <= MAX_HISTORY.
Proof.
  intros H. destruct c as [[data fresh] now]. unfold created, createMessage.
  destruct (newMessage data fresh now) as [m|e]; [|exact H].
  destruct (negb (valid (validate schema m))); [exact H|].
  apply addToHistory_length. exact H.
Qed.

(** X29.  The history of [models/message.js] holds at most 100 messages
    after any sequence of [createMessage] calls, so [getMessageHistory]
    without argument, whose default limit is 100 here, returns the whole
    history; a call that throws stores nothing; and a message stored in a
    full history pushes out the oldest one. *)
Theorem message_history_is_bounded :
  forall (schema : bool) (cs : list (jsval * string * string)),
    let ms := fold_left (created schema) cs [] in
    length ms <= 100 /\
    getMessageHistory ms None = ms /\
    (forall (data : jsval) (fresh now : string) (e : error),
        createMessage schema ms data fresh now = Throw e ->
        created schema ms (data, fresh, now) = ms) /\
    (forall m : Message, length ms = 100 -> addToHistory ms m = tl ms ++ [m]).
Proof.
  intros schema cs ms.
  assert (Hlen : length ms <= MAX_HISTORY).
  { unfold ms. assert (H0 : length (@nil Message) <= MAX_HISTORY) by apply Nat.le_0_l.
    revert H0. generalize (@nil Message).
    induction cs as [|c cs IH]; intros l Hl; simpl; [exact Hl|].
    apply IH. apply created_length. exact Hl. }
  split; [exact Hlen|]. split; [|split].
  - unfold getMessageHistory. unfold MAX_HISTORY in *.
    rewrite Z.min_r by lia. apply slice_neg_length.
  - intros data fresh now e He. unfold created. rewrite He. reflexivity.
  - intros m H100. unfold addToHistory, MAX_HISTORY. rewrite length_app, H100. simpl.
    destruct ms; [discriminate H100|reflexivity].
Qed.

End MessageStore.

(* ================================================================== *)
(** ** The other paths at concrete inputs                              *)
(* ================================================================== *)


(** X8 at a concrete input.  LOGOUT and close on a connection that has not
    joined. *)
Lemma no_user_no_effect_witness :
  truthy JNull = false /\
  RmiMiddleware.xmlToMessage (rt := demoRuntime) (logoutFrame "id-00") =
    Ok (logoutMessage "id-00") /\
  isStr (get (logoutMessage "id-00") "type") "LOGOUT" = true /\
  SocketHandler.onMessage (rt := demoRuntime) 3 JNull (logoutFrame "id-00") twoUsers =
    (Ok JNull, twoUsers) /\
  SocketHandler.onClose (rt := demoRuntime) JNull twoUsers = (Ok tt, twoUsers).
Proof.
  assert (H1 : RmiMiddleware.xmlToMessage (rt := demoRuntime) (logoutFrame "id-00") =
               Ok (logoutMessage "id-00")) by (vm_compute; reflexivity).
  split; [reflexivity|]. split; [exact H1|]. split; [reflexivity|].
  exact (no_user_no_effect (rt := demoRuntime) 3 JNull (logoutFrame "id-00")
           (logoutMessage "id-00") twoUsers eq_refl H1 eq_refl).
Defined.

(** X9 at a concrete input.  Alice has logged out; then her transport
    closes. *)
Lemma close_of_removed_user_witness :
  truthy (JStr "id-00") = true /\
  mapGet (JStr "id-00") (users afterLogout) = None /\
  SocketHandler.onClose (rt := demoRuntime) (JStr "id-00") afterLogout =
    (Ok tt,
     setConnections (mapDeleteV (JStr "id-00") (activeConnections afterLogout)) afterLogout).
Proof.
  assert (H2 : mapGet (JStr "id-00") (users afterLogout) = None)
    by (vm_compute; reflexivity).
  split; [reflexivity|]. split; [exact H2|].
  exact (close_of_removed_user (rt := demoRuntime) (JStr "id-00") afterLogout eq_refl H2).
Defined.

(** X10 at a concrete input.  A third connection asks for the name ALICE. *)
Lemma join_with_taken_name_witness :
  RmiMiddleware.xmlToMessage (rt := demoRuntime) (joinFrame "ALICE") =
    Ok (joinRequest "ALICE") /\
  nameClash twoUsers "ALICE" = true /\
  encodes (rt := demoRuntime) (nameErrorFrame (rt := demoRuntime) (dateCalls twoUsers)) /\
  SocketHandler.onMessage (rt := demoRuntime) 3 JNull (joinFrame "ALICE") twoUsers =
    (Ok (JStr ""),
     mkState (users twoUsers) (messageHistory twoUsers) (activeConnections twoUsers)
       (openSockets twoUsers)
       (sent twoUsers ++
        [(3, encoded (rt := demoRuntime)
               (nameErrorFrame (rt := demoRuntime) (dateCalls twoUsers)))])
       (uuidCalls twoUsers) (S (dateCalls twoUsers))).
Proof.
  assert (H1 : RmiMiddleware.xmlToMessage (rt := demoRuntime) (joinFrame "ALICE") =
               Ok (joinRequest "ALICE")) by (vm_compute; reflexivity).
  assert (H5 : nameClash twoUsers "ALICE" = true) by (vm_compute; reflexivity).
  assert (H6 : encodes (rt := demoRuntime)
                 (nameErrorFrame (rt := demoRuntime) (dateCalls twoUsers)))
    by (vm_compute; reflexivity).
  split; [exact H1|]. split; [exact H5|]. split; [exact H6|].
  exact (proj1 (join_with_taken_name (rt := demoRuntime) 3 JNull (joinFrame "ALICE")
                  (joinRequest "ALICE") "ALICE" twoUsers H1 eq_refl eq_refl eq_refl H5) H6).
Defined.

(** X11 at a concrete input.  Carol joins with an id that the server does
    not know. *)
Lemma join_with_stale_id_witness :
  RmiMiddleware.xmlToMessage (rt := demoRuntime) (rejoinFrame "id-77" "Carol") =
    Ok (rejoinRequest "id-77" "Carol") /\
  existsb (fun user => userId user =? "id-77") (mapValues (users twoUsers)) = false /\
  nameClash twoUsers "Carol" = false /\
  Forall (encodes (rt := demoRuntime)) (joinMessages (rt := demoRuntime) "Carol" twoUsers) /\
  SocketHandler.onMessage (rt := demoRuntime) 3 JNull (rejoinFrame "id-77" "Carol")
    twoUsers =
    (Ok (JStr "id-02"), joinedState (rt := demoRuntime) 3 "Carol" twoUsers) /\
  assoc "id-77"
    (users (exec (SocketHandler.onMessage (rt := demoRuntime) 3 JNull
                    (rejoinFrame "id-77" "Carol")) twoUsers)) = None /\
  assoc "id-77" (activeConnections (joinedState (rt := demoRuntime) 3 "Carol" twoUsers)) =
    None.
Proof.
  assert (H1 : RmiMiddleware.xmlToMessage (rt := demoRuntime) (rejoinFrame "id-77" "Carol") =
               Ok (rejoinRequest "id-77" "Carol")) by (vm_compute; reflexivity).
  assert (H4 : "id-77" <> "") by discriminate.
  assert (H5 : "id-77" <> "system") by discriminate.
  assert (H6 : existsb (fun user => userId user =? "id-77")
                 (mapValues (users twoUsers)) = false) by (vm_compute; reflexivity).
  assert (H8 : trim "Carol" <> "") by (vm_compute; discriminate).
  assert (H9 : nameClash twoUsers "Carol" = false) by (vm_compute; reflexivity).
  assert (H10 : Forall (encodes (rt := demoRuntime))
                  (joinMessages (rt := demoRuntime) "Carol" twoUsers))
    by (vm_compute; repeat constructor).
  assert (Hd : "id-77" <> @uuidv4 demoRuntime (uuidCalls twoUsers))
    by (vm_compute; discriminate).
  pose proof (join_with_stale_id (rt := demoRuntime) 3 JNull (rejoinFrame "id-77" "Carol")
                (rejoinRequest "id-77" "Carol") "id-77" "Carol" twoUsers
                H1 eq_refl eq_refl H4 H5 H6 eq_refl H8 H9) as H.
  split; [exact H1|]. split; [exact H6|]. split; [exact H9|]. split; [exact H10|].
  split; [exact (proj1 (proj2 (proj2 H) H10))|].
  split; [exact (proj1 (proj2 H) Hd)|].
  exact (proj2 (proj2 (proj2 (proj2 H) H10)) Hd).
Defined.

(** X12 at a concrete input.  Carol joins on handle 3. *)
Lemma first_join_witness :
  RmiMiddleware.xmlToMessage (rt := demoRuntime) (joinFrame "Carol") =
    Ok (joinRequest "Carol") /\
  nameClash twoUsers "Carol" = false /\
  Forall (encodes (rt := demoRuntime)) (joinMessages (rt := demoRuntime) "Carol" twoUsers) /\
  SocketHandler.onMessage (rt := demoRuntime) 3 JNull (joinFrame "Carol") twoUsers =
    (Ok (JStr "id-02"), joinedState (rt := demoRuntime) 3 "Carol" twoUsers) /\
  kinds (newFrames twoUsers (joinedState (rt := demoRuntime) 3 "Carol" twoUsers)) =
    [(1, Some "JOIN"); (2, Some "JOIN"); (3, Some "JOIN"); (3, Some "JOIN");
     (3, Some "JOIN"); (3, Some "JOIN");
     (1, Some "USER_LIST"); (2, Some "USER_LIST"); (3, Some "USER_LIST")].
Proof.
  assert (H1 : RmiMiddleware.xmlToMessage (rt := demoRuntime) (joinFrame "Carol") =
               Ok (joinRequest "Carol")) by (vm_compute; reflexivity).
  assert (H5 : trim "Carol" <> "") by (vm_compute; discriminate).
  assert (H6 : nameClash twoUsers "Carol" = false) by (vm_compute; reflexivity).
  assert (H7 : Forall (encodes (rt := demoRuntime))
                 (joinMessages (rt := demoRuntime) "Carol" twoUsers))
    by (vm_compute; repeat constructor).
  pose proof (first_join (rt := demoRuntime) 3 JNull (joinFrame "Carol")
                (joinRequest "Carol") "Carol" twoUsers H1 eq_refl eq_refl eq_refl H5 H6) as H.
  split; [exact H1|]. split; [exact H6|]. split; [exact H7|].
  split; [exact (proj1 (proj2 (proj2 (proj2 (proj2 H))) H7))|].
  vm_compute. reflexivity.
Defined.

(** A first JOIN on a server whose builder checks its texts, under the
    name with the character U+0001: the user is stored and the JOIN
    message saved, the handler throws, nothing is written and nothing is
    bound. *)
Example first_join_with_refused_name :
  RmiMiddleware.xmlToMessage (rt := strictRuntime) (joinFrame oddName) =
    Ok (joinRequest oddName) /\
  result (SocketHandler.onMessage (rt := strictRuntime) 1 JNull (joinFrame oddName))
    (initialState [1]) =
    Throw (Error ("Invalid character in string: Error: Invalid character in string: " +++
                  oddName +++ " se ha unido al chat at index 1 at index 37")) /\
  map username
    (mapValues (users (exec (SocketHandler.onMessage (rt := strictRuntime) 1 JNull
                               (joinFrame oddName)) (initialState [1])))) = [oddName] /\
  length (messageHistory (exec (SocketHandler.onMessage (rt := strictRuntime) 1 JNull
                                  (joinFrame oddName)) (initialState [1]))) = 1 /\
  activeConnections (exec (SocketHandler.onMessage (rt := strictRuntime) 1 JNull
                             (joinFrame oddName)) (initialState [1])) = [] /\
  sent (exec (SocketHandler.onMessage (rt := strictRuntime) 1 JNull
                (joinFrame oddName)) (initialState [1])) = [].
Proof. vm_compute. repeat split; reflexivity. Qed.

(** X13 at a concrete input.  A stale id with Alice's name in another case. *)
Lemma stale_join_with_taken_name_witness :
  RmiMiddleware.xmlToMessage (rt := demoRuntime) (rejoinFrame "id-77" "alice") =
    Ok (rejoinRequest "id-77" "alice") /\
  nameClash twoUsers "alice" = true /\
  encodes (rt := demoRuntime)
    (errorReply (rt := demoRuntime) (Error RmiMiddleware.nameInUseText)
       (dateCalls twoUsers)) /\
  SocketHandler.onMessage (rt := demoRuntime) 3 JNull (rejoinFrame "id-77" "alice")
    twoUsers =
    (Ok JNull, replied (rt := demoRuntime) 3 (Error RmiMiddleware.nameInUseText) twoUsers) /\
  kinds (newFrames twoUsers
           (replied (rt := demoRuntime) 3 (Error RmiMiddleware.nameInUseText) twoUsers)) =
    [(3, Some "CHAT")].
Proof.
  assert (H1 : RmiMiddleware.xmlToMessage (rt := demoRuntime) (rejoinFrame "id-77" "alice") =
               Ok (rejoinRequest "id-77" "alice")) by (vm_compute; reflexivity).
  assert (H4 : "id-77" <> "") by discriminate.
  assert (H5 : "id-77" <> "system") by discriminate.
  assert (H6 : existsb (fun user => userId user =? "id-77")
                 (mapValues (users twoUsers)) = false) by (vm_compute; reflexivity).
  assert (H8 : trim "alice" <> "") by (vm_compute; discriminate).
  assert (H9 : nameClash twoUsers "alice" = true) by (vm_compute; reflexivity).
  assert (H10 : encodes (rt := demoRuntime)
                  (errorReply (rt := demoRuntime) (Error RmiMiddleware.nameInUseText)
                     (dateCalls twoUsers))) by (vm_compute; reflexivity).
  pose proof (stale_join_with_taken_name (rt := demoRuntime) 3 JNull
                (rejoinFrame "id-77" "alice") (rejoinRequest "id-77" "alice")
                "id-77" "alice" twoUsers H1 eq_refl eq_refl H4 H5 H6 eq_refl H8 H9) as H.
  split; [exact H1|]. split; [exact H9|]. split; [exact H10|].
  split; [exact (proj1 (proj2 H) H10)|].
  vm_compute. reflexivity.
Defined.

(** X14 at a concrete input.  Bob's private message to Alice. *)
Lemma private_frame_delivered_witness :
  RmiMiddleware.xmlToMessage (rt := demoRuntime) (privateFrame "id-01" "id-00" "secret") =
    Ok (privateRequest "id-01" "id-00" "secret") /\
  assoc "id-01" (users twoUsers) = Some bob /\
  assoc "id-00" (users twoUsers) = Some alice /\
  encodes (rt := demoRuntime)
    (privateMessage (rt := demoRuntime) "id-01" bob (JStr "id-00") alice (JStr "secret")
       (dateCalls twoUsers)) /\
  messageHistory
    (exec (SocketHandler.onMessage (rt := demoRuntime) 2 (JStr "id-01")
             (privateFrame "id-01" "id-00" "secret")) twoUsers) =
    pushCapped (messageHistory twoUsers)
      (privateMessage (rt := demoRuntime) "id-01" bob (JStr "id-00") alice (JStr "secret")
         (dateCalls twoUsers)) /\
  result (SocketHandler.onMessage (rt := demoRuntime) 2 (JStr "id-01")
            (privateFrame "id-01" "id-00" "secret")) twoUsers = Ok (JStr "id-01") /\
  map fst (newFrames twoUsers
             (exec (SocketHandler.onMessage (rt := demoRuntime) 2 (JStr "id-01")
                      (privateFrame "id-01" "id-00" "secret")) twoUsers)) = [1; 2].
Proof.
  assert (H1 : RmiMiddleware.xmlToMessage (rt := demoRuntime)
                 (privateFrame "id-01" "id-00" "secret") =
               Ok (privateRequest "id-01" "id-00" "secret")) by (vm_compute; reflexivity).
  assert (H4 : "id-01" <> "") by discriminate.
  assert (H6 : "id-00" <> "") by discriminate.
  assert (H9 : assoc "id-01" (users twoUsers) = Some bob) by (vm_compute; reflexivity).
  assert (H10 : assoc "id-00" (users twoUsers) = Some alice) by (vm_compute; reflexivity).
  assert (H11 : encodes (rt := demoRuntime)
                  (privateMessage (rt := demoRuntime) "id-01" bob (JStr "id-00") alice
                     (JStr "secret") (dateCalls twoUsers))) by (vm_compute; reflexivity).
  pose proof (private_frame_delivered (rt := demoRuntime) 2 (JStr "id-01")
                (privateFrame "id-01" "id-00" "secret")
                (privateRequest "id-01" "id-00" "secret") (JStr "secret")
                "id-01" "id-00" bob alice twoUsers
                H1 eq_refl eq_refl H4 eq_refl H6 eq_refl eq_refl H9 H10) as H.
  split; [exact H1|]. split; [exact H9|]. split; [exact H10|]. split; [exact H11|].
  split; [exact (proj1 H)|].
  split; [exact (proj1 (proj1 (proj2 (proj2 (proj2 (proj2 (proj2 H))))) H11))|].
  vm_compute. reflexivity.
Defined.

(** X15 at a concrete input.  Bob writes to an id that is not registered. *)
Lemma private_frame_refused_witness :
  RmiMiddleware.xmlToMessage (rt := demoRuntime) (privateFrame "id-01" "id-99" "secret") =
    Ok (privateRequest "id-01" "id-99" "secret") /\
  mapGet (JStr "id-99") (users twoUsers) = None /\
  encodes (rt := demoRuntime)
    (errorReply (rt := demoRuntime) (Error "Usuario destinatario no encontrado")
       (dateCalls twoUsers)) /\
  SocketHandler.onMessage (rt := demoRuntime) 2 (JStr "id-01")
    (privateFrame "id-01" "id-99" "secret") twoUsers =
    (Ok (JStr "id-01"),
     replied (rt := demoRuntime) 2 (Error "Usuario destinatario no encontrado") twoUsers).
Proof.
  assert (H1 : RmiMiddleware.xmlToMessage (rt := demoRuntime)
                 (privateFrame "id-01" "id-99" "secret") =
               Ok (privateRequest "id-01" "id-99" "secret")) by (vm_compute; reflexivity).
  assert (H3 : mapGet (get (privateRequest "id-01" "id-99" "secret") "userId")
                 (users twoUsers) <> None) by (vm_compute; discriminate).
  assert (H4 : mapGet (JStr "id-99") (users twoUsers) = None) by (vm_compute; reflexivity).
  assert (H5 : encodes (rt := demoRuntime)
                 (errorReply (rt := demoRuntime) (Error "Usuario destinatario no encontrado")
                    (dateCalls twoUsers))) by (vm_compute; reflexivity).
  split; [exact H1|]. split; [exact H4|]. split; [exact H5|].
  exact (proj2 (proj2 (proj2 (private_frame_refused (rt := demoRuntime) 2 (JStr "id-01")
                                (privateFrame "id-01" "id-99" "secret")
                                (privateRequest "id-01" "id-99" "secret") twoUsers
                                H1 eq_refl))
                  eq_refl H3 H4) H5).
Defined.

(** X16 at a concrete input.  A CHAT frame with an id that is not
    registered. *)
Lemma chat_frame_refused_witness :
  RmiMiddleware.xmlToMessage (rt := demoRuntime) (chatFrame "id-99" "Zed" "hi") =
    Ok (chatRequest "id-99" "Zed" "hi") /\
  mapGet (JStr "id-99") (users twoUsers) = None /\
  encodes (rt := demoRuntime)
    (errorReply (rt := demoRuntime) (Error "Usuario no encontrado") (dateCalls twoUsers)) /\
  SocketHandler.onMessage (rt := demoRuntime) 3 JNull (chatFrame "id-99" "Zed" "hi")
    twoUsers =
    (Ok JNull, replied (rt := demoRuntime) 3 (Error "Usuario no encontrado") twoUsers).
Proof.
  assert (H1 : RmiMiddleware.xmlToMessage (rt := demoRuntime) (chatFrame "id-99" "Zed" "hi") =
               Ok (chatRequest "id-99" "Zed" "hi")) by (vm_compute; reflexivity).
  assert (H4 : mapGet (JStr "id-99") (users twoUsers) = None) by (vm_compute; reflexivity).
  assert (H5 : encodes (rt := demoRuntime)
                 (errorReply (rt := demoRuntime) (Error "Usuario no encontrado")
                    (dateCalls twoUsers))) by (vm_compute; reflexivity).
  split; [exact H1|]. split; [exact H4|]. split; [exact H5|].
  exact (proj2 (proj2 (chat_frame_refused (rt := demoRuntime) 3 JNull
                         (chatFrame "id-99" "Zed" "hi")
                         (chatRequest "id-99" "Zed" "hi") twoUsers H1 eq_refl)
                  eq_refl H4) H5).
Defined.

(** X17 at a concrete input.  Alice leaves: by LOGOUT she is told, by a
    close she is not. *)
Lemma logout_and_close_witness :
  RmiMiddleware.xmlToMessage (rt := demoRuntime) (logoutFrame "id-00") =
    Ok (logoutMessage "id-00") /\
  assoc "id-00" (users twoUsers) = Some alice /\
  encodes (rt := demoRuntime)
    (leaveMessageOf (rt := demoRuntime) (username alice) (dateCalls twoUsers)) /\
  result (SocketHandler.onMessage (rt := demoRuntime) 1 (JStr "id-00") (logoutFrame "id-00"))
    twoUsers = Ok JNull /\
  users afterClose = users afterLogout /\
  map fst (newFrames twoUsers afterLogout) = [1; 2] /\
  map fst (newFrames twoUsers afterClose) = [2].
Proof.
  assert (H1 : RmiMiddleware.xmlToMessage (rt := demoRuntime) (logoutFrame "id-00") =
               Ok (logoutMessage "id-00")) by (vm_compute; reflexivity).
  assert (H3 : "id-00" <> "") by discriminate.
  assert (H4 : assoc "id-00" (users twoUsers) = Some alice) by (vm_compute; reflexivity).
  assert (H5 : encodes (rt := demoRuntime)
                 (leaveMessageOf (rt := demoRuntime) (username alice) (dateCalls twoUsers)))
    by (vm_compute; reflexivity).
  pose proof (logout_and_close (rt := demoRuntime) 1 (logoutFrame "id-00")
                (logoutMessage "id-00") "id-00" alice twoUsers H1 eq_refl H3 H4) as H.
  split; [exact H1|]. split; [exact H4|]. split; [exact H5|].
  split; [exact (proj1 (proj2 (proj2 (proj2 (proj2 (proj2 H)))) H5))|].
  split; [exact (proj1 (proj2 H))|].
  split; vm_compute; reflexivity.
Defined.

(** X30 at a concrete input, on a server whose builder checks its texts.
    The user with the character U+0001 in its name is registered and
    bound to handle 1; LOGOUT on its connection. *)
Lemma logout_with_refused_leave_witness :
  RmiMiddleware.xmlToMessage (rt := strictRuntime) (logoutFrame "id-00") =
    Ok (logoutMessage "id-00") /\
  assoc "id-00" (users oddBound) = Some oddUser /\
  RmiMiddleware.messageToXml (rt := strictRuntime)
    (leaveMessageOf (rt := strictRuntime) (username oddUser) (dateCalls oddBound)) =
    Throw (Error ("Invalid character in string: " +++ oddName +++
                  " ha abandonado el chat at index 1")) /\
  assoc "id-00"
    (users (exec (SocketHandler.onMessage (rt := strictRuntime) 1 (JStr "id-00")
                    (logoutFrame "id-00")) oddBound)) = None /\
  assoc "id-00"
    (activeConnections (exec (SocketHandler.onMessage (rt := strictRuntime) 1 (JStr "id-00")
                                (logoutFrame "id-00")) oddBound)) = Some 1.
Proof.
  assert (H1 : RmiMiddleware.xmlToMessage (rt := strictRuntime) (logoutFrame "id-00") =
               Ok (logoutMessage "id-00")) by (vm_compute; reflexivity).
  assert (H3 : "id-00" <> "") by discriminate.
  assert (H4 : assoc "id-00" (users oddBound) = Some oddUser) by (vm_compute; reflexivity).
  assert (H5 : RmiMiddleware.messageToXml (rt := strictRuntime)
                 (leaveMessageOf (rt := strictRuntime) (username oddUser)
                    (dateCalls oddBound)) =
               Throw (Error ("Invalid character in string: " +++ oddName +++
                             " ha abandonado el chat at index 1")))
    by (vm_compute; reflexivity).
  assert (H6 : NoDup (map fst (users oddBound)))
    by (vm_compute; repeat constructor; intros []).
  pose proof (logout_with_refused_leave (rt := strictRuntime) 1 (logoutFrame "id-00")
                (logoutMessage "id-00") "id-00" oddUser oddBound _ H1 eq_refl H3 H4 H5) as H.
  split; [exact H1|]. split; [exact H4|]. split; [exact H5|].
  exact (proj1 (proj2 (proj2 (proj2 (proj2 (proj2 H))))) H6 1 eq_refl).
Defined.

(** X18 at a concrete input.  Alice reconnects on handle 3, then her first
    connection closes. *)
Lemma close_after_reconnect_witness :
  RmiMiddleware.xmlToMessage (rt := demoRuntime) (rejoinFrame "id-00" "Alice") =
    Ok rejoinMessage /\
  assoc "id-00" (users twoUsers) = Some alice /\
  assoc "id-00"
    (activeConnections
       (exec (SocketHandler.onMessage (rt := demoRuntime) 3 JNull
                (rejoinFrame "id-00" "Alice")) twoUsers)) = Some 3 /\
  activeConnections
    (exec (SocketHandler.onClose (rt := demoRuntime) (JStr "id-00"))
       (exec (SocketHandler.onMessage (rt := demoRuntime) 3 JNull
                (rejoinFrame "id-00" "Alice")) twoUsers)) =
    mapDelete "id-00" (activeConnections twoUsers) /\
  map username
    (mapValues
       (users
          (exec (SocketHandler.onClose (rt := demoRuntime) (JStr "id-00"))
             (exec (SocketHandler.onMessage (rt := demoRuntime) 3 JNull
                      (rejoinFrame "id-00" "Alice")) twoUsers)))) = ["Bob"].
Proof.
  assert (H1 : RmiMiddleware.xmlToMessage (rt := demoRuntime) (rejoinFrame "id-00" "Alice") =
               Ok rejoinMessage) by (vm_compute; reflexivity).
  assert (H4 : "id-00" <> "") by discriminate.
  assert (H5 : "id-00" <> "system") by discriminate.
  assert (H6 : assoc "id-00" (users twoUsers) = Some alice) by (vm_compute; reflexivity).
  pose proof (close_after_reconnect (rt := demoRuntime) 3 JNull (rejoinFrame "id-00" "Alice")
                rejoinMessage "id-00" alice twoUsers H1 eq_refl eq_refl H4 H5 H6 eq_refl) as H.
  split; [exact H1|]. split; [exact H6|]. split; [exact (proj1 H)|].
  split; [exact (proj1 (proj2 (proj2 (proj2 H))))|].
  vm_compute. reflexivity.
Defined.

(** X19 at a concrete input.  A limit of [-2] on a history of 25 messages. *)
Lemma getMessageHistory_nonpositive_limit_witness :
  (-2 <= 0)%Z /\
  RmiMiddleware.getMessageHistory (Some (-2)%Z) longHistory =
    (Ok (skipn 2 (messageHistory longHistory)), longHistory) /\
  length (skipn 2 (messageHistory longHistory)) = 23.
Proof.
  assert (H1 : (-2 <= 0)%Z) by lia.
  split; [exact H1|].
  split; [exact (proj1 (getMessageHistory_nonpositive_limit (-2)%Z longHistory H1))|].
  vm_compute. reflexivity.
Defined.

(** X20 at a concrete input.  A third connection asks for a name of one
    space. *)
Lemma join_with_blank_name_witness :
  RmiMiddleware.xmlToMessage (rt := demoRuntime) (joinFrame " ") = Ok (joinRequest " ") /\
  trim " " = "" /\
  nameClash twoUsers " " = false /\
  encodes (rt := demoRuntime)
    (errorReply (rt := demoRuntime) (Error RmiMiddleware.emptyNameText)
       (dateCalls twoUsers)) /\
  SocketHandler.onMessage (rt := demoRuntime) 3 JNull (joinFrame " ") twoUsers =
    (Ok JNull, replied (rt := demoRuntime) 3 (Error RmiMiddleware.emptyNameText) twoUsers).
Proof.
  assert (H1 : RmiMiddleware.xmlToMessage (rt := demoRuntime) (joinFrame " ") =
               Ok (joinRequest " ")) by (vm_compute; reflexivity).
  assert (H5 : trim " " = "") by (vm_compute; reflexivity).
  assert (H6 : nameClash twoUsers " " = false) by (vm_compute; reflexivity).
  assert (H7 : encodes (rt := demoRuntime)
                 (errorReply (rt := demoRuntime) (Error RmiMiddleware.emptyNameText)
                    (dateCalls twoUsers))) by (vm_compute; reflexivity).
  split; [exact H1|]. split; [exact H5|]. split; [exact H6|]. split; [exact H7|].
  exact (proj2 (proj2 (join_with_blank_name (rt := demoRuntime) 3 JNull (joinFrame " ")
                         (joinRequest " ") " " twoUsers H1 eq_refl eq_refl eq_refl H5 H6))
           H7).
Defined.

(** X21 at a concrete input.  Alice's transport closes; her name can be
    registered again. *)
Lemma departure_frees_name_witness :
  registryOk twoUsers /\
  assoc "id-00" (users twoUsers) = Some alice /\
  nameClash afterClose "Alice" = false /\
  encodes (rt := demoRuntime)
    (joinMessageOf (rt := demoRuntime) (username alice) (S (dateCalls afterClose))) /\
  result (SocketHandler.registerUser (rt := demoRuntime) (JStr "Alice")) afterClose =
    Ok (RmiMiddleware.mkResponse true "Registro exitoso" "id-02").
Proof.
  assert (H1 : registryOk twoUsers).
  { unfold registryOk. vm_compute. split; [|split; [|split]].
    - repeat (constructor; [simpl; intuition discriminate|]). constructor.
    - intros u [<-|[<-|[]]]; discriminate.
    - intros k u [H|[H|[]]]; injection H as <- <-; reflexivity.
    - repeat (constructor; [simpl; intuition discriminate|]). constructor. }
  assert (H2 : "id-00" <> "") by discriminate.
  assert (H3 : assoc "id-00" (users twoUsers) = Some alice) by (vm_compute; reflexivity).
  assert (H4 : encodes (rt := demoRuntime)
                 (joinMessageOf (rt := demoRuntime) (username alice)
                    (S (dateCalls afterClose)))) by (vm_compute; reflexivity).
  pose proof (departure_frees_name (rt := demoRuntime) "id-00" alice twoUsers H1 H2 H3) as H.
  split; [exact H1|]. split; [exact H3|].
  split; [exact (proj1 (proj2 H))|]. split; [exact H4|].
  exact (proj2 (proj2 (proj2 H)) H4).
Defined.

(** X24 at a concrete input.  Two messages that differ in target and
    content. *)
Lemma client_drops_equal_ids_witness :
  toBob <> toBobX /\
  RmiClient._generateMessageId toBob = Ok "id-00|id-01|x|y|2024-05-01T10:01:00.000Z" /\
  RmiClient._generateMessageId toBobX = Ok "id-00|id-01|x|y|2024-05-01T10:01:00.000Z" /\
  RmiClient.processIncomingMessage toBobX
    (snd (RmiClient.processIncomingMessage toBob (RmiClient.newClient true))) =
    (Ok false, snd (RmiClient.processIncomingMessage toBob (RmiClient.newClient true))) /\
  RmiClient.received
    (snd (RmiClient.processIncomingMessage toBob (RmiClient.newClient true))) = [toBob].
Proof.
  split; [discriminate|]. split; [reflexivity|]. split; [reflexivity|].
  split; [|reflexivity].
  exact (proj1 (client_drops_equal_ids toBob toBobX (RmiClient.newClient true)
                  "id-00|id-01|x|y|2024-05-01T10:01:00.000Z" eq_refl eq_refl)).
Defined.

(** X26 at a concrete input.  Ana is created in an empty store and looked up
    as [ANA] with white space around. *)
Lemma created_user_is_found_witness :
  UserStore.storeOk [] /\
  UserModel.createUser [] " Ana " None "u-1" "2024-05-01T10:00:00.000Z"
    "2024-05-01T10:00:00.000Z" = Ok (ana, anaStored) /\
  sameName "  ANA " " Ana " = true /\
  UserStore.getUserByUsername anaStored "  ANA " = Some ana.
Proof.
  assert (H1 : UserStore.storeOk []).
  { unfold UserStore.storeOk. simpl. repeat split; try constructor; intros; contradiction. }
  assert (H2 : UserModel.createUser [] " Ana " None "u-1" "2024-05-01T10:00:00.000Z"
                 "2024-05-01T10:00:00.000Z" = Ok (ana, anaStored))
    by (vm_compute; reflexivity).
  assert (H3 : sameName "  ANA " " Ana " = true) by (vm_compute; reflexivity).
  split; [exact H1|]. split; [exact H2|]. split; [exact H3|].
  exact (proj1 (proj2 (proj2 (created_user_is_found [] anaStored " Ana " None "u-1"
                                "2024-05-01T10:00:00.000Z" "2024-05-01T10:00:00.000Z" ana
                                H1 H2))) "  ANA " H3).
Defined.

(** X27 at a concrete input.  Ana is removed; her name is free. *)
Lemma removed_user_frees_name_witness :
  UserStore.storeOk anaStored /\
  UserStore.getUserById anaStored "u-1" = Some ana /\
  UserStore.removeUser anaStored "u-1" = (true, []) /\
  UserModel.isUsernameTaken (snd (UserStore.removeUser anaStored "u-1")) "Ana" = false.
Proof.
  assert (H1 : UserStore.storeOk anaStored).
  { unfold UserStore.storeOk, anaStored. simpl. split; [|split; [|split]].
    - repeat (constructor; [simpl; intuition discriminate|]). constructor.
    - intros u [<-|[]]. split; [vm_compute; reflexivity|discriminate].
    - intros k u [H|[]]. injection H as <- <-. reflexivity.
    - repeat (constructor; [simpl; intuition discriminate|]). constructor. }
  pose proof (proj2 (removed_user_frees_name anaStored "u-1" H1) ana eq_refl) as H.
  split; [exact H1|]. split; [reflexivity|]. split; [reflexivity|].
  exact (proj1 (proj2 (proj2 H))).
Defined.

Lemma strokes_injective (i j : nat) : strokes i = strokes j -> i = j.
Proof.
  revert j. induction i as [|i IH]; intros [|j] H; simpl in H;
    try reflexivity; try discriminate H.
  injection H as H. rewrite (IH j H). reflexivity.
Qed.

(** X5 at a concrete input.  Alice joins, Bob is registered over HTTP, then
    Carol registers, with the generator of ids [id-], [id-i], [id-ii], ... *)
Lemma registration_never_replaces_witness :
  (forall i j, @uuidv4 tallyRuntime i = @uuidv4 tallyRuntime j -> i = j) /\
  trim "Carol" <> "" /\
  nameClash (runEvents (rt := tallyRuntime)
               [Frame 1 JNull (joinFrame "Alice"); HttpRegister (JStr "Bob")]
               (initialState [1])) "Carol" = false /\
  map fst
    (users (exec (SocketHandler.registerUser (rt := tallyRuntime) (JStr "Carol"))
              (runEvents (rt := tallyRuntime)
                 [Frame 1 JNull (joinFrame "Alice"); HttpRegister (JStr "Bob")]
                 (initialState [1])))) = ["id-"; "id-i"; "id-ii"].
Proof.
  assert (H1 : forall i j, @uuidv4 tallyRuntime i = @uuidv4 tallyRuntime j -> i = j).
  { intros i j H. apply strokes_injective. injection H as H. exact H. }
  assert (H2 : trim "Carol" <> "") by (vm_compute; discriminate).
  assert (H3 : nameClash (runEvents (rt := tallyRuntime)
                 [Frame 1 JNull (joinFrame "Alice"); HttpRegister (JStr "Bob")]
                 (initialState [1])) "Carol" = false) by (vm_compute; reflexivity).
  pose proof (proj2 (proj2 (registration_never_replaces (rt := tallyRuntime) [1]
                       [Frame 1 JNull (joinFrame "Alice"); HttpRegister (JStr "Bob")] H1)
                     "Carol" H2 H3)) as H.
  split; [exact H1|]. split; [exact H2|]. split; [exact H3|].
  rewrite H. vm_compute. reflexivity.
Defined.

(** X1 at a concrete input.  Alice has joined; Bob joins on handle 2, with
    the generator of ids [id-], [id-i], [id-ii], ... *)
Lemma frame_changes_registry_once_witness :
  (forall i j, @uuidv4 tallyRuntime i = @uuidv4 tallyRuntime j -> i = j) /\
  idsIssued (rt := tallyRuntime)
    (runEvents (rt := tallyRuntime) [Frame 1 JNull (joinFrame "Alice")] (initialState [1; 2])) /\
  registryEdit
    (users (runEvents (rt := tallyRuntime) [Frame 1 JNull (joinFrame "Alice")]
              (initialState [1; 2])))
    (users (exec (SocketHandler.onMessage (rt := tallyRuntime) 2 JNull (joinFrame "Bob"))
              (runEvents (rt := tallyRuntime) [Frame 1 JNull (joinFrame "Alice")]
                 (initialState [1; 2])))).
Proof.
  assert (H1 : forall i j, @uuidv4 tallyRuntime i = @uuidv4 tallyRuntime j -> i = j).
  { intros i j H. apply strokes_injective. injection H as H. exact H. }
  assert (H2 : idsIssued (rt := tallyRuntime)
                 (runEvents (rt := tallyRuntime) [Frame 1 JNull (joinFrame "Alice")]
                    (initialState [1; 2]))).
  { intros k Hk. vm_compute in Hk. destruct Hk as [<-|[]].
    exists 0. split; [vm_compute; lia|reflexivity]. }
  split; [exact H1|]. split; [exact H2|].
  exact (frame_changes_registry_once (rt := tallyRuntime) 2 JNull (joinFrame "Bob")
           (runEvents (rt := tallyRuntime) [Frame 1 JNull (joinFrame "Alice")]
              (initialState [1; 2])) H1 H2).
Defined.

(** X6 at a concrete input, on a server whose builder checks its texts:
    the frame of the one character U+0001 makes the handler throw, and
    what it throws is what the builder threw for the reply. *)
Lemma handlers_throw_only_builder_errors_witness :
  result (SocketHandler.onMessage (rt := strictRuntime) 1 JNull (chr 1)) (initialState [1]) =
    Throw (Error ("Invalid character in string: Error: " +++
                  RmiMiddleware.invalidXmlText +++
                  Sax.located "Non-whitespace before first tag." 0 1 (chr 1) +++
                  " at index 78")) /\
  exists (e0 : error) (n : nat),
    RmiMiddleware.messageToXml (rt := strictRuntime)
      (errorReply (rt := strictRuntime) e0 n) =
    Throw (Error ("Invalid character in string: Error: " +++
                  RmiMiddleware.invalidXmlText +++
                  Sax.located "Non-whitespace before first tag." 0 1 (chr 1) +++
                  " at index 78")).
Proof.
  assert (H1 : result (SocketHandler.onMessage (rt := strictRuntime) 1 JNull (chr 1))
                 (initialState [1]) =
               Throw (Error ("Invalid character in string: Error: " +++
                             RmiMiddleware.invalidXmlText +++
                             Sax.located "Non-whitespace before first tag." 0 1 (chr 1) +++
                             " at index 78"))) by (vm_compute; reflexivity).
  split; [exact H1|].
  exact (proj1 (handlers_throw_only_builder_errors (rt := strictRuntime) 1 JNull (chr 1)
                  (initialState [1]) _) H1).
Defined.
